(** * 4everevents booking backend: slot availability and booking pipeline

    Shallow embedding of the Express.js backend (the server file of the
    repository): [generateBookingId], the [validateBooking] chain, the
    handler of [GET /api/availability/:date] and the handler of
    [POST /api/bookings].

    Conventions of the embedding.
    - A JavaScript number that holds an integer is a [Z]; [NaN] is [None].
      Time values stay below 2^53, where doubles are exact; [parseInt]
      rounds a longer numeral to the nearest double as the engine does.
    - A string is the UTF-8 text of the JavaScript string, one [ascii] per
      byte.
    - A [Date] object is its time value in milliseconds since the epoch,
      [None] for an Invalid Date.
    - Local time is UTC plus a fixed offset [tz] (minutes east of UTC);
      daylight-saving shifts inside the day of a request are not modelled.
    - The JavaScript engine's date parser and ISO printer, and the
      validator.js predicates, are parameters of the development.
    - External collaborators (calendar API, Gmail API, sqlite) are
      parameters that tell whether a call returns or throws. *)

From Stdlib Require Import ZArith NArith Zpow_facts List String Ascii Bool Lia.
Import ListNotations.

Open Scope string_scope.
Open Scope Z_scope.

(** ** JavaScript runtime pieces used by the server *)

Module JS.

Definition number := option Z.
Definition NaN : number := None.

Definition msPerSecond : Z := 1000.
Definition msPerMinute : Z := 60000.
Definition msPerHour : Z := 3600000.
Definition msPerDay : Z := 86400000.

(** ECMAScript time arithmetic (all on finite integers here). *)
Definition Day (t : Z) : Z := t / msPerDay.
Definition HourFromTime (t : Z) : Z := (t / msPerHour) mod 24.
Definition MinFromTime (t : Z) : Z := (t / msPerMinute) mod 60.
Definition MakeTime (h m s ms : Z) : Z :=
  h * msPerHour + m * msPerMinute + s * msPerSecond + ms.
Definition MakeDate (day time : Z) : Z := day * msPerDay + time.
Definition TimeClip (t : Z) : option Z :=
  if Z.abs t <=? 8640000000000000 then Some t else None.

(** [a + b] and [a * b] on numbers: NaN is absorbing. *)
Definition add (a b : number) : number :=
  match a, b with Some x, Some y => Some (x + y) | _, _ => None end.
Definition mul (a b : number) : number :=
  match a, b with Some x, Some y => Some (x * y) | _, _ => None end.

(** Relational operators: any comparison with NaN is false. *)
Definition lt (a b : number) : bool :=
  match a, b with Some x, Some y => x <? y | _, _ => false end.
Definition gt (a b : number) : bool := lt b a.
Definition le (a b : number) : bool :=
  match a, b with Some x, Some y => x <=? y | _, _ => false end.

(** *** Characters *)

Definition is_digit (c : ascii) : bool :=
  let n := nat_of_ascii c in (48 <=? n)%nat && (n <=? 57)%nat.
Definition is_lower (c : ascii) : bool :=
  let n := nat_of_ascii c in (97 <=? n)%nat && (n <=? 122)%nat.
Definition is_upper (c : ascii) : bool :=
  let n := nat_of_ascii c in (65 <=? n)%nat && (n <=? 90)%nat.
Definition is_space (c : ascii) : bool :=
  let n := nat_of_ascii c in
  ((9 <=? n)%nat && (n <=? 13)%nat) || (n =? 32)%nat.

Definition digit_value (c : ascii) : Z := Z.of_nat (nat_of_ascii c) - 48.

(** Value of a hexadecimal digit, if [c] is one. *)
Definition hex_value (c : ascii) : option Z :=
  let n := Z.of_nat (nat_of_ascii c) in
  if is_digit c then Some (n - 48)
  else if (97 <=? n) && (n <=? 102) then Some (n - 87)
  else if (65 <=? n) && (n <=? 70) then Some (n - 55)
  else None.

Definition upper_char (c : ascii) : ascii :=
  if is_lower c then ascii_of_nat (nat_of_ascii c - 32) else c.

(** [String.prototype.toUpperCase] on ASCII text. *)
Fixpoint toUpperCase (s : string) : string :=
  match s with
  | EmptyString => EmptyString
  | String c r => String (upper_char c) (toUpperCase r)
  end.

(** [s.substring(from, to)] for [0 <= from <= to]. *)
Definition substring (from to : nat) (s : string) : string :=
  String.substring from (to - from) s.

(** *** parseInt(string) without a radix argument

    Leading white space is skipped, a sign is read, a [0x]/[0X] prefix
    selects radix 16, and the longest prefix of digits is converted to the
    nearest double; no digit at all gives NaN. *)

Definition byte_is (c : ascii) (n : N) : bool := (N_of_ascii c =? n)%N.

(** U+00A0 in UTF-8. *)
Definition is_space2 (c c1 : ascii) : bool := byte_is c 194 && byte_is c1 160.

(** The three-byte white space and line terminators: U+1680,
    U+2000 to U+200A, U+2028, U+2029, U+202F, U+205F, U+3000, U+FEFF. *)
Definition is_space3 (c c1 c2 : ascii) : bool :=
  let n2 := N_of_ascii c2 in
  (byte_is c 225 && byte_is c1 154 && byte_is c2 128)
  || (byte_is c 226 && byte_is c1 128
      && (((128 <=? n2)%N && (n2 <=? 138)%N)
          || byte_is c2 168 || byte_is c2 169 || byte_is c2 175))
  || (byte_is c 226 && byte_is c1 129 && byte_is c2 159)
  || (byte_is c 227 && byte_is c1 128 && byte_is c2 128)
  || (byte_is c 239 && byte_is c1 187 && byte_is c2 191).

Fixpoint skip_space (s : string) : string :=
  match s with
  | String c r =>
      if is_space c then skip_space r
      else
        match r with
        | String c1 r1 =>
            if is_space2 c c1 then skip_space r1
            else
              match r1 with
              | String c2 r2 =>
                  if is_space3 c c1 c2 then skip_space r2 else s
              | EmptyString => s
              end
        | EmptyString => s
        end
  | EmptyString => EmptyString
  end.

Fixpoint dec_prefix (acc : option Z) (s : string) : option Z :=
  match s with
  | String c r =>
      if is_digit c
      then dec_prefix (Some (10 * match acc with Some a => a | None => 0 end
                             + digit_value c)) r
      else acc
  | EmptyString => acc
  end.

Fixpoint hex_prefix (acc : option Z) (s : string) : option Z :=
  match s with
  | String c r =>
      match hex_value c with
      | Some d => hex_prefix (Some (16 * match acc with Some a => a | None => 0 end + d)) r
      | None => acc
      end
  | EmptyString => acc
  end.

Definition parse_unsigned (s : string) : option Z :=
  match s with
  | String "0" (String "x" r) => hex_prefix None r
  | String "0" (String "X" r) => hex_prefix None r
  | _ => dec_prefix None s
  end.

(** The Number value for the integer [n]: [n] itself up to 2^53 in
    magnitude, beyond that the nearest double, a tie going to the even
    significand. A magnitude that rounds past the largest double becomes
    an infinity; the computations that receive the result of [parseInt]
    here (a Date built from it, which is then invalid, and [res.json],
    which prints [null]) treat an infinity as they treat NaN, and it is
    [None] as well. *)
Definition round_to_double (n : Z) : number :=
  let a := Z.abs n in
  let e := Z.log2 a - 52 in
  if e <=? 0 then Some n
  else
    let q := a / 2 ^ e in
    let r := a mod 2 ^ e in
    let half := 2 ^ (e - 1) in
    let q' := if (half <? r) || ((r =? half) && Z.odd q) then q + 1 else q in
    let v := q' * 2 ^ e in
    if v <? 2 ^ 1024 then Some (Z.sgn n * v) else None.

Definition to_double (n : option Z) : number :=
  match n with Some v => round_to_double v | None => None end.

Definition parseInt (s : string) : number :=
  to_double
    match skip_space s with
    | String "-" r => option_map Z.opp (parse_unsigned r)
    | String "+" r => parse_unsigned r
    | r => parse_unsigned r
    end.

(** *** Two-digit decimal rendering, as in the [HH:MM] of toTimeString *)

Definition digit_char (d : Z) : ascii := ascii_of_nat (48 + Z.to_nat d).

Definition pad2 (n : Z) : string :=
  String (digit_char (n / 10)) (String (digit_char (n mod 10)) EmptyString).

(** *** Number to string, for an integer below 10^21 in magnitude: its
    decimal digits, after a minus sign when it is negative. *)

Fixpoint decimal_aux (fuel : nat) (n : Z) (acc : string) : string :=
  match fuel with
  | O => acc
  | S fuel' =>
      let acc' := String (digit_char (n mod 10)) acc in
      if n / 10 =? 0 then acc' else decimal_aux fuel' (n / 10) acc'
  end.

(** The fuel, one more than the binary length of [n], exceeds the number
    of decimal digits. *)
Definition decimal (n : Z) : string :=
  decimal_aux (S (S (Z.to_nat (Z.log2 n)))) n EmptyString.

Definition Number_toString (n : Z) : string :=
  if n <? 0 then String "-" (decimal (- n)) else decimal n.

(** *** Property lookup on an object literal

    Names that every object literal answers to through [Object.prototype];
    what is found there is a function or an object. *)
Definition Object_prototype_has (name : string) : bool :=
  existsb (String.eqb name)
    ["constructor"; "hasOwnProperty"; "isPrototypeOf"; "propertyIsEnumerable";
     "toLocaleString"; "toString"; "valueOf"; "__proto__";
     "__defineGetter__"; "__defineSetter__"; "__lookupGetter__";
     "__lookupSetter__"].

(** *** Number.prototype.toString(36) on a non-negative integer *)

Definition digit36 (d : N) : ascii :=
  if (d <? 10)%N then ascii_of_N (48 + d) else ascii_of_N (87 + d).

Fixpoint toString36_aux (fuel : nat) (n : N) (acc : string) : string :=
  match fuel with
  | O => acc
  | S fuel' =>
      let acc' := String (digit36 (n mod 36)) acc in
      if (n / 36 =? 0)%N then acc' else toString36_aux fuel' (n / 36) acc'
  end.

Definition toString36 (n : N) : string :=
  toString36_aux (S (N.size_nat n)) n EmptyString.

End JS.

(** ** The calendar collaborator (Google Calendar API v3) *)

Module Cal.

(** [event.start] / [event.end]: a timed event carries [dateTime], an
    all-day event carries [date]. An [Event] has both ends; entries that
    may lack one are [Item]s, below. *)
Record EventDateTime := { dateTime : option string; date : option string }.

Record Event := { start : EventDateTime; end_ : EventDateTime }.

(** Outcome of [calendar.events.list]: the awaited call throws, or it
    returns a response whose [data.items] may be undefined. *)
Inductive ListResult :=
| ListThrows
| ListReturns (items : option (list Event)).

(** An entry of [data.items] as it arrives: the handlers read
    [event.start] and [event.end] without checking that they are there.
    An [Event] is an item that has both; an item that is [null] behaves as
    one without [start]. *)
Record Item := {
  item_start : option EventDateTime;
  item_end : option EventDateTime
}.

Definition item_of_event (e : Event) : Item :=
  {| item_start := Some (start e); item_end := Some (end_ e) |}.

Inductive ItemsResult :=
| ItemsThrows
| ItemsReturns (items : option (list Item)).

(** A list response all of whose items have both ends, seen as items. *)
Definition items_result_of (r : ListResult) : ItemsResult :=
  match r with
  | ListThrows => ItemsThrows
  | ListReturns items => ItemsReturns (option_map (map item_of_event) items)
  end.


(** Outcome of [calendar.events.insert]: throws, or returns [data.id]. *)
Inductive InsertResult :=
| InsertThrows
| InsertReturns (id : string).

End Cal.

(** ** Date objects in the server's local time zone *)

Section Dates.

Variable tz : Z.
Variable Date_parse : string -> option Z.
Variable Date_toISOString : Z -> string.

Definition Date := option Z.

Definition LocalTime (t : Z) : Z := t + tz * JS.msPerMinute.
Definition UTC (t : Z) : Z := t - tz * JS.msPerMinute.

(** [new Date(string)] *)
Definition new_Date (s : string) : Date :=
  match Date_parse s with
  | Some t => JS.TimeClip t
  | None => None
  end.

(** [new Date(number)] *)
Definition new_Date_of_number (n : JS.number) : Date :=
  match n with
  | Some t => JS.TimeClip t
  | None => None
  end.

Definition getTime (d : Date) : JS.number := d.

(** [d.setHours(h, m, s, ms)], returning the updated object. *)
Definition setHours (d : Date) (h m s ms : Z) : Date :=
  match d with
  | Some t =>
      JS.TimeClip
        (UTC (JS.MakeDate (JS.Day (LocalTime t)) (JS.MakeTime h m s ms)))
  | None => None
  end.

Definition getHours (d : Date) : JS.number :=
  option_map (fun t => JS.HourFromTime (LocalTime t)) d.

(** [d.toISOString()]: throws a RangeError ([None]) on an Invalid Date. *)
Definition toISOString (d : Date) : option string :=
  option_map Date_toISOString d.

(** The clock part [HH:MM:SS] that [d.toTimeString()] starts with (the zone
    suffix that follows is left out). *)
Definition toTimeString (d : Date) : string :=
  match d with
  | Some t =>
      let l := LocalTime t in
      JS.pad2 (JS.HourFromTime l) ++ ":" ++ JS.pad2 (JS.MinFromTime l)
        ++ ":" ++ JS.pad2 ((l / JS.msPerSecond) mod 60)
  | None => "Invalid Date"
  end.

End Dates.

(** ** GET /api/availability/:date *)

Module Availability.

Record Slot := { time : string; available : bool; datetime : string }.

Inductive Response :=
| Json200 (date : string) (available_slots : list Slot)
          (duration_minutes : JS.number)
    (* res.json({ success: true, date, available_slots, duration_minutes }) *)
| Json500 (error : string).
    (* res.status(500).json({ success: false, error }) *)

Definition success (r : Response) : bool :=
  match r with Json200 _ _ _ => true | Json500 _ => false end.

Definition slots_of (r : Response) : list Slot :=
  match r with Json200 _ l _ => l | Json500 _ => [] end.

Definition workingHours_start : Z := 9.
Definition workingHours_end : Z := 18.

(** Values taken by the variable of
    [for (let i = start; i < stop; i += step)], for [step > 0]. *)
Definition for_range (start stop step : Z) : list Z :=
  map (fun k => start + step * Z.of_nat k)
      (seq 0 (Z.to_nat ((stop - start + step - 1) / step))).

(** [a || b] on strings that may be undefined. *)
Definition or_else (a b : option string) : option string :=
  match a with
  | Some s => if String.eqb s "" then b else a
  | None => b
  end.

Section Handler.

Variable tz : Z.
Variable Date_parse : string -> option Z.
Variable Date_toISOString : Z -> string.
Variable calendar_events_list : string -> string -> Cal.ListResult.

Local Abbreviation new_Date := (new_Date Date_parse).
Local Abbreviation setHours := (setHours tz).
Local Abbreviation getHours := (getHours tz).
Local Abbreviation toISOString := (toISOString Date_toISOString).
Local Abbreviation toTimeString := (toTimeString tz).

(** [new Date(x.dateTime || x.date)] *)
Definition event_Date (x : Cal.EventDateTime) : Date :=
  match or_else (Cal.dateTime x) (Cal.date x) with
  | Some s => new_Date s
  | None => None
  end.

(** The inner try block: the day's events, [[]] when anything throws. *)
Definition fetch_existingEvents (date : string) : list Cal.Event :=
  let startOfDay := setHours (new_Date date) 0 0 0 0 in
  let endOfDay := setHours (new_Date date) 23 59 59 999 in
  match toISOString startOfDay, toISOString endOfDay with
  | Some timeMin, Some timeMax =>
      match calendar_events_list timeMin timeMax with
      | Cal.ListReturns (Some items) => items
      | Cal.ListReturns None => []
      | Cal.ListThrows => []
      end
  | _, _ => []
  end.

Definition slotStart_of (date : string) (hour minute : Z) : Date :=
  setHours (new_Date date) hour minute 0 0.

Definition slotEnd_of (slotStart : Date) (duration : string) : Date :=
  new_Date_of_number
    (JS.add (getTime slotStart) (JS.mul (JS.parseInt duration) (Some 60000))).

Definition hasConflict (existingEvents : list Cal.Event)
    (slotStart slotEnd : Date) : bool :=
  existsb (fun event =>
      let eventStart := event_Date (Cal.start event) in
      let eventEnd := event_Date (Cal.end_ event) in
      JS.lt slotStart eventEnd && JS.gt slotEnd eventStart)
    existingEvents.

(** The test guarding [availableSlots.push]. *)
Definition retained (existingEvents : list Cal.Event)
    (slotStart slotEnd : Date) : bool :=
  negb (hasConflict existingEvents slotStart slotEnd)
  && JS.le (getHours slotEnd) (Some workingHours_end).

(** One pass through the body of the inner loop; [None] when the body
    throws (toISOString on an Invalid Date). *)
Definition slot_step (date duration : string) (existingEvents : list Cal.Event)
    (availableSlots : list Slot) (hour minute : Z) : option (list Slot) :=
  let slotStart := slotStart_of date hour minute in
  let slotEnd := slotEnd_of slotStart duration in
  if retained existingEvents slotStart slotEnd then
    match toISOString slotStart with
    | Some iso =>
        Some (availableSlots ++
              [ {| time := JS.substring 0 5 (toTimeString slotStart);
                   available := true;
                   datetime := iso |} ])%list
    | None => None
    end
  else Some availableSlots.

Definition minute_loop (date duration : string) (existingEvents : list Cal.Event)
    (acc : option (list Slot)) (hour : Z) : option (list Slot) :=
  fold_left (fun acc minute =>
      match acc with
      | Some availableSlots =>
          slot_step date duration existingEvents availableSlots hour minute
      | None => None
      end)
    (for_range 0 60 30) acc.

Definition slot_loop (date duration : string) (existingEvents : list Cal.Event)
    : option (list Slot) :=
  fold_left (minute_loop date duration existingEvents)
    (for_range workingHours_start workingHours_end 1) (Some []).

(** The handler. [duration] is [req.query.duration]; when it is absent the
    destructuring default [120] applies. *)
Definition get_availability (date : string) (duration : option string)
    : Response :=
  let duration := match duration with Some d => d | None => "120" end in
  let existingEvents := fetch_existingEvents date in
  match slot_loop date duration existingEvents with
  | Some availableSlots =>
      Json200 date availableSlots (JS.parseInt duration)
  | None => Json500 "Failed to get availability"
  end.

End Handler.

(** The same handler on items as they arrive, where [start] or [end] may
    be missing: reading [dateTime] of an undefined [start] throws inside
    the callback of [some], and the outer catch answers 500. *)
Module Items.

(** [Array.prototype.some]: stops at the first [true]; [None] when the
    callback throws. *)
Fixpoint some {A : Type} (f : A -> option bool) (l : list A) : option bool :=
  match l with
  | [] => Some false
  | x :: r =>
      match f x with
      | Some true => Some true
      | Some false => some f r
      | None => None
      end
  end.

Section Handler.

Variable tz : Z.
Variable Date_parse : string -> option Z.
Variable Date_toISOString : Z -> string.
Variable calendar_events_list : string -> string -> Cal.ItemsResult.

Local Abbreviation new_Date := (new_Date Date_parse).
Local Abbreviation setHours := (setHours tz).
Local Abbreviation getHours := (getHours tz).
Local Abbreviation toISOString := (toISOString Date_toISOString).
Local Abbreviation toTimeString := (toTimeString tz).

Definition fetch_existingEvents (date : string) : list Cal.Item :=
  let startOfDay := setHours (new_Date date) 0 0 0 0 in
  let endOfDay := setHours (new_Date date) 23 59 59 999 in
  match toISOString startOfDay, toISOString endOfDay with
  | Some timeMin, Some timeMax =>
      match calendar_events_list timeMin timeMax with
      | Cal.ItemsReturns (Some items) => items
      | Cal.ItemsReturns None => []
      | Cal.ItemsThrows => []
      end
  | _, _ => []
  end.

(** The callback of [existingEvents.some]. *)
Definition overlaps (slotStart slotEnd : Date) (event : Cal.Item)
    : option bool :=
  match Cal.item_start event with
  | None => None
  | Some start =>
      let eventStart := event_Date Date_parse start in
      match Cal.item_end event with
      | None => None
      | Some end_ =>
          let eventEnd := event_Date Date_parse end_ in
          Some (JS.lt slotStart eventEnd && JS.gt slotEnd eventStart)
      end
  end.

Definition hasConflict (existingEvents : list Cal.Item)
    (slotStart slotEnd : Date) : option bool :=
  some (overlaps slotStart slotEnd) existingEvents.

Definition slot_step (date duration : string) (existingEvents : list Cal.Item)
    (availableSlots : list Slot) (hour minute : Z) : option (list Slot) :=
  let slotStart := slotStart_of tz Date_parse date hour minute in
  let slotEnd := slotEnd_of slotStart duration in
  match hasConflict existingEvents slotStart slotEnd with
  | None => None
  | Some conflict =>
      if negb conflict && JS.le (getHours slotEnd) (Some workingHours_end)
      then
        match toISOString slotStart with
        | Some iso =>
            Some (availableSlots ++
                  [ {| time := JS.substring 0 5 (toTimeString slotStart);
                       available := true;
                       datetime := iso |} ])%list
        | None => None
        end
      else Some availableSlots
  end.

Definition minute_loop (date duration : string) (existingEvents : list Cal.Item)
    (acc : option (list Slot)) (hour : Z) : option (list Slot) :=
  fold_left (fun acc minute =>
      match acc with
      | Some availableSlots =>
          slot_step date duration existingEvents availableSlots hour minute
      | None => None
      end)
    (for_range 0 60 30) acc.

Definition slot_loop (date duration : string) (existingEvents : list Cal.Item)
    : option (list Slot) :=
  fold_left (minute_loop date duration existingEvents)
    (for_range workingHours_start workingHours_end 1) (Some []).

Definition get_availability (date : string) (duration : option string)
    : Response :=
  let duration := match duration with Some d => d | None => "120" end in
  let existingEvents := fetch_existingEvents date in
  match slot_loop date duration existingEvents with
  | Some availableSlots =>
      Json200 date availableSlots (JS.parseInt duration)
  | None => Json500 "Failed to get availability"
  end.

End Handler.

End Items.

End Availability.

(** ** generateBookingId *)

Module IdGenerator.

Fixpoint digits36 (ds : list N) : string :=
  match ds with
  | [] => EmptyString
  | d :: r => String (JS.digit36 d) (digits36 r)
  end.

(** [Math.random().toString(36)]: the random double lies in [[0, 1)], so
    its base-36 rendering is ["0"] or ["0."] followed by the fraction digits
    [frac] (each below 36) that the engine prints. *)
Definition Math_random_toString36 (frac : list N) : string :=
  match frac with
  | [] => "0"
  | _ => "0." ++ digits36 frac
  end.

(** [now] is [Date.now()], [frac] the fraction digits of [Math.random()]. *)
Definition generateBookingId (now : N) (frac : list N) : string :=
  let prefix := "4EV" in
  let timestamp := JS.toUpperCase (JS.toString36 now) in
  let random :=
    JS.toUpperCase (JS.substring 2 6 (Math_random_toString36 frac)) in
  prefix ++ "-" ++ timestamp ++ "-" ++ random.

(** Reading an upper-case base-36 numeral back. *)
Definition value36 (c : ascii) : N :=
  let n := N_of_ascii c in
  if JS.is_digit c then (n - 48)%N else (n - 55)%N.

Fixpoint decode36_aux (acc : N) (s : string) : N :=
  match s with
  | EmptyString => acc
  | String c r => decode36_aux (36 * acc + value36 c)%N r
  end.

Definition decode36 (s : string) : N := decode36_aux 0%N s.

(** Characters of an upper-case base-36 numeral: [0-9A-Z]. *)
Definition is_base36_upper (c : ascii) : bool := JS.is_digit c || JS.is_upper c.

Fixpoint all_chars (p : ascii -> bool) (s : string) : bool :=
  match s with
  | EmptyString => true
  | String c r => p c && all_chars p r
  end.

End IdGenerator.

(** ** POST /api/bookings *)

Module Booking.

(** The JSON body of the request; a field that is absent is [None], a
    present field is given by its string form. *)
Record Body := {
  clientName : option string;
  clientEmail : option string;
  clientPhone : option string;
  eventDate : option string;
  eventTime : option string;
  eventType : option string;
  location : option string;
  message : option string;
  duration : option string
}.

(** An entry of [validationResult(req).array()]. *)
Record ValidationError := { path : string; msg : string }.

(** An entry of the [issues] array sent back and logged. *)
Record Issue := { param : string; issue_msg : string }.

(** Row of table [bookings]; [status] takes the column default. *)
Record BookingRow := {
  booking_id : string;
  client_name : string;
  client_email : string;
  client_phone : string;
  event_date : Date;
  event_time : string;
  event_type : string;
  row_location : string;
  row_message : option string;
  row_duration : JS.number;
  status : string;
  calendar_event_id : option string
}.

(** The value serialised into column [details] of [audit_logs]. *)
Inductive AuditDetails :=
| IssuesJson (issues : list Issue)
| BookingCreatedJson (bookingId clientEmail : string).

Record AuditRow := {
  request_id : option string;
  event : string;
  details : AuditDetails
}.

Record Db := { bookings : list BookingRow; audit_logs : list AuditRow }.

(** [resource] of [calendar.events.insert]. *)
Record CalendarResource := {
  summary : string;
  description : string;
  start_dateTime : string;
  end_dateTime : string;
  attendee_email : string;
  attendee_displayName : string;
  resource_location : string
}.

Inductive EmailTemplate := ConfirmationEmail | BusinessNotification.

(** A message handed to [sendGmailMessage]; subject and HTML are rendered
    from the template and the booking. *)
Record Email := {
  to : option string;
  template : EmailTemplate;
  email_bookingId : string
}.

Inductive Response :=
| BookingConfirmed (booking_id : string) (calendar_event_id : option string)
                   (message : string)
    (* res.json({ success: true, booking_id, calendar_event_id, message }) *)
| ValidationFailed (errors : list Issue)
    (* res.status(400).json({ success: false, errors }) *)
| BadRequest (error : string)
    (* res.status(400).json({ success: false, error }) *)
| ServerError (error : string).
    (* res.status(500).json({ success: false, error }) *)

Definition http_status (r : Response) : Z :=
  match r with
  | BookingConfirmed _ _ _ => 200
  | ValidationFailed _ => 400
  | BadRequest _ => 400
  | ServerError _ => 500
  end.

Definition success (r : Response) : bool :=
  match r with BookingConfirmed _ _ _ => true | _ => false end.

(** What the handler does, in program order. *)
Inductive Effect :=
| EValidate (errors : list ValidationError)
| EGenerateId (bookingId : string)
| ECalendarInsert (call : option (CalendarResource * Cal.InsertResult))
    (* the try block around calendar.events.insert; [None] when it throws
       before the request is sent *)
| EDbInsertBooking (row : BookingRow) (ok : bool)
| EAuditInsert (row : AuditRow) (ok : bool)
| EGmailSend (mail : Email) (ok : bool)
| ERespond (status : Z).

(** *** The validateBooking chain *)

(** [matches(/^([0-1]?[0-9]|2[0-3]):[0-5][0-9]$/)] *)
Definition minutes_ok (m1 m2 : ascii) : bool :=
  JS.is_digit m1 && (nat_of_ascii m1 <=? 53)%nat && JS.is_digit m2.

Definition matches_time (s : string) : bool :=
  match s with
  | String h1 (String ":" (String m1 (String m2 EmptyString))) =>
      JS.is_digit h1 && minutes_ok m1 m2
  | String h1 (String h2 (String ":" (String m1 (String m2 EmptyString)))) =>
      (((Ascii.eqb h1 "0" || Ascii.eqb h1 "1") && JS.is_digit h2)
       || (Ascii.eqb h1 "2" && JS.is_digit h2 && (nat_of_ascii h2 <=? 51)%nat))
      && minutes_ok m1 m2
  | _ => false
  end.

(** [isIn(options)] *)
Definition isIn (options : list string) (s : string) : bool :=
  existsb (String.eqb s) options.

Definition eventType_options : list string :=
  ["consultation"; "engagement"; "wedding"; "followup"].

(** Integer literals [^[-+]?[0-9]+$] and their value. *)
Definition int_literal (s : string) : option Z :=
  let digits r :=
    if IdGenerator.all_chars JS.is_digit r && negb (String.eqb r "")
    then JS.dec_prefix None r else None in
  match s with
  | String "-" r => option_map Z.opp (digits r)
  | String "+" r => digits r
  | _ => digits s
  end.

(** [isInt({ min, max })] *)
Definition isInt (min max : Z) (s : string) : bool :=
  match int_literal s with
  | Some v => (min <=? v) && (v <=? max)
  | None => false
  end.

(** [x * 60000] coerces [x] to a number; on the integer literals that
    [isInt] lets through this is their value. *)
Definition ToNumber (s : string) : JS.number := int_literal s.

(** [s.split('T')[0]] *)
Fixpoint before_T (s : string) : string :=
  match s with
  | EmptyString => EmptyString
  | String c r => if Ascii.eqb c "T" then EmptyString else String c (before_T r)
  end.

Definition eventTypes (eventType : string) : option (string * string) :=
  if String.eqb eventType "consultation" then
    Some ("4everevents - Initial Consultation",
          "Wedding photography consultation and planning session")
  else if String.eqb eventType "engagement" then
    Some ("4everevents - Engagement Session", "Engagement photography session")
  else if String.eqb eventType "wedding" then
    Some ("4everevents - Wedding Photography",
          "Wedding day photography coverage")
  else if String.eqb eventType "followup" then
    Some ("4everevents - Follow-up Call", "Post-session follow-up and planning")
  else None.

(** [eventTypes[eventType]]: an own entry of the literal, else a member
    inherited from [Object.prototype], whose [title] and [description] are
    undefined, else undefined. *)
Inductive EventConfig :=
| OwnEntry (title description : string)
| InheritedMember
| NoEntry.

Definition eventConfig_of (eventType : string) : EventConfig :=
  match eventTypes eventType with
  | Some (title, description) => OwnEntry title description
  | None =>
      if JS.Object_prototype_has eventType then InheritedMember else NoEntry
  end.

Section Handler.

(** The JavaScript engine. *)
Variable Date_parse : string -> option Z.
Variable Date_toISOString : Z -> string.

(** validator.js, as called by the chain. *)
Variable isLength : nat -> string -> bool.      (* isLength({ min }) *)
Variable isEmail : string -> bool.
Variable isISO8601 : string -> bool.
Variable trim : string -> string.
Variable escape : string -> string.
Variable normalizeEmail : string -> string.

(** The request's surroundings and the collaborators. *)
Variable requestId : option string.             (* res.locals.requestId || null *)
Variable Date_now : N.
Variable Math_random : list N.
Variable BUSINESS_EMAIL : option string.
Variable calendar_events_insert : CalendarResource -> Cal.InsertResult.
Variable db_io_error : BookingRow -> bool.      (* sqlite fails to write *)
Variable audit_throws : AuditRow -> bool.
Variable gmail_send_throws : Email -> bool.

Local Abbreviation new_Date := (new_Date Date_parse).
Local Abbreviation toISOString := (toISOString Date_toISOString).

(** String form of a field on which validators and sanitizers run. *)
Definition str (x : option string) : string :=
  match x with Some s => s | None => "" end.

Definition check (field : string) (ok : bool) : list ValidationError :=
  if ok then [] else [ {| path := field; msg := "Invalid value" |} ].

(** [validationResult(req).array()] after the [validateBooking] chains. *)
Definition validationResult (b : Body) : list ValidationError :=
  (check "clientName" (isLength 2 (trim (str (clientName b))))
   ++ check "clientEmail" (isEmail (str (clientEmail b)))
   ++ check "clientPhone" (isLength 10 (trim (str (clientPhone b))))
   ++ check "eventDate" (isISO8601 (str (eventDate b)))
   ++ check "eventTime" (matches_time (str (eventTime b)))
   ++ check "eventType" (isIn eventType_options (str (eventType b)))
   ++ check "location" (isLength 3 (trim (str (location b))))
   ++ match duration b with
      | Some d => check "duration" (isInt 30 720 d)
      | None => []
      end)%list.

(** [{ param: err.path || err.param || 'unknown', msg: err.msg || 'Invalid value' }] *)
Definition issue_of (err : ValidationError) : Issue :=
  {| param := if String.eqb (path err) "" then "unknown" else path err;
     issue_msg := if String.eqb (msg err) "" then "Invalid value" else msg err |}.

(** An insert into [audit_logs] inside its own try/catch. *)
Definition audit_insert (db : Db) (row : AuditRow) : Db * bool :=
  if audit_throws row then (db, false)
  else ({| bookings := bookings db;
           audit_logs := (audit_logs db ++ [row])%list |}, true).

(** [INSERT INTO bookings]: [booking_id] is UNIQUE and [event_date] is
    NOT NULL in the schema; [None] when the callback receives an error. *)
Definition db_insert_booking (db : Db) (row : BookingRow) : option Db :=
  if db_io_error row then None
  else if existsb (fun r => String.eqb (booking_id r) (booking_id row))
                  (bookings db) then None
  else match event_date row with
       | None => None
       | Some _ =>
           Some {| bookings := (bookings db ++ [row])%list;
                   audit_logs := audit_logs db |}
       end.

Definition nl : string := String (ascii_of_nat 10) EmptyString.

(** The try block around [calendar.events.insert]: the request sent (if
    any) and the resulting [calendarEventId]. *)
Definition calendar_attempt (clientName clientEmail clientPhone eventType
    location : string) (message : option string) (bookingId : string)
    (eventStart eventEnd : Date)
    : option (CalendarResource * Cal.InsertResult) * option string :=
  match eventConfig_of eventType, toISOString eventStart,
        toISOString eventEnd with
  | NoEntry, _, _ => (None, None)
  | eventConfig, Some startIso, Some endIso =>
      let '(title, descr) :=
        match eventConfig with
        | OwnEntry title description => (title, description)
        | _ => ("undefined", "undefined")
        end in
      let resource :=
        {| summary := title ++ " - " ++ clientName;
           description :=
             descr ++ nl ++ nl ++ "Client: " ++ clientName ++ nl
             ++ "Email: " ++ clientEmail ++ nl
             ++ "Phone: " ++ clientPhone ++ nl
             ++ "Location: " ++ location ++ nl ++ nl
             ++ "Message: "
             ++ match message with Some m => m | None => "undefined" end
             ++ nl ++ nl ++ "Booking ID: " ++ bookingId;
           start_dateTime := startIso;
           end_dateTime := endIso;
           attendee_email := clientEmail;
           attendee_displayName := clientName;
           resource_location := location |} in
      match calendar_events_insert resource with
      | Cal.InsertReturns id =>
          (Some (resource, Cal.InsertReturns id), Some id)
      | Cal.InsertThrows => (Some (resource, Cal.InsertThrows), None)
      end
  | _, _, _ => (None, None)
  end.

(** [req.body] after the sanitizers of the chain. *)
Record Sanitized := {
  s_clientName : string;
  s_clientEmail : string;
  s_clientPhone : string;
  s_eventDate : Date;                           (* toDate() *)
  s_eventTime : string;
  s_eventType : string;
  s_location : string;
  s_message : option string;
  s_duration : JS.number                        (* default 120 *)
}.

Definition sanitize (req : Body) : Sanitized :=
  {| s_clientName := escape (trim (str (clientName req)));
     s_clientEmail := normalizeEmail (str (clientEmail req));
     s_clientPhone := trim (str (clientPhone req));
     s_eventDate := new_Date (str (eventDate req));
     s_eventTime := str (eventTime req);
     s_eventType := str (eventType req);
     s_location := escape (trim (str (location req)));
     s_message := option_map (fun m => escape (trim m)) (message req);
     s_duration :=
       match duration req with Some d => ToNumber d | None => Some 120 end |}.

(** [new Date(`${dateStr}T${eventTime}:00`)] *)
Definition eventStart_of (b : Sanitized) : Date :=
  let dateStr :=
    match s_eventDate b with
    | Some t => before_T (Date_toISOString t)
    | None => "null"
    end in
  new_Date (dateStr ++ "T" ++ s_eventTime b ++ ":00").

(** The values bound by [INSERT INTO bookings]. *)
Definition booking_row (b : Sanitized) (bookingId : string)
    (calendarEventId : option string) : BookingRow :=
  {| booking_id := bookingId; client_name := s_clientName b;
     client_email := s_clientEmail b; client_phone := s_clientPhone b;
     event_date := s_eventDate b; event_time := s_eventTime b;
     event_type := s_eventType b; row_location := s_location b;
     row_message := s_message b; row_duration := s_duration b;
     status := "confirmed";
     calendar_event_id := calendarEventId |}.

(** The handler: response, database afterwards, effects in order. *)
Definition post_bookings (req : Body) (db : Db)
    : Response * Db * list Effect :=
  let validation := validationResult req in
  match validation with
  | _ :: _ =>
      let issues := map issue_of validation in
      let arow := {| request_id := requestId; event := "validation_failed";
                     details := IssuesJson issues |} in
      let '(db1, logged) := audit_insert db arow in
      (ValidationFailed issues, db1,
       [EValidate validation; EAuditInsert arow logged; ERespond 400])
  | [] =>
      let b := sanitize req in
      let bookingId := IdGenerator.generateBookingId Date_now Math_random in
      let eventStart := eventStart_of b in
      match eventStart with
      | None =>
          (BadRequest "Invalid date/time format", db,
           [EValidate []; EGenerateId bookingId; ERespond 400])
      | Some _ =>
          let eventEnd :=
            new_Date_of_number
              (JS.add (getTime eventStart)
                 (JS.mul (s_duration b) (Some 60000))) in
          let '(call, calendarEventId) :=
            calendar_attempt (s_clientName b) (s_clientEmail b)
              (s_clientPhone b) (s_eventType b) (s_location b) (s_message b)
              bookingId eventStart eventEnd in
          let row := booking_row b bookingId calendarEventId in
          match db_insert_booking db row with
          | None =>
              (ServerError "Failed to create booking", db,
               [EValidate []; EGenerateId bookingId; ECalendarInsert call;
                EDbInsertBooking row false; ERespond 500])
          | Some db1 =>
              let arow :=
                {| request_id := requestId; event := "booking_created";
                   details :=
                     BookingCreatedJson bookingId (s_clientEmail b) |} in
              let '(db2, logged) := audit_insert db1 arow in
              let confirmation :=
                {| to := Some (s_clientEmail b);
                   template := ConfirmationEmail;
                   email_bookingId := bookingId |} in
              let notification :=
                {| to := BUSINESS_EMAIL; template := BusinessNotification;
                   email_bookingId := bookingId |} in
              (BookingConfirmed bookingId calendarEventId
                 "Booking confirmed successfully!",
               db2,
               [EValidate []; EGenerateId bookingId; ECalendarInsert call;
                EDbInsertBooking row true; EAuditInsert arow logged;
                EGmailSend confirmation
                  (negb (gmail_send_throws confirmation));
                EGmailSend notification
                  (negb (gmail_send_throws notification));
                ERespond 200])
          end
      end
  end.

End Handler.

(** The stages of the pipeline, as the effects show them. *)
Inductive Stage :=
| Validate | GenerateId | CalendarEvent | Persist | Audit
| NotifyClient | NotifyBusiness | Respond.

Definition stage_of (e : Effect) : Stage :=
  match e with
  | EValidate _ => Validate
  | EGenerateId _ => GenerateId
  | ECalendarInsert _ => CalendarEvent
  | EDbInsertBooking _ _ => Persist
  | EAuditInsert _ _ => Audit
  | EGmailSend m _ =>
      match template m with
      | ConfirmationEmail => NotifyClient
      | BusinessNotification => NotifyBusiness
      end
  | ERespond _ => Respond
  end.

End Booking.

(** ** A concrete engine and concrete collaborators, for running the model

    [Sample.Date_parse] reads the two ISO forms the server meets,
    [YYYY-MM-DD] (UTC midnight) and [YYYY-MM-DDTHH:MM:SS] (local time), and
    [Sample.Date_toISOString] prints years 0000 to 9999. *)

Module Sample.

Definition days_from_civil (y m d : Z) : Z :=
  let y := if m <=? 2 then y - 1 else y in
  let era := y / 400 in
  let yoe := y - era * 400 in
  let doy := (153 * (if 2 <? m then m - 3 else m + 9) + 2) / 5 + d - 1 in
  let doe := yoe * 365 + yoe / 4 - yoe / 100 + doy in
  era * 146097 + doe - 719468.

Definition civil_from_days (z : Z) : Z * Z * Z :=
  let z := z + 719468 in
  let era := z / 146097 in
  let doe := z - era * 146097 in
  let yoe := (doe - doe / 1460 + doe / 36524 - doe / 146096) / 365 in
  let doy := doe - (365 * yoe + yoe / 4 - yoe / 100) in
  let mp := (5 * doy + 2) / 153 in
  let d := doy - (153 * mp + 2) / 5 + 1 in
  let m := if mp <? 10 then mp + 3 else mp - 9 in
  (yoe + era * 400 + (if m <=? 2 then 1 else 0), m, d).

Definition field (from len : nat) (s : string) : option Z :=
  let r := String.substring from len s in
  if IdGenerator.all_chars JS.is_digit r && (String.length r =? len)%nat
  then JS.dec_prefix None r else None.

Definition sep (at_ : nat) (c : string) (s : string) : bool :=
  String.eqb (String.substring at_ 1 s) c.

Definition parse_date (s : string) : option Z :=
  match field 0 4 s, field 5 2 s, field 8 2 s with
  | Some y, Some m, Some d =>
      if sep 4 "-" s && sep 7 "-" s
         && (1 <=? m) && (m <=? 12) && (1 <=? d) && (d <=? 31)
      then Some (days_from_civil y m d * JS.msPerDay) else None
  | _, _, _ => None
  end.

Definition parse_clock (s : string) : option Z :=
  match field 11 2 s, field 14 2 s, field 17 2 s with
  | Some h, Some m, Some sec =>
      if sep 10 "T" s && sep 13 ":" s && sep 16 ":" s
         && (h <=? 23) && (m <=? 59) && (sec <=? 59)
      then Some (JS.MakeTime h m sec 0) else None
  | _, _, _ => None
  end.

Definition Date_parse (tz : Z) (s : string) : option Z :=
  if (String.length s =? 10)%nat then parse_date s
  else if (String.length s =? 19)%nat then
    match parse_date (String.substring 0 10 s), parse_clock s with
    | Some day, Some clock => Some (UTC tz (day + clock))
    | _, _ => None
    end
  else None.

Definition pad3 (n : Z) : string :=
  String (JS.digit_char (n / 100)) (JS.pad2 (n mod 100)).

Definition pad4 (n : Z) : string := JS.pad2 (n / 100) ++ JS.pad2 (n mod 100).

Definition Date_toISOString (t : Z) : string :=
  let '(y, m, d) := civil_from_days (JS.Day t) in
  pad4 y ++ "-" ++ JS.pad2 m ++ "-" ++ JS.pad2 d ++ "T"
  ++ JS.pad2 (JS.HourFromTime t) ++ ":" ++ JS.pad2 (JS.MinFromTime t) ++ ":"
  ++ JS.pad2 ((t / JS.msPerSecond) mod 60) ++ "."
  ++ pad3 (t mod JS.msPerSecond) ++ "Z".

(** A server whose local time is UTC. *)
Definition tz : Z := 0.

(** Stand-ins for validator.js. *)
Definition isLength (min : nat) (s : string) : bool := (min <=? String.length s)%nat.
Fixpoint has_at (s : string) : bool :=
  match s with
  | EmptyString => false
  | String c r => Ascii.eqb c "@" || has_at r
  end.
Definition isEmail (s : string) : bool := has_at s.
Definition isISO8601 (s : string) : bool :=
  match parse_date s with Some _ => true | None => false end.
Definition trim (s : string) : string := s.
Definition escape (s : string) : string := s.
Definition normalizeEmail (s : string) : string := s.

Definition no_events (timeMin timeMax : string) : Cal.ListResult :=
  Cal.ListReturns (Some []).
Definition calendar_down (timeMin timeMax : string) : Cal.ListResult :=
  Cal.ListThrows.

Definition timed (from to : string) : Cal.Event :=
  {| Cal.start := {| Cal.dateTime := Some from; Cal.date := None |};
     Cal.end_ := {| Cal.dateTime := Some to; Cal.date := None |} |}.

Definition one_event (timeMin timeMax : string) : Cal.ListResult :=
  Cal.ListReturns (Some [timed "2025-08-20T10:00:00" "2025-08-20T10:30:00"]).

Definition get_availability (cal : string -> string -> Cal.ListResult) :=
  Availability.get_availability tz (Date_parse tz) Date_toISOString cal.

Definition request : Booking.Body :=
  {| Booking.clientName := Some "Test";
     Booking.clientEmail := Some "test@example.com";
     Booking.clientPhone := Some "5551234567";
     Booking.eventDate := Some "2025-08-20";
     Booking.eventTime := Some "10:00";
     Booking.eventType := Some "consultation";
     Booking.location := Some "Studio";
     Booking.message := None;
     Booking.duration := None |}.

Definition brunch : Booking.Body :=
  {| Booking.clientName := Some "Test";
     Booking.clientEmail := Some "test@example.com";
     Booking.clientPhone := Some "5551234567";
     Booking.eventDate := Some "2025-08-20";
     Booking.eventTime := Some "10:00";
     Booking.eventType := Some "brunch";
     Booking.location := Some "Studio";
     Booking.message := None;
     Booking.duration := None |}.

(** A week date passes a lenient ISO 8601 check but the engine's parser
    rejects it, so [toDate()] leaves [null]. *)
Definition week_date : Booking.Body :=
  {| Booking.clientName := Some "Test";
     Booking.clientEmail := Some "test@example.com";
     Booking.clientPhone := Some "5551234567";
     Booking.eventDate := Some "2025-W34-3";
     Booking.eventTime := Some "10:00";
     Booking.eventType := Some "consultation";
     Booking.location := Some "Studio";
     Booking.message := None;
     Booking.duration := None |}.

Definition empty_db : Booking.Db :=
  {| Booking.bookings := []; Booking.audit_logs := [] |}.

Definition post_bookings
    (isISO : string -> bool)
    (calendar : Booking.CalendarResource -> Cal.InsertResult)
    (db_io_error : Booking.BookingRow -> bool) :=
  Booking.post_bookings (Date_parse tz) Date_toISOString
    isLength isEmail isISO trim escape normalizeEmail
    (Some "req-1") 1755648000000%N [18; 35; 0; 7; 22]%N
    (Some "hello@4everevents.example")
    calendar db_io_error (fun _ => false) (fun _ => false).

Definition calendar_ok (r : Booking.CalendarResource) : Cal.InsertResult :=
  Cal.InsertReturns "evt1".
Definition calendar_unreachable (r : Booking.CalendarResource) : Cal.InsertResult :=
  Cal.InsertThrows.

End Sample.

(** ** Views of the slot loop used in the statements below *)

Module Slots.

(** The [(hour, minute)] pairs visited by the two nested loops, in order. *)
Definition candidate_times : list (Z * Z) :=
  flat_map (fun hour => map (pair hour) (Availability.for_range 0 60 30))
    (Availability.for_range Availability.workingHours_start
       Availability.workingHours_end 1).

Section View.

Variable tz : Z.
Variable Date_parse : string -> option Z.
Variable Date_toISOString : Z -> string.

(** The object pushed for a slot that starts at instant [slotStart]. *)
Definition slot_at (slotStart : Z) : Availability.Slot :=
  {| Availability.time :=
       JS.substring 0 5 (toTimeString tz (Some slotStart));
     Availability.available := true;
     Availability.datetime := Date_toISOString slotStart |}.

(** What one visit of the loop body appends to [availableSlots]. *)
Definition pushed (date duration : string) (existingEvents : list Cal.Event)
    (hm : Z * Z) : list Availability.Slot :=
  let slotStart := Availability.slotStart_of tz Date_parse date (fst hm) (snd hm) in
  let slotEnd := Availability.slotEnd_of slotStart duration in
  if Availability.retained tz Date_parse existingEvents slotStart slotEnd
  then match slotStart with Some s => [slot_at s] | None => [] end
  else [].

(** The end-of-day test alone: [slotEnd.getHours() <= workingHours.end]. *)
Definition ends_in_hours (date duration : string) (hm : Z * Z) : bool :=
  let slotStart := Availability.slotStart_of tz Date_parse date (fst hm) (snd hm) in
  JS.le (getHours tz (Availability.slotEnd_of slotStart duration))
        (Some Availability.workingHours_end).

End View.

(** Minutes after local midnight at which a slot of [duration] minutes
    starting at [hm] ends. *)
Definition end_minute (hm : Z * Z) (duration : Z) : Z :=
  fst hm * 60 + snd hm + duration.

End Slots.

(** ** GET /api/audit-logs: the row limit *)

Module AuditLogs.

(** [parseInt(s, 10)]: as [JS.parseInt], without the hexadecimal prefix. *)
Definition parseInt10 (s : string) : JS.number :=
  match JS.skip_space s with
  | String "-" r => option_map Z.opp (JS.dec_prefix None r)
  | String "+" r => JS.dec_prefix None r
  | r => JS.dec_prefix None r
  end.

(** [Math.min(200, parseInt(req.query.limit || '100', 10) || 100)];
    [limit] is [req.query.limit], [None] when the parameter is absent. *)
Definition limit_of (limit : option string) : Z :=
  let text :=
    match limit with
    | Some s => if String.eqb s "" then "100" else s
    | None => "100"
    end in
  let n :=
    match parseInt10 text with
    | Some 0 => 100
    | Some n => n
    | None => 100
    end in
  Z.min 200 n.

End AuditLogs.

(** ** The browser side: API client and booking form *)

Module Client.

(** [bookingConfig.workingHours] *)
Definition workingHours_start : Z := 9.
Definition workingHours_end : Z := 18.

Section Slots.

Variable tz : Z.
Variable Date_parse : string -> option Z.
Variable Date_toISOString : Z -> string.

(** Body of the inner loop of [calculateAvailableSlots]; [duration] is a
    number here, multiplied as it is. *)
Definition slot_step (workDay : Date) (duration : JS.number)
    (existingEvents : list Cal.Event) (slots : list Availability.Slot)
    (hour minute : Z) : option (list Availability.Slot) :=
  let slotStart :=
    setHours tz (new_Date_of_number (getTime workDay)) hour minute 0 0 in
  let slotEnd :=
    new_Date_of_number
      (JS.add (getTime slotStart) (JS.mul duration (Some 60000))) in
  let hasConflict :=
    existsb (fun event =>
        let eventStart :=
          Availability.event_Date Date_parse (Cal.start event) in
        let eventEnd := Availability.event_Date Date_parse (Cal.end_ event) in
        JS.lt slotStart eventEnd && JS.gt slotEnd eventStart)
      existingEvents in
  if negb hasConflict && JS.le (getHours tz slotEnd) (Some workingHours_end)
  then
    match toISOString Date_toISOString slotStart with
    | Some iso =>
        Some (slots ++
              [ {| Availability.time :=
                     JS.substring 0 5 (toTimeString tz slotStart);
                   Availability.available := true;
                   Availability.datetime := iso |} ])%list
    | None => None
    end
  else Some slots.

(** [calculateAvailableSlots(existingEvents, date, duration)]; [None] when
    the call throws. *)
Definition calculateAvailableSlots (existingEvents : list Cal.Event)
    (date : string) (duration : JS.number)
    : option (list Availability.Slot) :=
  let workDay := new_Date Date_parse date in
  fold_left (fun acc hour =>
      fold_left (fun acc minute =>
          match acc with
          | Some slots =>
              slot_step workDay duration existingEvents slots hour minute
          | None => None
          end)
        (Availability.for_range 0 60 30) acc)
    (Availability.for_range workingHours_start workingHours_end 1)
    (Some []).

End Slots.

(** [s.split(sep)] for a one-character separator. *)
Fixpoint split_aux (sep : ascii) (cur : string) (s : string) : list string :=
  match s with
  | EmptyString => [cur]
  | String c r =>
      if Ascii.eqb c sep then cur :: split_aux sep EmptyString r
      else split_aux sep (cur ++ String c EmptyString) r
  end.

Definition split (sep : ascii) (s : string) : list string :=
  split_aux sep EmptyString s.

(** [String(bookingId || '').split('-').slice(-1)[0] || bookingId], the
    short code the form shows after a successful booking. *)
Definition displayBookingCode (bookingId : string) : string :=
  let tail := List.last (split "-" bookingId) EmptyString in
  if String.eqb tail "" then bookingId else tail.

End Client.

(** ** sendGmailMessage: the raw message handed to the Gmail API *)

Module Gmail.

Definition base64_alphabet : string :=
  "ABCDEFGHIJKLMNOPQRSTUVWXYZabcdefghijklmnopqrstuvwxyz0123456789+/".

Definition base64_char (n : N) : ascii :=
  match String.get (N.to_nat n) base64_alphabet with
  | Some c => c
  | None => "="%char
  end.

(** [Buffer.from(message).toString('base64')] on the bytes of [message]. *)
Fixpoint base64 (s : string) : string :=
  match s with
  | EmptyString => EmptyString
  | String a EmptyString =>
      let x := N_of_ascii a in
      String (base64_char (x / 4))
        (String (base64_char ((x mod 4) * 16)) "==")
  | String a (String b EmptyString) =>
      let x := N_of_ascii a in
      let y := N_of_ascii b in
      String (base64_char (x / 4))
        (String (base64_char ((x mod 4) * 16 + y / 16))
           (String (base64_char ((y mod 16) * 4)) "="))
  | String a (String b (String c r)) =>
      let x := N_of_ascii a in
      let y := N_of_ascii b in
      let z := N_of_ascii c in
      String (base64_char (x / 4))
        (String (base64_char ((x mod 4) * 16 + y / 16))
           (String (base64_char ((y mod 16) * 4 + z / 64))
              (String (base64_char (z mod 64)) (base64 r))))
  end.

(** [s.replace(/c/g, d)] for single characters. *)
Fixpoint replace_all (c d : ascii) (s : string) : string :=
  match s with
  | EmptyString => EmptyString
  | String x r => String (if Ascii.eqb x c then d else x) (replace_all c d r)
  end.

(** [s.replace(/=+$/, '')] *)
Fixpoint strip_padding (s : string) : string :=
  match s with
  | EmptyString => EmptyString
  | String x r =>
      match strip_padding r with
      | EmptyString =>
          if Ascii.eqb x "=" then EmptyString else String x EmptyString
      | r' => String x r'
      end
  end.

Definition nl : string := String (ascii_of_nat 10) EmptyString.

(** The lines joined with a newline; [GMAIL_USER] is [process.env.GMAIL_USER]. *)
Definition message (GMAIL_USER : option string)
    (to subject htmlBody fromName : string) : string :=
  "To: " ++ to ++ nl
  ++ "Subject: " ++ subject ++ nl
  ++ "From: " ++ fromName ++ " <"
  ++ match GMAIL_USER with Some u => u | None => "undefined" end ++ ">" ++ nl
  ++ "Content-Type: text/html; charset=utf-8" ++ nl
  ++ nl
  ++ htmlBody.

(** [encodedMessage], the [raw] field of the request. *)
Definition encodedMessage (GMAIL_USER : option string)
    (to subject htmlBody fromName : string) : string :=
  strip_padding
    (replace_all "/" "_"
       (replace_all "+" "-"
          (base64 (message GMAIL_USER to subject htmlBody fromName)))).

(** The characters of unpadded base64url text. *)
Definition is_base64url (c : ascii) : bool :=
  JS.is_digit c || JS.is_upper c || JS.is_lower c
  || Ascii.eqb c "-" || Ascii.eqb c "_".

End Gmail.

(** ** Storing the refresh token in the .env text *)

Module Env.

Definition key : string := "GOOGLE_REFRESH_TOKEN=".

Definition nl : string := String (ascii_of_nat 10) EmptyString.

(** Whether [s] starts with a line terminator: LF, CR, or U+2028 or
    U+2029, which are E2 80 A8 and E2 80 A9 in UTF-8. *)
Definition at_line_terminator (s : string) : bool :=
  match s with
  | String c r =>
      JS.byte_is c 10 || JS.byte_is c 13
      || match r with
         | String c1 (String c2 _) =>
             JS.byte_is c 226 && JS.byte_is c1 128
             && (JS.byte_is c2 168 || JS.byte_is c2 169)
         | _ => false
         end
  | EmptyString => false
  end.

(** Whether [s] is one line terminator. *)
Definition is_line_terminator (s : string) : bool :=
  at_line_terminator s
  && ((String.length s =? 1)%nat
      || ((String.length s =? 3)%nat
          && match s with String c _ => JS.byte_is c 226 | _ => false end)).

(** Whether [s] ends with a line terminator. *)
Fixpoint after_line_terminator (s : string) : bool :=
  match s with
  | EmptyString => false
  | String _ r => is_line_terminator s || after_line_terminator r
  end.

(** Where [^] matches under the [m] flag: at the start of the text and
    after a line terminator. [before] is the text before the position. *)
Definition line_start (before : string) : bool :=
  String.eqb before EmptyString || after_line_terminator before.

(** Text without any line terminator. *)
Fixpoint single_line (s : string) : bool :=
  match s with
  | EmptyString => true
  | String _ r => negb (at_line_terminator s) && single_line r
  end.

(** What [.*] matches at the start of [s], and what is left. *)
Fixpoint rest_of_line (s : string) : string * string :=
  match s with
  | EmptyString => (EmptyString, EmptyString)
  | String c r =>
      if at_line_terminator s then (EmptyString, s)
      else let (l, a) := rest_of_line r in (String c l, a)
  end.

(** The text after the prefix [p] of [s], if [s] starts with [p]. *)
Fixpoint starts_with (p s : string) : option string :=
  match p, s with
  | EmptyString, _ => Some s
  | String a p', String b s' =>
      if Ascii.eqb a b then starts_with p' s' else None
  | String _ _, EmptyString => None
  end.

(** The replacement text of [String.prototype.replace] for a pattern
    without groups: [$$], [$&], [$`] and [$'] are expanded. *)
Fixpoint expand (matched before after repl : string) : string :=
  match repl with
  | EmptyString => EmptyString
  | String "$" (String "$" r) =>
      String "$" (expand matched before after r)
  | String "$" (String "&" r) => matched ++ expand matched before after r
  | String "$" (String "`" r) => before ++ expand matched before after r
  | String "$" (String "'" r) => after ++ expand matched before after r
  | String c r => String c (expand matched before after r)
  end.

(** First match of [/GOOGLE_REFRESH_TOKEN=.*/] in [before ++ s], searched
    from [s] on: text before, matched text, text after. *)
Fixpoint find_anywhere (before s : string)
    : option (string * string * string) :=
  match starts_with key s with
  | Some r => let (l, after) := rest_of_line r in Some (before, key ++ l, after)
  | None =>
      match s with
      | EmptyString => None
      | String c r => find_anywhere (before ++ String c EmptyString) r
      end
  end.

(** First match of [/^GOOGLE_REFRESH_TOKEN=.*/m]: as above, but only at
    the start of a line. *)
Fixpoint find_line (before s : string) : option (string * string * string) :=
  match (if line_start before then starts_with key s else None) with
  | Some r => let (l, after) := rest_of_line r in Some (before, key ++ l, after)
  | None =>
      match s with
      | EmptyString => None
      | String c r => find_line (before ++ String c EmptyString) r
      end
  end.

(** The command-line setup:
    [envContent.replace(/GOOGLE_REFRESH_TOKEN=.*/, `GOOGLE_REFRESH_TOKEN=${token}`)] *)
Definition replace_token (envContent token : string) : string :=
  match find_anywhere EmptyString envContent with
  | Some (before, matched, after) =>
      before ++ expand matched before after (key ++ token) ++ after
  | None => envContent
  end.

(** The OAuth callback: replace the line if the multi-line pattern
    matches, otherwise append one. *)
Definition update_env (envContent token : string) : string :=
  match find_line EmptyString envContent with
  | Some (before, matched, after) =>
      before ++ expand matched before after (key ++ token) ++ after
  | None => envContent ++ nl ++ key ++ token ++ nl
  end.

(** Outcome of [oauth2Client.getToken(code)]. *)
Inductive TokenResult :=
| GetTokenThrows
| GetTokenReturns (refresh_token : option string).

Definition truthy (x : option string) : bool :=
  match x with Some s => negb (String.eqb s "") | None => false end.

(** GET /auth/google/callback: the status sent and the text written to
    .env, if any. [envFile] is what [readFileSync] returns ([None]: it
    throws), [write_throws] tells whether [writeFileSync] throws. *)
Definition oauth_callback (error code : option string)
    (getToken : string -> TokenResult) (envFile : option string)
    (write_throws : bool) : Z * option string :=
  if truthy error then (400, None)
  else if negb (truthy code) then (400, None)
  else
    match getToken (match code with Some c => c | None => "" end) with
    | GetTokenThrows => (500, None)
    | GetTokenReturns refreshToken =>
        if negb (truthy refreshToken) then (400, None)
        else
          match envFile with
          | None => (500, None)
          | Some envContent =>
              let token :=
                match refreshToken with Some t => t | None => "" end in
              if write_throws then (500, None)
              else (200, Some (update_env envContent token))
          end
    end.

End Env.

(** ** The API client: choosing the base URL *)

Module ApiBase.

(** [s.replace(/suffix$/, '')] for a literal suffix. *)
Fixpoint strip_suffix (suffix s : string) : string :=
  match s with
  | EmptyString => EmptyString
  | String c r =>
      if String.eqb s suffix then EmptyString
      else String c (strip_suffix suffix r)
  end.

Definition defaultDev : string := "http://localhost:3001/api".

(** [[...new Set(l)]]: first occurrences, in order. *)
Fixpoint dedupe (seen l : list string) : list string :=
  match l with
  | [] => []
  | x :: r =>
      if existsb (String.eqb x) seen then dedupe seen r
      else x :: dedupe (x :: seen) r
  end.

Definition nonempty (s : string) : bool := negb (String.eqb s "").

(** The constructor; [configuredBase] is [window.BOOKING_API_BASE] as a
    string, [""] when it is not set. *)
Definition sanitizedConfigured (configuredBase : string) : string :=
  strip_suffix "/" configuredBase.

Definition apiBaseUrl (configuredBase : string) : string :=
  if nonempty (sanitizedConfigured configuredBase)
  then sanitizedConfigured configuredBase else defaultDev.

Definition apiBaseCandidates (configuredBase : string) : list string :=
  let candidates :=
    filter nonempty
      [sanitizedConfigured configuredBase;
       "http://localhost:5174/api"; "http://127.0.0.1:5174/api";
       "http://localhost:3001/api"; "http://127.0.0.1:3001/api"] in
  filter nonempty (dedupe [] (map (strip_suffix "/") candidates)).

(** [probe(base)]: a GET of the health URL; [health_ok url] tells whether
    the fetch returns with [res.ok] (a failed fetch counts as not ok). *)
Definition probe (health_ok : string -> bool) (base : string) : bool :=
  health_ok (strip_suffix "/api" base ++ "/health").

(** [initialize()]: the value returned and [this.apiBaseUrl] afterwards. *)
Definition initialize (health_ok : string -> bool) (configuredBase : string)
    : bool * string :=
  let candidates :=
    match apiBaseCandidates configuredBase with
    | [] => [apiBaseUrl configuredBase]
    | l => l
    end in
  match find (probe health_ok) candidates with
  | Some candidate => (true, candidate)
  | None => (false, apiBaseUrl configuredBase)
  end.

End ApiBase.

(** ** The API client: createBooking *)

Module ClientBooking.

(** What [createBooking] does with the data: it posts them to
    [/bookings], or it returns [{ success: false, error }] without a call. *)
Inductive Result :=
| Posted (bookingData : Booking.Body)
| Refused (error : string).

(** [!x] on a field that is a string or undefined. *)
Definition missing (x : option string) : bool :=
  match x with Some s => String.eqb s "" | None => true end.

(** The keys of [bookingConfig.bookingTypes]. *)
Definition bookingTypes : list string :=
  ["consultation"; "engagement"; "wedding"; "followup"].

(** [createBooking(bookingData)]. [inherited name] tells whether the
    object [bookingTypes] answers [name] with a truthy inherited member
    (as for [toString]), which the lookup does not tell from an own key. *)
Definition createBooking (inherited : string -> bool)
    (bookingData : Booking.Body) : Result :=
  if missing (Booking.clientName bookingData)
     || missing (Booking.clientEmail bookingData)
     || missing (Booking.eventDate bookingData)
     || missing (Booking.eventTime bookingData)
     || missing (Booking.eventType bookingData)
  then Refused "Missing required booking information"
  else
    let eventType := Booking.str (Booking.eventType bookingData) in
    if existsb (String.eqb eventType) bookingTypes || inherited eventType
    then Posted bookingData
    else Refused "Invalid booking type".

End ClientBooking.

(** ** The unfiltered day, written out

    The slot list of a day without busy intervals, stated on its own (not
    through the handler's loop) so that the handler can be compared with
    it: the half-hour grid from 09:00 to 17:30 with its labels, and the
    handler's end-of-day rule as clock arithmetic. *)

Module Expected.

Definition grid : list (Z * Z * string) :=
  [(9, 0, "09:00"); (9, 30, "09:30"); (10, 0, "10:00"); (10, 30, "10:30");
   (11, 0, "11:00"); (11, 30, "11:30"); (12, 0, "12:00"); (12, 30, "12:30");
   (13, 0, "13:00"); (13, 30, "13:30"); (14, 0, "14:00"); (14, 30, "14:30");
   (15, 0, "15:00"); (15, 30, "15:30"); (16, 0, "16:00"); (16, 30, "16:30");
   (17, 0, "17:00"); (17, 30, "17:30")].

(** Time values a Date can hold. *)
Definition in_range (t : Z) : bool :=
  (-8640000000000000 <=? t) && (t <=? 8640000000000000).

(** The hour shown by a clock [M] minutes after it showed [h]:[m]. *)
Definition end_hour (h m M : Z) : Z := ((h * 60 + m + M) / 60) mod 24.

Section Day.

Variable tz : Z.
Variable Date_toISOString : Z -> string.

(** The instant at which a clock [tz] minutes ahead of UTC shows [h]:[m]
    on the day that it shows at instant [t]. *)
Definition instant (t h m : Z) : Z :=
  (t + tz * 60000) / 86400000 * 86400000 + h * 3600000 + m * 60000
  - tz * 60000.

(** Whether the slot of [M] minutes that starts at [h]:[m] is offered. *)
Definition offered (t M : Z) (e : Z * Z * string) : bool :=
  let '(h, m, _) := e in
  in_range (instant t h m) && in_range (instant t h m + M * 60000)
  && (end_hour h m M <=? 18).

Definition slot_of (t : Z) (e : Z * Z * string) : Availability.Slot :=
  let '(h, m, label) := e in
  {| Availability.time := label;
     Availability.available := true;
     Availability.datetime := Date_toISOString (instant t h m) |}.

(** [parsed] is what the engine reads from the date text, [M] the
    duration in minutes. *)
Definition unfiltered (parsed M : option Z) : list Availability.Slot :=
  match parsed, M with
  | Some t, Some M =>
      if in_range t then map (slot_of t) (filter (offered t M) grid) else []
  | _, _ => []
  end.

End Day.

End Expected.

(** * Properties *)

(** ** Time arithmetic *)

Lemma TimeClip_Some (t s : Z) : JS.TimeClip t = Some s -> s = t.
Proof.
  unfold JS.TimeClip. destruct (Z.abs t <=? 8640000000000000); congruence.
Qed.

Lemma TimeClip_in_range (t : Z) :
  Z.abs t <= 8640000000000000 -> JS.TimeClip t = Some t.
Proof.
  intros H. unfold JS.TimeClip.
  destruct (Z.leb_spec (Z.abs t) 8640000000000000); [reflexivity | lia].
Qed.

Lemma LocalTime_UTC (tz t : Z) : LocalTime tz (UTC tz t) = t.
Proof. unfold LocalTime, UTC. lia. Qed.

Lemma HourFromTime_clock (day h m : Z) :
  0 <= h < 24 -> 0 <= m < 60 ->
  JS.HourFromTime (JS.MakeDate day (JS.MakeTime h m 0 0)) = h.
Proof.
  intros Hh Hm.
  unfold JS.HourFromTime, JS.MakeDate, JS.MakeTime,
    JS.msPerDay, JS.msPerHour, JS.msPerMinute, JS.msPerSecond.
  replace (day * 86400000 + (h * 3600000 + m * 60000 + 0 * 1000 + 0))
    with (m * 60000 + (day * 24 + h) * 3600000) by lia.
  rewrite Z.div_add by lia.
  rewrite (Z.div_small (m * 60000)) by lia.
  replace (0 + (day * 24 + h)) with (h + day * 24) by lia.
  rewrite Z.mod_add by lia.
  apply Z.mod_small. lia.
Qed.

Lemma MinFromTime_clock (day h m : Z) :
  0 <= m < 60 ->
  JS.MinFromTime (JS.MakeDate day (JS.MakeTime h m 0 0)) = m.
Proof.
  intros Hm.
  unfold JS.MinFromTime, JS.MakeDate, JS.MakeTime,
    JS.msPerDay, JS.msPerHour, JS.msPerMinute, JS.msPerSecond.
  replace (day * 86400000 + (h * 3600000 + m * 60000 + 0 * 1000 + 0))
    with ((m + (day * 24 + h) * 60) * 60000) by lia.
  rewrite Z.div_mul by lia.
  rewrite Z.mod_add by lia.
  apply Z.mod_small. lia.
Qed.

Lemma SecFromTime_clock (day h m : Z) :
  (JS.MakeDate day (JS.MakeTime h m 0 0) / JS.msPerSecond) mod 60 = 0.
Proof.
  unfold JS.MakeDate, JS.MakeTime,
    JS.msPerDay, JS.msPerHour, JS.msPerMinute, JS.msPerSecond.
  replace (day * 86400000 + (h * 3600000 + m * 60000 + 0 * 1000 + 0))
    with (((day * 1440 + h * 60 + m) * 60) * 1000) by lia.
  rewrite Z.div_mul by lia.
  apply Z.mod_mul. lia.
Qed.

(** ** The slot loop as a filter over the candidate times *)

Lemma nested_fold_flat_map {A H M : Type} (F : A -> H -> M -> A)
    (ms : list M) (hs : list H) (acc : A) :
  fold_left (fun a h => fold_left (fun a m => F a h m) ms a) hs acc
  = fold_left (fun a hm => F a (fst hm) (snd hm))
      (flat_map (fun h => map (pair h) ms) hs) acc.
Proof.
  revert acc. induction hs as [|h hs IH]; intros acc; simpl.
  - reflexivity.
  - rewrite fold_left_app, IH. f_equal.
    clear. revert acc. induction ms as [|m ms IHm]; intros acc; simpl.
    + reflexivity.
    + apply IHm.
Qed.


Lemma flat_map_filter {A B : Type} (keep : A -> bool) (g : A -> B)
    (l : list A) :
  flat_map (fun x => if keep x then [g x] else []) l = map g (filter keep l).
Proof.
  induction l as [|x l IH]; simpl; [reflexivity|].
  destruct (keep x); simpl; now rewrite IH.
Qed.

Lemma flat_map_ext_In {A B : Type} (f g : A -> list B) (l : list A) :
  (forall x, In x l -> f x = g x) -> flat_map f l = flat_map g l.
Proof.
  induction l as [|x l IH]; simpl; intros H; [reflexivity|].
  rewrite (H x) by now left. f_equal. apply IH. auto.
Qed.

Lemma flat_map_map {A B C : Type} (f : B -> list C) (g : A -> B)
    (l : list A) :
  flat_map f (map g l) = flat_map (fun x => f (g x)) l.
Proof.
  induction l as [|x l IH]; simpl; [reflexivity | now rewrite IH].
Qed.

Lemma TimeClip_in_range_iff (t : Z) :
  JS.TimeClip t = if Expected.in_range t then Some t else None.
Proof.
  unfold JS.TimeClip, Expected.in_range.
  destruct (Z.leb_spec (Z.abs t) 8640000000000000),
    (Z.leb_spec (-8640000000000000) t), (Z.leb_spec t 8640000000000000);
    cbn; try reflexivity; lia.
Qed.

(** The grid written out is the sequence of loop indices, and its labels
    are the clock readings of those indices. *)
Lemma grid_candidate_times :
  Slots.candidate_times
  = map (fun e : Z * Z * string => (fst (fst e), snd (fst e))) Expected.grid.
Proof. reflexivity. Qed.

Lemma grid_entry (h m : Z) (label : string) :
  In (h, m, label) Expected.grid ->
  9 <= h <= 17 /\ (m = 0 \/ m = 30)
  /\ label = JS.pad2 h ++ ":" ++ JS.pad2 m.
Proof.
  unfold Expected.grid. cbn [In]. intros H.
  repeat (destruct H as [[= <- <- <-]|H];
          [split; [lia | split; [lia | reflexivity]]|]).
  contradiction.
Qed.

Section AvailabilityFacts.

Variable tz : Z.
Variable Date_parse : string -> option Z.
Variable Date_toISOString : Z -> string.

Local Abbreviation slotStart_of := (Availability.slotStart_of tz Date_parse).
Local Abbreviation retained := (Availability.retained tz Date_parse).
Local Abbreviation hasConflict := (Availability.hasConflict Date_parse).
Local Abbreviation event_Date := (Availability.event_Date Date_parse).
Local Abbreviation slot_step :=
  (Availability.slot_step tz Date_parse Date_toISOString).
Local Abbreviation slot_loop :=
  (Availability.slot_loop tz Date_parse Date_toISOString).
Local Abbreviation pushed := (Slots.pushed tz Date_parse Date_toISOString).
Local Abbreviation slot_at := (Slots.slot_at tz Date_toISOString).
Local Abbreviation ends_in_hours := (Slots.ends_in_hours tz Date_parse).

(** A slot that passes the guard has a valid start: the guard reads the
    hour of [slotEnd], which is NaN as soon as [slotStart] is invalid. *)
Lemma retained_valid_start (events : list Cal.Event) (slotStart : Date)
    (duration : string) :
  retained events slotStart (Availability.slotEnd_of slotStart duration) = true ->
  exists s, slotStart = Some s.
Proof.
  unfold Availability.retained. intros H.
  apply andb_true_iff in H as [_ H].
  destruct slotStart as [s|]; [now exists s | discriminate H].
Qed.

Lemma slot_step_pushed (date duration : string) (events : list Cal.Event)
    (acc : list Availability.Slot) (hour minute : Z) :
  slot_step date duration events acc hour minute
  = Some (acc ++ pushed date duration events (hour, minute))%list.
Proof.
  unfold Availability.slot_step, Slots.pushed. cbn [fst snd].
  destruct (retained events (slotStart_of date hour minute) _) eqn:R.
  - apply retained_valid_start in R as [s Hs]. rewrite Hs. reflexivity.
  - now rewrite app_nil_r.
Qed.

Lemma slot_loop_pushed (date duration : string) (events : list Cal.Event) :
  slot_loop date duration events
  = Some (flat_map (pushed date duration events) Slots.candidate_times).
Proof.
  unfold Availability.slot_loop, Availability.minute_loop.
  rewrite (nested_fold_flat_map
             (fun a h m =>
                match a with
                | Some availableSlots =>
                    slot_step date duration events availableSlots h m
                | None => None
                end)).
  fold Slots.candidate_times.
  change (Some (flat_map (pushed date duration events) Slots.candidate_times))
    with (Some ([] ++ flat_map (pushed date duration events)
                        Slots.candidate_times)%list).
  generalize (@nil Availability.Slot) as acc.
  induction Slots.candidate_times as [|[h m] l IH]; intros acc; simpl.
  - now rewrite app_nil_r.
  - rewrite slot_step_pushed, IH, <- app_assoc. reflexivity.
Qed.

Variable calendar_events_list : string -> string -> Cal.ListResult.

Local Abbreviation fetch_existingEvents :=
  (Availability.fetch_existingEvents tz Date_parse Date_toISOString
     calendar_events_list).
Local Abbreviation get_availability :=
  (Availability.get_availability tz Date_parse Date_toISOString
     calendar_events_list).

(** On events that have both ends the handler always answers 200: nothing
    in the outer try block throws. *)
Lemma get_availability_pushed (date : string) (duration : option string) :
  let d := match duration with Some d => d | None => "120" end in
  get_availability date duration
  = Availability.Json200 date
      (flat_map (pushed date d (fetch_existingEvents date))
         Slots.candidate_times)
      (JS.parseInt d).
Proof.
  unfold Availability.get_availability. cbv zeta.
  now rewrite slot_loop_pushed.
Qed.




(** When a candidate is pushed, in terms of the two tests of the guard. *)
Lemma pushed_cases (date duration : string) (events : list Cal.Event)
    (hm : Z * Z) (s : Z) :
  slotStart_of date (fst hm) (snd hm) = Some s ->
  pushed date duration events hm
  = if negb (hasConflict events (Some s)
               (Availability.slotEnd_of (Some s) duration))
       && ends_in_hours date duration hm
    then [slot_at s] else [].
Proof.
  intros Hs. unfold Slots.pushed, Slots.ends_in_hours, Availability.retained.
  rewrite Hs. reflexivity.
Qed.

Lemma pushed_In (date duration : string) (events : list Cal.Event)
    (hm : Z * Z) (slot : Availability.Slot) :
  In slot (pushed date duration events hm) ->
  exists s,
    slotStart_of date (fst hm) (snd hm) = Some s /\ slot = slot_at s
    /\ hasConflict events (Some s)
         (Availability.slotEnd_of (Some s) duration) = false
    /\ ends_in_hours date duration hm = true.
Proof.
  unfold Slots.pushed. intros H.
  destruct (retained events _ _) eqn:R; [|contradiction].
  destruct (retained_valid_start _ _ _ R) as [s Hs].
  rewrite Hs in *. destruct H as [<-|[]].
  exists s. unfold Availability.retained in R.
  apply andb_true_iff in R as [R1 R2]. apply negb_true_iff in R1.
  unfold Slots.ends_in_hours. rewrite Hs. auto.
Qed.

(** *** Candidate times and the labels of their slots *)

Lemma candidate_times_range (hm : Z * Z) :
  In hm Slots.candidate_times ->
  9 <= fst hm <= 17 /\ (snd hm = 0 \/ snd hm = 30).
Proof.
  intros H. vm_compute in H.
  repeat (destruct H as [<-|H]; [cbn; lia|]). contradiction.
Qed.

Lemma candidate_labels_NoDup :
  NoDup (map (fun hm => JS.pad2 (fst hm) ++ ":" ++ JS.pad2 (snd hm))
           Slots.candidate_times).
Proof.
  vm_compute.
  repeat (constructor; [cbn; intuition discriminate|]). constructor.
Qed.

Lemma slotStart_of_local (date : string) (h m s : Z) :
  slotStart_of date h m = Some s ->
  exists day, LocalTime tz s = JS.MakeDate day (JS.MakeTime h m 0 0).
Proof.
  unfold Availability.slotStart_of, setHours. intros H.
  destruct (new_Date Date_parse date) as [t|]; [|discriminate].
  apply TimeClip_Some in H. subst s.
  exists (JS.Day (LocalTime tz t)). apply LocalTime_UTC.
Qed.

(** The [time] of a pushed slot is the [HH:MM] of its loop indices. *)
Lemma slot_at_time (date : string) (h m s : Z) :
  slotStart_of date h m = Some s ->
  0 <= h < 24 -> 0 <= m < 60 ->
  Availability.time (slot_at s) = JS.pad2 h ++ ":" ++ JS.pad2 m.
Proof.
  intros Hs Hh Hm. destruct (slotStart_of_local _ _ _ _ Hs) as [day L].
  unfold Slots.slot_at, toTimeString. cbn [Availability.time].
  rewrite L, HourFromTime_clock, MinFromTime_clock, SecFromTime_clock
    by assumption.
  reflexivity.
Qed.


(** *** The conflict filter *)


(** *** Calendar failure *)

Lemma pushed_no_events (date duration : string) (hm : Z * Z) :
  pushed date duration [] hm
  = if ends_in_hours date duration hm
    then match slotStart_of date (fst hm) (snd hm) with
         | Some s => [slot_at s]
         | None => []
         end
    else [].
Proof. reflexivity. Qed.

(** *** The end-of-day test *)

Lemma HourFromTime_after (day h m M : Z) :
  JS.HourFromTime (JS.MakeDate day (JS.MakeTime h m 0 0) + M * 60000)
  = ((h * 60 + m + M) / 60) mod 24.
Proof.
  unfold JS.HourFromTime, JS.MakeDate, JS.MakeTime,
    JS.msPerDay, JS.msPerHour, JS.msPerMinute, JS.msPerSecond.
  replace (day * 86400000 + (h * 3600000 + m * 60000 + 0 * 1000 + 0)
           + M * 60000)
    with ((h * 60 + m + M + day * 24 * 60) * 60000) by lia.
  change 3600000 with (60 * 60000).
  rewrite Z.div_mul_cancel_r by lia.
  rewrite Z.div_add by lia.
  now rewrite Z.mod_add by lia.
Qed.

(** The guard compares the clock hour of the slot's end, taken modulo one
    day, with 18. *)
Lemma ends_in_hours_clock (date duration : string) (hm : Z * Z) (s M : Z) :
  slotStart_of date (fst hm) (snd hm) = Some s ->
  JS.parseInt duration = Some M ->
  Z.abs (s + M * 60000) <= 8640000000000000 ->
  ends_in_hours date duration hm
  = (((Slots.end_minute hm M) / 60) mod 24 <=? 18).
Proof.
  intros Hs HM Hclip. unfold Slots.ends_in_hours, Slots.end_minute.
  rewrite Hs. unfold Availability.slotEnd_of, getTime. rewrite HM. cbn [JS.mul JS.add new_Date_of_number].
  rewrite TimeClip_in_range by assumption.
  destruct (slotStart_of_local _ _ _ _ Hs) as [day L].
  unfold getHours, option_map, JS.le.
  replace (LocalTime tz (s + M * 60000)) with (LocalTime tz s + M * 60000)
    by (unfold LocalTime; lia).
  now rewrite L, HourFromTime_after.
Qed.

Lemma pushed_invalid (date duration : string) (events : list Cal.Event)
    (hm : Z * Z) :
  new_Date Date_parse date = None \/ JS.parseInt duration = None ->
  pushed date duration events hm = [].
Proof.
  intros H. unfold Slots.pushed, Availability.retained,
    Availability.slotEnd_of, Availability.slotStart_of, setHours.
  destruct H as [H|H]; rewrite H.
  - cbn. now rewrite andb_false_r.
  - destruct (match new_Date Date_parse date with Some _ => _ | None => _ end);
      cbn; now rewrite andb_false_r.
Qed.

(** *** Calendar failure *)

Lemma slotStart_of_instant (date : string) (h m t : Z) :
  new_Date Date_parse date = Some t ->
  slotStart_of date h m = JS.TimeClip (Expected.instant tz t h m).
Proof.
  intros H. unfold Availability.slotStart_of, setHours. rewrite H. f_equal.
  unfold UTC, JS.MakeDate, JS.Day, LocalTime, JS.MakeTime, Expected.instant,
    JS.msPerDay, JS.msPerHour, JS.msPerMinute, JS.msPerSecond.
  lia.
Qed.

(** One visit of the loop body without events, against the day written
    out. *)
Lemma pushed_no_events_grid (date duration : string) (t h m : Z)
    (label : string) :
  new_Date Date_parse date = Some t ->
  In (h, m, label) Expected.grid ->
  pushed date duration [] (h, m)
  = match JS.parseInt duration with
    | Some M =>
        if Expected.offered tz t M (h, m, label)
        then [Expected.slot_of tz Date_toISOString t (h, m, label)]
        else []
    | None => []
    end.
Proof.
  intros Ht Hin. apply grid_entry in Hin as (Hh & Hm & Hl).
  destruct (JS.parseInt duration) as [M|] eqn:HM;
    [|apply pushed_invalid; now right].
  rewrite pushed_no_events. unfold Slots.ends_in_hours. cbn [fst snd].
  pose proof (slotStart_of_instant date h m t Ht) as Hs.
  rewrite TimeClip_in_range_iff in Hs.
  unfold Expected.offered.
  destruct (Expected.in_range (Expected.instant tz t h m)) eqn:R1;
    rewrite Hs; [|reflexivity].
  unfold Availability.slotEnd_of, getTime. rewrite HM.
  cbn [JS.mul JS.add new_Date_of_number].
  rewrite TimeClip_in_range_iff.
  destruct (Expected.in_range (Expected.instant tz t h m + M * 60000)) eqn:R2;
    [|reflexivity].
  cbn [andb getHours option_map JS.le].
  replace (LocalTime tz (Expected.instant tz t h m + M * 60000))
    with (JS.MakeDate ((t + tz * 60000) / 86400000) (JS.MakeTime h m 0 0)
          + M * 60000)
    by (unfold LocalTime, JS.MakeDate, JS.MakeTime, Expected.instant,
          JS.msPerDay, JS.msPerHour, JS.msPerMinute, JS.msPerSecond; lia).
  rewrite HourFromTime_after. fold (Expected.end_hour h m M).
  unfold Availability.workingHours_end.
  destruct (Expected.end_hour h m M <=? 18); [|reflexivity].
  f_equal. unfold Expected.slot_of.
  pose proof (slot_at_time date h m _ Hs ltac:(lia) ltac:(lia)) as Htime.
  unfold Slots.slot_at in *. cbn [Availability.time] in Htime.
  now rewrite Htime, Hl.
Qed.

(** The loop without events yields the day written out. *)
Lemma slots_without_events (date duration : string) :
  flat_map (pushed date duration []) Slots.candidate_times
  = Expected.unfiltered tz Date_toISOString (Date_parse date)
      (JS.parseInt duration).
Proof.
  assert (Hnone : forall l : list (Z * Z),
             new_Date Date_parse date = None \/ JS.parseInt duration = None ->
             flat_map (pushed date duration []) l = []).
  { intros l H. induction l as [|hm l IH]; [reflexivity|].
    cbn [flat_map]. now rewrite (pushed_invalid _ _ _ _ H), IH. }
  unfold Expected.unfiltered.
  destruct (Date_parse date) as [t|] eqn:P;
    [|apply Hnone; left; unfold new_Date; now rewrite P].
  destruct (JS.parseInt duration) as [M|] eqn:HM;
    [|apply Hnone; now right].
  destruct (Expected.in_range t) eqn:R;
    [|apply Hnone; left; unfold new_Date;
      now rewrite P, TimeClip_in_range_iff, R].
  assert (Ht : new_Date Date_parse date = Some t)
    by (unfold new_Date; now rewrite P, TimeClip_in_range_iff, R).
  rewrite grid_candidate_times, flat_map_map, <- flat_map_filter.
  apply flat_map_ext_In. intros [[h m] label] Hin. cbn [fst snd].
  now rewrite (pushed_no_events_grid date duration t h m label Ht Hin), HM.
Qed.

(** C4. When the call to the calendar throws, the handler goes on with no
    busy interval and answers [success: true] with the whole unfiltered
    day: every half-hour start from 09:00 to 17:30, in order, whose slot
    ends at a clock hour of 18 or less (the handler's end-of-day rule),
    none left out. In particular every start whose slot fits before 18:00
    is returned. *)
Theorem calendar_failure_falls_back (date : string) (duration : option string) :
  (forall timeMin timeMax,
      calendar_events_list timeMin timeMax = Cal.ListThrows) ->
  let d := match duration with Some d => d | None => "120" end in
  get_availability date duration
  = Availability.Json200 date
      (Expected.unfiltered tz Date_toISOString (Date_parse date)
         (JS.parseInt d))
      (JS.parseInt d)
  /\ Availability.success (get_availability date duration) = true
  /\ (forall t M h m label,
        Date_parse date = Some t -> JS.parseInt d = Some M ->
        In (h, m, label) Expected.grid ->
        0 <= M -> h * 60 + m + M <= 18 * 60 ->
        -1440 < tz < 1440 ->
        Z.abs t <= 8640000000000000 - 2 * 86400000 ->
        In {| Availability.time := label;
              Availability.available := true;
              Availability.datetime :=
                Date_toISOString (Expected.instant tz t h m) |}
           (Availability.slots_of (get_availability date duration))).
Proof.
  intros Hfail d.
  assert (E : fetch_existingEvents date = []).
  { unfold Availability.fetch_existingEvents.
    destruct (toISOString _ _) as [timeMin|]; [|reflexivity].
    destruct (toISOString _ _) as [timeMax|]; [|reflexivity].
    now rewrite Hfail. }
  assert (R : get_availability date duration
              = Availability.Json200 date
                  (Expected.unfiltered tz Date_toISOString (Date_parse date)
                     (JS.parseInt d))
                  (JS.parseInt d)).
  { rewrite get_availability_pushed, E. fold d.
    now rewrite slots_without_events. }
  rewrite R. split; [reflexivity|]. split; [reflexivity|].
  intros t M h m label Ht HM Hin HM0 Hfit Htz Hrange.
  cbn [Availability.slots_of]. rewrite Ht, HM. unfold Expected.unfiltered.
  assert (Rt : Expected.in_range t = true).
  { unfold Expected.in_range. apply andb_true_iff.
    split; apply Z.leb_le; lia. }
  rewrite Rt.
  change {| Availability.time := label;
            Availability.available := true;
            Availability.datetime :=
              Date_toISOString (Expected.instant tz t h m) |}
    with (Expected.slot_of tz Date_toISOString t (h, m, label)).
  apply in_map. apply filter_In. split; [exact Hin|].
  apply grid_entry in Hin as (Hh & Hm & _).
  assert (Hi : t - 86400000 < Expected.instant tz t h m < t + 86400000).
  { unfold Expected.instant.
    pose proof (Z.div_mod (t + tz * 60000) 86400000 ltac:(lia)).
    pose proof (Z.mod_pos_bound (t + tz * 60000) 86400000 ltac:(lia)).
    lia. }
  unfold Expected.offered, Expected.in_range, Expected.end_hour.
  assert (Hq : 9 <= (h * 60 + m + M) / 60 <= 18).
  { split; [apply Z.div_le_lower_bound | apply Z.div_le_upper_bound]; lia. }
  rewrite (Z.mod_small ((h * 60 + m + M) / 60) 24) by lia.
  repeat (apply andb_true_iff; split); apply Z.leb_le; lia.
Qed.

Lemma flat_map_singletons {A B : Type} (f : A -> list B) (g : A -> B)
    (l : list A) :
  (forall x, In x l -> f x = [g x]) -> flat_map f l = map g l.
Proof.
  induction l as [|x l IH]; simpl; intros H.
  - reflexivity.
  - rewrite (H x) by now left. simpl. f_equal. apply IH. auto.
Qed.

(** C7. For 2025-08-20, duration 60 and no busy event, the handler returns
    18 slots, one per candidate time, labelled 09:00, 09:30, ... 17:30 in
    this order, each starting 30 minutes after the one before. *)
Theorem scenario_2025_08_20_duration_60 :
  -1440 < tz < 1440 ->
  Date_parse "2025-08-20" = Some 1755648000000 ->
  fetch_existingEvents "2025-08-20" = [] ->
  exists slots,
    get_availability "2025-08-20" (Some "60")
    = Availability.Json200 "2025-08-20" slots (Some 60)
    /\ List.length slots = 18%nat
    /\ map Availability.time slots
       = ["09:00"; "09:30"; "10:00"; "10:30"; "11:00"; "11:30"; "12:00";
          "12:30"; "13:00"; "13:30"; "14:00"; "14:30"; "15:00"; "15:30";
          "16:00"; "16:30"; "17:00"; "17:30"]
    /\ slots
       = map (fun hm =>
                slot_at (UTC tz (JS.MakeDate
                                   (JS.Day (LocalTime tz 1755648000000))
                                   (JS.MakeTime (fst hm) (snd hm) 0 0))))
           Slots.candidate_times.
Proof.
  intros Htz Hparse Hevents.
  set (start := fun hm : Z * Z =>
         UTC tz (JS.MakeDate (JS.Day (LocalTime tz 1755648000000))
                   (JS.MakeTime (fst hm) (snd hm) 0 0))).
  assert (Hday : 1755561600000
                 <= JS.Day (LocalTime tz 1755648000000) * JS.msPerDay
                 <= 1755734400000).
  { unfold JS.Day, LocalTime, JS.msPerMinute, JS.msPerDay.
    pose proof (Z.div_mod (1755648000000 + tz * 60000) 86400000 ltac:(lia)).
    pose proof (Z.mod_pos_bound (1755648000000 + tz * 60000) 86400000
                  ltac:(lia)).
    assert (20319 <= (1755648000000 + tz * 60000) / 86400000 <= 20321).
    { split; [apply Z.div_le_lower_bound | apply Z.div_le_upper_bound]; lia. }
    lia. }
  assert (Hstart : forall hm, In hm Slots.candidate_times ->
             slotStart_of "2025-08-20" (fst hm) (snd hm) = Some (start hm)
             /\ Z.abs (start hm + 60 * 60000) <= 8640000000000000).
  { intros hm Hin. apply candidate_times_range in Hin as [Hh Hm].
    unfold Availability.slotStart_of, setHours, new_Date.
    rewrite Hparse. rewrite (TimeClip_in_range 1755648000000) by lia.
    fold (start hm).
    assert (Z.abs (start hm) <= 8640000000000000
            /\ Z.abs (start hm + 60 * 60000) <= 8640000000000000) as [? ?].
    { unfold start, UTC, JS.MakeDate, JS.MakeTime, JS.msPerMinute,
        JS.msPerHour, JS.msPerSecond in *. lia. }
    split; [now apply TimeClip_in_range | assumption]. }
  assert (Hpush : forall hm, In hm Slots.candidate_times ->
             pushed "2025-08-20" "60" [] hm = [slot_at (start hm)]).
  { intros hm Hin. destruct (Hstart hm Hin) as [Hs Hclip].
    rewrite pushed_no_events, Hs.
    rewrite (ends_in_hours_clock "2025-08-20" "60" hm _ 60 Hs eq_refl Hclip).
    apply candidate_times_range in Hin as [Hh Hm].
    unfold Slots.end_minute.
    replace ((fst hm * 60 + snd hm + 60) / 60) with (fst hm + 1).
    - rewrite Z.mod_small by lia.
      destruct (Z.leb_spec (fst hm + 1) 18); [reflexivity | lia].
    - apply Z.div_unique with (r := snd hm); lia. }
  exists (map (fun hm => slot_at (start hm)) Slots.candidate_times).
  rewrite get_availability_pushed, Hevents. cbv zeta.
  rewrite (flat_map_singletons _ _ _ Hpush).
  repeat split.
  rewrite map_map.
  transitivity (map (fun hm => JS.pad2 (fst hm) ++ ":" ++ JS.pad2 (snd hm))
                  Slots.candidate_times); [|reflexivity].
  apply map_ext_in. intros hm Hin.
  destruct (Hstart hm Hin) as [Hs _].
  apply candidate_times_range in Hin as [Hh Hm].
  apply (slot_at_time _ _ _ _ Hs); lia.
Qed.

End AvailabilityFacts.

(** ** The availability handler on concrete requests *)

(** With the calendar down and a duration of 90 minutes: the seventeen
    slots from 09:00 to 17:00 are returned; the slot of 17:30 would end at
    19:00. *)
Lemma calendar_failure_falls_back_witness :
  (forall timeMin timeMax : string,
      Sample.calendar_down timeMin timeMax = Cal.ListThrows)
  /\ Sample.get_availability Sample.calendar_down "2025-08-20" (Some "90")
     = Availability.Json200 "2025-08-20"
         (map (fun e : string * string =>
                 {| Availability.time := fst e;
                    Availability.available := true;
                    Availability.datetime := snd e |})
         [("09:00", "2025-08-20T09:00:00.000Z");
          ("09:30", "2025-08-20T09:30:00.000Z");
          ("10:00", "2025-08-20T10:00:00.000Z");
          ("10:30", "2025-08-20T10:30:00.000Z");
          ("11:00", "2025-08-20T11:00:00.000Z");
          ("11:30", "2025-08-20T11:30:00.000Z");
          ("12:00", "2025-08-20T12:00:00.000Z");
          ("12:30", "2025-08-20T12:30:00.000Z");
          ("13:00", "2025-08-20T13:00:00.000Z");
          ("13:30", "2025-08-20T13:30:00.000Z");
          ("14:00", "2025-08-20T14:00:00.000Z");
          ("14:30", "2025-08-20T14:30:00.000Z");
          ("15:00", "2025-08-20T15:00:00.000Z");
          ("15:30", "2025-08-20T15:30:00.000Z");
          ("16:00", "2025-08-20T16:00:00.000Z");
          ("16:30", "2025-08-20T16:30:00.000Z");
          ("17:00", "2025-08-20T17:00:00.000Z")])
         (Some 90).
Proof.
  assert (H : forall timeMin timeMax : string,
             Sample.calendar_down timeMin timeMax = Cal.ListThrows)
    by reflexivity.
  split; [exact H|].
  unfold Sample.get_availability.
  rewrite (proj1 (calendar_failure_falls_back Sample.tz
                    (Sample.Date_parse Sample.tz) Sample.Date_toISOString
                    Sample.calendar_down "2025-08-20" (Some "90") H)).
  vm_compute. reflexivity.
Defined.

Lemma scenario_2025_08_20_duration_60_witness :
  (-1440 < Sample.tz < 1440
   /\ Sample.Date_parse Sample.tz "2025-08-20" = Some 1755648000000
   /\ Availability.fetch_existingEvents Sample.tz (Sample.Date_parse Sample.tz)
        Sample.Date_toISOString Sample.no_events "2025-08-20" = [])
  /\ exists slots,
       Sample.get_availability Sample.no_events "2025-08-20" (Some "60")
       = Availability.Json200 "2025-08-20" slots (Some 60)
       /\ List.length slots = 18%nat.
Proof.
  assert (H1 : -1440 < Sample.tz < 1440) by (unfold Sample.tz; lia).
  assert (H2 : Sample.Date_parse Sample.tz "2025-08-20" = Some 1755648000000)
    by (vm_compute; reflexivity).
  assert (H3 : Availability.fetch_existingEvents Sample.tz
                 (Sample.Date_parse Sample.tz) Sample.Date_toISOString
                 Sample.no_events "2025-08-20" = [])
    by (vm_compute; reflexivity).
  split; [exact (conj H1 (conj H2 H3))|].
  destruct (scenario_2025_08_20_duration_60 Sample.tz
              (Sample.Date_parse Sample.tz) Sample.Date_toISOString
              Sample.no_events H1 H2 H3) as (slots & E & L & _).
  exists slots. split; [exact E | exact L].
Defined.


(** C1 (fails on the code). The guard reads only the clock hour of the
    slot's end. With duration 60 the 17:30 slot is returned although it ends
    at 18:30, and with duration 600 the 14:00 slot is returned although it
    ends at midnight: both ends lie after 18:00 of the day. *)
Theorem slot_end_can_pass_end_of_day :
  let slots60 := Availability.slots_of
      (Sample.get_availability Sample.no_events "2025-08-20" (Some "60")) in
  let slots600 := Availability.slots_of
      (Sample.get_availability Sample.no_events "2025-08-20" (Some "600")) in
  let start h m := Availability.slotStart_of Sample.tz
      (Sample.Date_parse Sample.tz) "2025-08-20" h m in
  exists s1730 s1400 end_of_day,
    start 17 30 = Some s1730 /\ start 14 0 = Some s1400
    /\ start 18 0 = Some end_of_day
    /\ In (Slots.slot_at Sample.tz Sample.Date_toISOString s1730) slots60
    /\ s1730 + 60 * 60000 > end_of_day
    /\ In (Slots.slot_at Sample.tz Sample.Date_toISOString s1400) slots600
    /\ s1400 + 600 * 60000 > end_of_day.
Proof.
  exists 1755711000000, 1755698400000, 1755712800000.
  repeat split; try reflexivity.
  - vm_compute. do 17 right. left. reflexivity.
  - vm_compute. left. reflexivity.
Qed.

(** C6 (fails on the code). A duration of 600 minutes fits before 18:00 at
    no candidate start, yet the handler returns eight slots, 14:00 to 17:30,
    whose ends fall between midnight and 03:30 of the next day. *)
Theorem overlong_duration_not_empty :
  (forall hm, In hm Slots.candidate_times ->
              Slots.end_minute hm 600 > 18 * 60)
  /\ map Availability.time
       (Availability.slots_of
          (Sample.get_availability Sample.no_events "2025-08-20" (Some "600")))
     = ["14:00"; "14:30"; "15:00"; "15:30"; "16:00"; "16:30"; "17:00"; "17:30"].
Proof.
  split.
  - intros hm Hin. apply candidate_times_range in Hin.
    unfold Slots.end_minute. lia.
  - vm_compute. reflexivity.
Qed.

(** The lower bound of the working day does hold: a returned slot is the
    slot of a loop index pair, so it starts between 09:00 and 17:30. *)
Lemma returned_slots_start_in_working_hours (tz : Z)
    (Date_parse : string -> option Z) (Date_toISOString : Z -> string)
    (calendar_events_list : string -> string -> Cal.ListResult)
    (date : string) (duration : option string) (slot : Availability.Slot) :
  In slot (Availability.slots_of
             (Availability.get_availability tz Date_parse Date_toISOString
                calendar_events_list date duration)) ->
  exists h m s,
    Availability.slotStart_of tz Date_parse date h m = Some s
    /\ slot = Slots.slot_at tz Date_toISOString s
    /\ Availability.time slot = JS.pad2 h ++ ":" ++ JS.pad2 m
    /\ 9 <= h <= 17 /\ (m = 0 \/ m = 30).
Proof.
  rewrite get_availability_pushed. cbn [Availability.slots_of]. intros H.
  apply in_flat_map in H as ([h m] & Hc & Hp).
  apply pushed_In in Hp as (s & Hs & E & _).
  apply candidate_times_range in Hc as [Hh Hm]. cbn [fst snd] in *.
  exists h, m, s. repeat split; try assumption; try lia.
  subst slot.
  apply (slot_at_time tz Date_parse Date_toISOString date);
    [exact Hs | lia | lia].
Qed.

(** An event from 10:00 to 10:30 and slots of 30 minutes: the slot ending
    at 10:00 and the slot starting at 10:30 touch the event and are both
    kept; only the 10:00 slot goes. *)
Example touching_slots_are_kept :
  map Availability.time
    (Availability.slots_of
       (Sample.get_availability Sample.one_event "2025-08-20" (Some "30")))
  = ["09:00"; "09:30"; "10:30"; "11:00"; "11:30"; "12:00"; "12:30"; "13:00";
     "13:30"; "14:00"; "14:30"; "15:00"; "15:30"; "16:00"; "16:30"; "17:00";
     "17:30"].
Proof. vm_compute. reflexivity. Qed.

(** ** The booking pipeline *)

Section BookingFacts.

Variable Date_parse : string -> option Z.
Variable Date_toISOString : Z -> string.
Variable isLength : nat -> string -> bool.
Variable isEmail : string -> bool.
Variable isISO8601 : string -> bool.
Variable trim : string -> string.
Variable escape : string -> string.
Variable normalizeEmail : string -> string.
Variable requestId : option string.
Variable Date_now : N.
Variable Math_random : list N.
Variable BUSINESS_EMAIL : option string.
Variable calendar_events_insert : Booking.CalendarResource -> Cal.InsertResult.
Variable db_io_error : Booking.BookingRow -> bool.
Variable audit_throws : Booking.AuditRow -> bool.
Variable gmail_send_throws : Booking.Email -> bool.

Local Abbreviation validationResult :=
  (Booking.validationResult isLength isEmail isISO8601 trim).
Local Abbreviation sanitize :=
  (Booking.sanitize Date_parse trim escape normalizeEmail).
Local Abbreviation eventStart_of :=
  (Booking.eventStart_of Date_parse Date_toISOString).
Local Abbreviation db_insert_booking := (Booking.db_insert_booking db_io_error).
Local Abbreviation audit_insert := (Booking.audit_insert audit_throws).
Local Abbreviation calendar_attempt :=
  (Booking.calendar_attempt Date_toISOString calendar_events_insert).
Local Abbreviation post_bookings :=
  (Booking.post_bookings Date_parse Date_toISOString isLength isEmail
     isISO8601 trim escape normalizeEmail requestId Date_now Math_random
     BUSINESS_EMAIL calendar_events_insert db_io_error audit_throws
     gmail_send_throws).
Local Abbreviation bookingId :=
  (IdGenerator.generateBookingId Date_now Math_random).

Lemma audit_insert_cases (db : Booking.Db) (row : Booking.AuditRow) :
  audit_insert db row
  = (if audit_throws row then db
     else {| Booking.bookings := Booking.bookings db;
             Booking.audit_logs := (Booking.audit_logs db ++ [row])%list |},
     negb (audit_throws row)).
Proof.
  unfold Booking.audit_insert. now destruct (audit_throws row).
Qed.

Lemma audit_insert_bookings (db : Booking.Db) (row : Booking.AuditRow) :
  Booking.bookings (fst (audit_insert db row)) = Booking.bookings db.
Proof.
  unfold Booking.audit_insert. now destruct (audit_throws row).
Qed.

Lemma db_insert_booking_appends (db db1 : Booking.Db) (row : Booking.BookingRow) :
  db_insert_booking db row = Some db1 ->
  Booking.bookings db1 = (Booking.bookings db ++ [row])%list
  /\ Booking.audit_logs db1 = Booking.audit_logs db.
Proof.
  unfold Booking.db_insert_booking. intros H.
  destruct (db_io_error row); [discriminate|].
  destruct (existsb _ _); [discriminate|].
  destruct (Booking.event_date row); [|discriminate].
  injection H as <-. split; reflexivity.
Qed.

(** C5. A request whose [eventType] is outside the four allowed values is
    answered 400 with [success: false] and an [errors] list that has an
    entry for [eventType]; the only effects are the validation and the
    [validation_failed] audit insert, whose failure is swallowed; table
    [bookings] is left as it was. *)
Theorem unknown_eventType_rejected (req : Booking.Body) (db : Booking.Db) :
  Booking.isIn Booking.eventType_options (Booking.str (Booking.eventType req))
  = false ->
  exists errs,
    let issues := map Booking.issue_of errs in
    let arow := {| Booking.request_id := requestId;
                   Booking.event := "validation_failed";
                   Booking.details := Booking.IssuesJson issues |} in
    let logged := negb (audit_throws arow) in
    let db' := fst (audit_insert db arow) in
    post_bookings req db
    = (Booking.ValidationFailed issues, db',
       [Booking.EValidate errs; Booking.EAuditInsert arow logged;
        Booking.ERespond 400])
    /\ Booking.http_status (Booking.ValidationFailed issues) = 400
    /\ Booking.success (Booking.ValidationFailed issues) = false
    /\ In {| Booking.param := "eventType";
             Booking.issue_msg := "Invalid value" |} issues
    /\ Booking.bookings db' = Booking.bookings db
    /\ Booking.audit_logs db'
       = (if logged then Booking.audit_logs db ++ [arow]
          else Booking.audit_logs db)%list.
Proof.
  intros Hin.
  assert (Herr : In {| Booking.path := "eventType";
                       Booking.msg := "Invalid value" |}
                   (validationResult req)).
  { unfold Booking.validationResult. rewrite Hin.
    do 5 (apply in_or_app; right).
    apply in_or_app. left. now left. }
  exists (validationResult req). cbv zeta.
  unfold Booking.post_bookings.
  destruct (validationResult req) as [|e errs] eqn:V; [contradiction|].
  rewrite audit_insert_cases. cbn [fst].
  repeat split.
  - change {| Booking.param := "eventType"; Booking.issue_msg := "Invalid value" |}
      with (Booking.issue_of {| Booking.path := "eventType";
                                Booking.msg := "Invalid value" |}).
    now apply in_map.
  - now destruct (audit_throws _).
  - now destruct (audit_throws _).
Qed.

(** C10. A request that passes validation but whose date and time do not
    parse to a valid instant is answered 400 with the single error string
    [Invalid date/time format]; an identifier has been generated, and
    nothing else happened: no calendar call, no row, no audit record. *)
Theorem invalid_date_time_rejected (req : Booking.Body) (db : Booking.Db) :
  validationResult req = [] ->
  eventStart_of (sanitize req) = None ->
  post_bookings req db
  = (Booking.BadRequest "Invalid date/time format", db,
     [Booking.EValidate []; Booking.EGenerateId bookingId;
      Booking.ERespond 400])
  /\ Booking.http_status (Booking.BadRequest "Invalid date/time format") = 400
  /\ Booking.success (Booking.BadRequest "Invalid date/time format") = false.
Proof.
  intros V E. unfold Booking.post_bookings. rewrite V.
  cbv zeta. rewrite E. repeat split.
Qed.

Lemma calendar_attempt_throws (b : Booking.Sanitized) (eventStart eventEnd : Date) :
  (forall r, calendar_events_insert r = Cal.InsertThrows) ->
  snd (calendar_attempt (Booking.s_clientName b) (Booking.s_clientEmail b)
         (Booking.s_clientPhone b) (Booking.s_eventType b)
         (Booking.s_location b) (Booking.s_message b) bookingId
         eventStart eventEnd) = None.
Proof.
  intros H. unfold Booking.calendar_attempt.
  destruct (Booking.eventConfig_of _) as [title descr| |]; [| |reflexivity];
    (destruct (toISOString _ eventStart); [|reflexivity]);
    (destruct (toISOString _ eventEnd); [|reflexivity]);
    cbv zeta; now rewrite H.
Qed.

(** C2, amended. When validation passes, the date parses, the calendar
    insert throws and the insert of the booking row succeeds, the handler
    answers [success: true] with [calendar_event_id: null], and table
    [bookings] gains exactly the new row, whose calendar reference is
    null. *)
Theorem calendar_failure_not_fatal (req : Booking.Body) (db db1 : Booking.Db)
    (ts : Z) :
  validationResult req = [] ->
  eventStart_of (sanitize req) = Some ts ->
  (forall r, calendar_events_insert r = Cal.InsertThrows) ->
  db_insert_booking db (Booking.booking_row (sanitize req) bookingId None)
  = Some db1 ->
  exists db2 trace,
    post_bookings req db
    = (Booking.BookingConfirmed bookingId None
         "Booking confirmed successfully!", db2, trace)
    /\ Booking.success (Booking.BookingConfirmed bookingId None
                          "Booking confirmed successfully!") = true
    /\ Booking.bookings db2
       = (Booking.bookings db
          ++ [Booking.booking_row (sanitize req) bookingId None])%list
    /\ Booking.calendar_event_id
         (Booking.booking_row (sanitize req) bookingId None) = None
    /\ In (Booking.EDbInsertBooking
             (Booking.booking_row (sanitize req) bookingId None) true) trace.
Proof.
  intros V E Hcal Hdb. unfold Booking.post_bookings. rewrite V.
  cbv zeta. rewrite E.
  match goal with
  | |- context [calendar_attempt ?a ?b ?c ?d ?e ?f ?g ?h ?i] =>
      pose proof (calendar_attempt_throws (sanitize req) h i Hcal) as Hsnd;
      destruct (calendar_attempt a b c d e f g h i) as [call calId]
  end.
  cbn [snd] in Hsnd. subst calId. rewrite Hdb.
  rewrite audit_insert_cases.
  eexists. eexists. split; [reflexivity|].
  split; [reflexivity|]. split; [|split; [reflexivity|]].
  - destruct (db_insert_booking_appends _ _ _ Hdb) as [Hb _].
    destruct (audit_throws _); cbn [Booking.bookings]; exact Hb.
  - cbn. tauto.
Qed.

(** C8, amended. Whenever the booking row has been inserted, the effects
    of the request are, in this order: validation, identifier, calendar
    attempt, insert of the row, [booking_created] audit insert, client
    confirmation, business notification, response. *)
Theorem booking_pipeline_order (req : Booking.Body) (db db' : Booking.Db)
    (resp : Booking.Response) (trace : list Booking.Effect)
    (row : Booking.BookingRow) :
  post_bookings req db = (resp, db', trace) ->
  In (Booking.EDbInsertBooking row true) trace ->
  map Booking.stage_of trace
  = [Booking.Validate; Booking.GenerateId; Booking.CalendarEvent;
     Booking.Persist; Booking.Audit; Booking.NotifyClient;
     Booking.NotifyBusiness; Booking.Respond]
  /\ exists arow logged,
       nth_error trace 4 = Some (Booking.EAuditInsert arow logged)
       /\ Booking.event arow = "booking_created".
Proof.
  unfold Booking.post_bookings. intros H Hin.
  destruct (validationResult req) as [|e errs].
  - cbv zeta in H.
    destruct (eventStart_of (sanitize req)) as [ts|].
    + destruct (calendar_attempt _ _ _ _ _ _ _ _ _) as [call calId].
      destruct (db_insert_booking db _) as [db1|].
      * destruct (audit_insert db1 _) as [db2 logged].
        injection H as <- <- <-. split; [reflexivity|].
        eexists. exists logged. split; reflexivity.
      * injection H as <- <- <-. cbn in Hin.
        repeat (destruct Hin as [Hin|Hin]; [discriminate Hin|]).
        contradiction.
    + injection H as <- <- <-. cbn in Hin.
      repeat (destruct Hin as [Hin|Hin]; [discriminate Hin|]).
      contradiction.
  - cbv zeta in H. destruct (audit_insert db _) as [db1 logged].
    injection H as <- <- <-. cbn in Hin.
    repeat (destruct Hin as [Hin|Hin]; [discriminate Hin|]).
    contradiction.
Qed.

End BookingFacts.

(** ** The booking handler on concrete requests *)

Lemma unknown_eventType_rejected_witness :
  Booking.isIn Booking.eventType_options
    (Booking.str (Booking.eventType Sample.brunch)) = false
  /\ exists issues db' trace,
       Sample.post_bookings Sample.isISO8601 Sample.calendar_ok
         (fun _ => false) Sample.brunch Sample.empty_db
       = (Booking.ValidationFailed issues, db', trace)
       /\ In {| Booking.param := "eventType";
                Booking.issue_msg := "Invalid value" |} issues
       /\ Booking.bookings db' = [].
Proof.
  assert (H : Booking.isIn Booking.eventType_options
                (Booking.str (Booking.eventType Sample.brunch)) = false)
    by (vm_compute; reflexivity).
  split; [exact H|].
  destruct (unknown_eventType_rejected (Sample.Date_parse Sample.tz)
              Sample.Date_toISOString Sample.isLength Sample.isEmail
              Sample.isISO8601 Sample.trim Sample.escape Sample.normalizeEmail
              (Some "req-1") 1755648000000%N [18; 35; 0; 7; 22]%N
              (Some "hello@4everevents.example") Sample.calendar_ok
              (fun _ => false) (fun _ => false) (fun _ => false)
              Sample.brunch Sample.empty_db H)
    as (errs & E & _ & _ & I & B & _).
  eexists. eexists. eexists. split; [exact E|]. split; [exact I | exact B].
Defined.

Lemma invalid_date_time_rejected_witness :
  (Booking.validationResult Sample.isLength Sample.isEmail (fun _ => true)
     Sample.trim Sample.week_date = []
   /\ Booking.eventStart_of (Sample.Date_parse Sample.tz)
        Sample.Date_toISOString
        (Booking.sanitize (Sample.Date_parse Sample.tz) Sample.trim
           Sample.escape Sample.normalizeEmail Sample.week_date) = None)
  /\ Sample.post_bookings (fun _ => true) Sample.calendar_ok (fun _ => false)
       Sample.week_date Sample.empty_db
     = (Booking.BadRequest "Invalid date/time format", Sample.empty_db,
        [Booking.EValidate []; Booking.EGenerateId "4EV-MEJ7HMO0-IZ07";
         Booking.ERespond 400]).
Proof.
  assert (H1 : Booking.validationResult Sample.isLength Sample.isEmail
                 (fun _ => true) Sample.trim Sample.week_date = [])
    by (vm_compute; reflexivity).
  assert (H2 : Booking.eventStart_of (Sample.Date_parse Sample.tz)
                 Sample.Date_toISOString
                 (Booking.sanitize (Sample.Date_parse Sample.tz) Sample.trim
                    Sample.escape Sample.normalizeEmail Sample.week_date)
               = None) by (vm_compute; reflexivity).
  split; [exact (conj H1 H2)|].
  exact (proj1 (invalid_date_time_rejected (Sample.Date_parse Sample.tz)
              Sample.Date_toISOString Sample.isLength Sample.isEmail
              (fun _ => true) Sample.trim Sample.escape Sample.normalizeEmail
              (Some "req-1") 1755648000000%N [18; 35; 0; 7; 22]%N
              (Some "hello@4everevents.example") Sample.calendar_ok
              (fun _ => false) (fun _ => false) (fun _ => false)
              Sample.week_date Sample.empty_db H1 H2)).
Defined.

Lemma calendar_failure_not_fatal_witness :
  let b := Booking.sanitize (Sample.Date_parse Sample.tz) Sample.trim
             Sample.escape Sample.normalizeEmail Sample.request in
  let row := Booking.booking_row b "4EV-MEJ7HMO0-IZ07" None in
  let db1 := {| Booking.bookings := [row]; Booking.audit_logs := [] |} in
  (Booking.validationResult Sample.isLength Sample.isEmail Sample.isISO8601
     Sample.trim Sample.request = []
   /\ Booking.eventStart_of (Sample.Date_parse Sample.tz)
        Sample.Date_toISOString b = Some 1755684000000
   /\ (forall r, Sample.calendar_unreachable r = Cal.InsertThrows)
   /\ Booking.db_insert_booking (fun _ => false) Sample.empty_db row
      = Some db1)
  /\ exists db2 trace,
       Sample.post_bookings Sample.isISO8601 Sample.calendar_unreachable
         (fun _ => false) Sample.request Sample.empty_db
       = (Booking.BookingConfirmed "4EV-MEJ7HMO0-IZ07" None
            "Booking confirmed successfully!", db2, trace)
       /\ Booking.bookings db2 = [row].
Proof.
  intros b row db1.
  assert (H1 : Booking.validationResult Sample.isLength Sample.isEmail
                 Sample.isISO8601 Sample.trim Sample.request = [])
    by (vm_compute; reflexivity).
  assert (H2 : Booking.eventStart_of (Sample.Date_parse Sample.tz)
                 Sample.Date_toISOString b = Some 1755684000000)
    by (vm_compute; reflexivity).
  assert (H3 : forall r, Sample.calendar_unreachable r = Cal.InsertThrows)
    by reflexivity.
  assert (H4 : Booking.db_insert_booking (fun _ => false) Sample.empty_db row
               = Some db1) by (vm_compute; reflexivity).
  split; [exact (conj H1 (conj H2 (conj H3 H4)))|].
  destruct (calendar_failure_not_fatal (Sample.Date_parse Sample.tz)
              Sample.Date_toISOString Sample.isLength Sample.isEmail
              Sample.isISO8601 Sample.trim Sample.escape Sample.normalizeEmail
              (Some "req-1") 1755648000000%N [18; 35; 0; 7; 22]%N
              (Some "hello@4everevents.example") Sample.calendar_unreachable
              (fun _ => false) (fun _ => false) (fun _ => false)
              Sample.request Sample.empty_db db1 1755684000000
              H1 H2 H3 H4)
    as (db2 & trace & E & _ & B & _).
  exists db2, trace. split; [exact E | exact B].
Defined.

(** C2 as stated fails: the request passes validation and the calendar
    insert throws, but the insert of the row fails as well, so the answer
    is a 500 and no row is stored. *)
Lemma calendar_failure_with_failed_insert :
  let run := Sample.post_bookings Sample.isISO8601 Sample.calendar_unreachable
               (fun _ => true) Sample.request Sample.empty_db in
  Booking.validationResult Sample.isLength Sample.isEmail Sample.isISO8601
    Sample.trim Sample.request = []
  /\ (exists r, In (Booking.ECalendarInsert (Some (r, Cal.InsertThrows)))
                  (snd run))
  /\ Booking.success (fst (fst run)) = false
  /\ Booking.http_status (fst (fst run)) = 500
  /\ Booking.bookings (snd (fst run)) = [].
Proof.
  cbv zeta. split; [vm_compute; reflexivity|]. split.
  - eexists. vm_compute. do 2 right. left. reflexivity.
  - repeat split.
Qed.

Lemma booking_pipeline_order_witness :
  let run := Sample.post_bookings Sample.isISO8601 Sample.calendar_ok
               (fun _ => false) Sample.request Sample.empty_db in
  let row := Booking.booking_row
               (Booking.sanitize (Sample.Date_parse Sample.tz) Sample.trim
                  Sample.escape Sample.normalizeEmail Sample.request)
               "4EV-MEJ7HMO0-IZ07" (Some "evt1") in
  (run = (fst (fst run), snd (fst run), snd run)
   /\ In (Booking.EDbInsertBooking row true) (snd run))
  /\ map Booking.stage_of (snd run)
     = [Booking.Validate; Booking.GenerateId; Booking.CalendarEvent;
        Booking.Persist; Booking.Audit; Booking.NotifyClient;
        Booking.NotifyBusiness; Booking.Respond].
Proof.
  intros run row.
  assert (H1 : run = (fst (fst run), snd (fst run), snd run))
    by (vm_compute; reflexivity).
  assert (H2 : In (Booking.EDbInsertBooking row true) (snd run))
    by (vm_compute; do 3 right; left; reflexivity).
  split; [exact (conj H1 H2)|].
  exact (proj1 (booking_pipeline_order (Sample.Date_parse Sample.tz)
              Sample.Date_toISOString Sample.isLength Sample.isEmail
              Sample.isISO8601 Sample.trim Sample.escape Sample.normalizeEmail
              (Some "req-1") 1755648000000%N [18; 35; 0; 7; 22]%N
              (Some "hello@4everevents.example") Sample.calendar_ok
              (fun _ => false) (fun _ => false) (fun _ => false)
              Sample.request Sample.empty_db _ _ _ row H1 H2)).
Defined.

(** C8 as stated fails: on a request that is persisted, the audit insert
    comes right after the insert of the row, before the two e-mails, not
    after them. *)
Lemma audit_precedes_notifications :
  let run := Sample.post_bookings Sample.isISO8601 Sample.calendar_ok
               (fun _ => false) Sample.request Sample.empty_db in
  (exists row, In (Booking.EDbInsertBooking row true) (snd run))
  /\ map Booking.stage_of (snd run)
     <> [Booking.Validate; Booking.GenerateId; Booking.CalendarEvent;
         Booking.Persist; Booking.NotifyClient; Booking.NotifyBusiness;
         Booking.Audit; Booking.Respond].
Proof.
  cbv zeta. split.
  - eexists. vm_compute. do 3 right. left. reflexivity.
  - vm_compute. discriminate.
Qed.

(** ** Booking identifiers *)

Lemma below_36 (P : N -> bool) :
  forallb P (map N.of_nat (seq 0 36)) = true ->
  forall k, (k < 36)%N -> P k = true.
Proof.
  intros H k Hk. rewrite forallb_forall in H. apply H.
  apply in_map_iff. exists (N.to_nat k). split.
  - apply N2Nat.id.
  - apply in_seq. lia.
Qed.

Lemma digit36_upper (k : N) :
  (k < 36)%N ->
  IdGenerator.is_base36_upper (JS.upper_char (JS.digit36 k)) = true
  /\ IdGenerator.value36 (JS.upper_char (JS.digit36 k)) = k.
Proof.
  intros Hk.
  pose proof (below_36
    (fun k => IdGenerator.is_base36_upper (JS.upper_char (JS.digit36 k))
              && (IdGenerator.value36 (JS.upper_char (JS.digit36 k)) =? k)%N)
    eq_refl k Hk) as H.
  apply andb_true_iff in H as [H1 H2]. apply N.eqb_eq in H2. now split.
Qed.

Lemma toUpperCase_app (s1 s2 : string) :
  JS.toUpperCase (s1 ++ s2) = JS.toUpperCase s1 ++ JS.toUpperCase s2.
Proof. induction s1 as [|c s1 IH]; simpl; [reflexivity | now rewrite IH]. Qed.

Lemma toUpperCase_length (s : string) :
  String.length (JS.toUpperCase s) = String.length s.
Proof. induction s as [|c s IH]; simpl; [reflexivity | now rewrite IH]. Qed.

Lemma all_chars_app (p : ascii -> bool) (s1 s2 : string) :
  IdGenerator.all_chars p (s1 ++ s2)
  = IdGenerator.all_chars p s1 && IdGenerator.all_chars p s2.
Proof.
  induction s1 as [|c s1 IH]; simpl; [reflexivity|].
  now rewrite IH, andb_assoc.
Qed.

Lemma decode36_aux_app (a : N) (s1 s2 : string) :
  IdGenerator.decode36_aux a (s1 ++ s2)
  = IdGenerator.decode36_aux (IdGenerator.decode36_aux a s1) s2.
Proof. revert a. induction s1 as [|c s1 IH]; intros a; simpl; auto. Qed.

Lemma append_assoc (s1 s2 s3 : string) : (s1 ++ s2) ++ s3 = s1 ++ (s2 ++ s3).
Proof. induction s1 as [|c s1 IH]; simpl; [reflexivity | now rewrite IH]. Qed.

Lemma append_nil_r (s : string) : s ++ EmptyString = s.
Proof. induction s as [|c s IH]; simpl; [reflexivity | now f_equal]. Qed.

Lemma append_not_empty (s : string) (c : ascii) :
  s ++ String c EmptyString <> EmptyString.
Proof. destruct s; discriminate. Qed.

Lemma toString36_aux_S (fuel : nat) (n : N) (acc : string) :
  JS.toString36_aux (S fuel) n acc
  = if (n / 36 =? 0)%N then String (JS.digit36 (n mod 36)) acc
    else JS.toString36_aux fuel (n / 36) (String (JS.digit36 (n mod 36)) acc).
Proof. reflexivity. Qed.

(** With enough fuel the digits of [n] are put in front of [acc], most
    significant first. *)
Lemma toString36_aux_digits (fuel : nat) :
  forall n, Z.of_N n < 2 ^ Z.of_nat fuel ->
  exists s,
    (forall acc, JS.toString36_aux (S fuel) n acc = s ++ acc)
    /\ s <> EmptyString
    /\ IdGenerator.all_chars IdGenerator.is_base36_upper (JS.toUpperCase s)
       = true
    /\ IdGenerator.decode36 (JS.toUpperCase s) = n.
Proof.
  assert (Hlast : forall n, (n / 36 = 0)%N ->
            IdGenerator.all_chars IdGenerator.is_base36_upper
              (JS.toUpperCase (String (JS.digit36 (n mod 36)) EmptyString))
            = true
            /\ IdGenerator.decode36
                 (JS.toUpperCase (String (JS.digit36 (n mod 36)) EmptyString))
               = n).
  { intros n Hq.
    assert (Hlt : (n mod 36 < 36)%N) by (apply N.mod_lt; discriminate).
    destruct (digit36_upper _ Hlt) as [Hc Hv].
    unfold IdGenerator.decode36. cbn. rewrite Hc, Hv. split; [reflexivity|].
    pose proof (N.div_mod n 36 ltac:(discriminate)) as D.
    rewrite Hq in D. lia. }
  induction fuel as [|fuel IH]; intros n Hn.
  - assert (n = 0%N) by (cbn in Hn; lia). subst n.
    exists "0". repeat split; discriminate.
  - destruct (n / 36 =? 0)%N eqn:Q.
    + pose proof (proj1 (N.eqb_eq _ _) Q) as Q'.
      destruct (Hlast n Q') as [Hc Hv].
      exists (String (JS.digit36 (n mod 36)) EmptyString).
      split; [|split; [discriminate | split; assumption]].
      intros acc. rewrite (toString36_aux_S (S fuel) n acc), Q. reflexivity.
    + pose proof (proj1 (N.eqb_neq _ _) Q) as Q'.
      assert (Hq : Z.of_N (n / 36) < 2 ^ Z.of_nat fuel).
      { rewrite N2Z.inj_div. apply Z.div_lt_upper_bound; [lia|].
        rewrite Nat2Z.inj_succ, Z.pow_succ_r in Hn by lia.
        change (Z.of_N 36) with 36.
        assert (0 < 2 ^ Z.of_nat fuel) by (apply Z.pow_pos_nonneg; lia).
        lia. }
      destruct (IH _ Hq) as (s' & Hs' & _ & Hc' & Hv').
      exists (s' ++ String (JS.digit36 (n mod 36)) EmptyString).
      assert (Hlt : (n mod 36 < 36)%N) by (apply N.mod_lt; discriminate).
      destruct (digit36_upper _ Hlt) as [Hc Hv].
      split; [|split; [|split]].
      * intros acc.
        rewrite (toString36_aux_S (S fuel) n acc), Q, Hs', append_assoc.
        reflexivity.
      * apply append_not_empty.
      * rewrite toUpperCase_app, all_chars_app, Hc'. cbn. now rewrite Hc.
      * unfold IdGenerator.decode36 in *.
        rewrite toUpperCase_app, decode36_aux_app, Hv'.
        cbn [IdGenerator.decode36_aux JS.toUpperCase]. rewrite Hv.
        pose proof (N.div_mod n 36 ltac:(discriminate)). lia.
Qed.

Lemma size_nat_bound (n : N) : Z.of_N n < 2 ^ Z.of_nat (N.size_nat n).
Proof.
  destruct n as [|p]; [reflexivity|].
  cbn [N.size_nat Z.of_N]. now apply Zpower2_Psize.
Qed.

Lemma toString36_digits (n : N) :
  JS.toString36 n <> EmptyString
  /\ IdGenerator.all_chars IdGenerator.is_base36_upper
       (JS.toUpperCase (JS.toString36 n)) = true
  /\ IdGenerator.decode36 (JS.toUpperCase (JS.toString36 n)) = n.
Proof.
  destruct (toString36_aux_digits _ n (size_nat_bound n))
    as (s & Hs & Hne & Hc & Hv).
  unfold JS.toString36. rewrite Hs.
  assert (E : s ++ EmptyString = s).
  { clear. induction s as [|c s IH]; simpl; [reflexivity | now rewrite IH]. }
  rewrite E. auto.
Qed.

Lemma substring_digits36 (m : nat) (l : list N) :
  String.substring 0 m (IdGenerator.digits36 l)
  = IdGenerator.digits36 (firstn m l).
Proof.
  revert l. induction m as [|m IH]; intros [|d l]; simpl; try reflexivity.
  now rewrite IH.
Qed.

Lemma digits36_upper (l : list N) :
  Forall (fun d => (d < 36)%N) l ->
  IdGenerator.all_chars IdGenerator.is_base36_upper
    (JS.toUpperCase (IdGenerator.digits36 l)) = true
  /\ String.length (JS.toUpperCase (IdGenerator.digits36 l)) = List.length l.
Proof.
  induction 1 as [|d l Hd _ [IH1 IH2]]; simpl; [split; reflexivity|].
  destruct (digit36_upper _ Hd) as [Hc _]. rewrite Hc, IH1, IH2. now split.
Qed.

(** C9. An identifier is ["4EV"], ["-"], the upper-case base-36 numeral of
    the timestamp, ["-"], and the first four (or fewer) base-36 fraction
    digits of the random number in upper case; the generator is a total
    function of the clock and the random number. *)
Theorem generateBookingId_format (now : N) (frac : list N) :
  Forall (fun d => (d < 36)%N) frac ->
  exists timestamp random,
    IdGenerator.generateBookingId now frac
    = "4EV" ++ "-" ++ timestamp ++ "-" ++ random
    /\ timestamp = JS.toUpperCase (JS.toString36 now)
    /\ timestamp <> EmptyString
    /\ IdGenerator.all_chars IdGenerator.is_base36_upper timestamp = true
    /\ IdGenerator.decode36 timestamp = now
    /\ random = JS.toUpperCase (IdGenerator.digits36 (firstn 4 frac))
    /\ (String.length random <= 4)%nat
    /\ IdGenerator.all_chars IdGenerator.is_base36_upper random = true.
Proof.
  intros Hfrac.
  destruct (toString36_digits now) as (Hne & Hc & Hv).
  exists (JS.toUpperCase (JS.toString36 now)),
    (JS.toUpperCase (IdGenerator.digits36 (firstn 4 frac))).
  assert (Hfirst : Forall (fun d => (d < 36)%N) (firstn 4 frac)).
  { rewrite <- (firstn_skipn 4 frac) in Hfrac.
    now apply Forall_app in Hfrac. }
  destruct (digits36_upper _ Hfirst) as [Hrc Hrl].
  repeat split; try assumption.
  - unfold IdGenerator.generateBookingId. do 3 f_equal.
    unfold JS.substring, IdGenerator.Math_random_toString36.
    destruct frac as [|d frac]; [reflexivity|].
    change (String.substring 2 (6 - 2) ("0." ++ IdGenerator.digits36 (d :: frac)))
      with (String.substring 0 4 (IdGenerator.digits36 (d :: frac))).
    now rewrite substring_digits36.
  - intros E. apply Hne.
    destruct (JS.toString36 now); [reflexivity | discriminate E].
  - rewrite Hrl. rewrite length_firstn. lia.
Qed.

Lemma generateBookingId_format_witness :
  Forall (fun d => (d < 36)%N) [18; 35; 0; 7; 22]%N
  /\ IdGenerator.generateBookingId 1755648000000 [18; 35; 0; 7; 22]%N
     = "4EV-MEJ7HMO0-IZ07".
Proof.
  assert (H : Forall (fun d => (d < 36)%N) [18; 35; 0; 7; 22]%N)
    by (repeat constructor).
  split; [exact H|].
  destruct (generateBookingId_format 1755648000000 [18; 35; 0; 7; 22]%N H)
    as (timestamp & random & E & Et & _ & _ & _ & Er & _).
  rewrite E, Et, Er. vm_compute. reflexivity.
Defined.

(** * Further properties of the booking handler *)

Section BookingOutcomes.

Variable Date_parse : string -> option Z.
Variable Date_toISOString : Z -> string.
Variable isLength : nat -> string -> bool.
Variable isEmail : string -> bool.
Variable isISO8601 : string -> bool.
Variable trim : string -> string.
Variable escape : string -> string.
Variable normalizeEmail : string -> string.
Variable requestId : option string.
Variable Date_now : N.
Variable Math_random : list N.
Variable BUSINESS_EMAIL : option string.
Variable calendar_events_insert : Booking.CalendarResource -> Cal.InsertResult.
Variable db_io_error : Booking.BookingRow -> bool.
Variable audit_throws : Booking.AuditRow -> bool.
Variable gmail_send_throws : Booking.Email -> bool.

Local Abbreviation validationResult :=
  (Booking.validationResult isLength isEmail isISO8601 trim).
Local Abbreviation sanitize :=
  (Booking.sanitize Date_parse trim escape normalizeEmail).
Local Abbreviation eventStart_of :=
  (Booking.eventStart_of Date_parse Date_toISOString).
Local Abbreviation db_insert_booking := (Booking.db_insert_booking db_io_error).
Local Abbreviation audit_insert := (Booking.audit_insert audit_throws).
Local Abbreviation calendar_attempt :=
  (Booking.calendar_attempt Date_toISOString calendar_events_insert).
Local Abbreviation post_bookings_with :=
  (Booking.post_bookings Date_parse Date_toISOString isLength isEmail
     isISO8601 trim escape normalizeEmail requestId Date_now Math_random
     BUSINESS_EMAIL calendar_events_insert db_io_error audit_throws).
Local Abbreviation post_bookings := (post_bookings_with gmail_send_throws).
Local Abbreviation bookingId :=
  (IdGenerator.generateBookingId Date_now Math_random).

(** The shapes a run of the handler can take, one per exit of the code. *)
Lemma post_bookings_cases (req : Booking.Body) (db : Booking.Db) :
  (exists e errs arow,
      validationResult req = e :: errs
      /\ Booking.event arow = "validation_failed"
      /\ post_bookings req db
         = (Booking.ValidationFailed (map Booking.issue_of (e :: errs)),
            fst (audit_insert db arow),
            [Booking.EValidate (e :: errs);
             Booking.EAuditInsert arow (negb (audit_throws arow));
             Booking.ERespond 400]))
  \/ (validationResult req = [] /\ eventStart_of (sanitize req) = None
      /\ post_bookings req db
         = (Booking.BadRequest "Invalid date/time format", db,
            [Booking.EValidate []; Booking.EGenerateId bookingId;
             Booking.ERespond 400]))
  \/ (exists ts call calId,
        validationResult req = [] /\ eventStart_of (sanitize req) = Some ts
        /\ db_insert_booking db
             (Booking.booking_row (sanitize req) bookingId calId) = None
        /\ post_bookings req db
           = (Booking.ServerError "Failed to create booking", db,
              [Booking.EValidate []; Booking.EGenerateId bookingId;
               Booking.ECalendarInsert call;
               Booking.EDbInsertBooking
                 (Booking.booking_row (sanitize req) bookingId calId) false;
               Booking.ERespond 500]))
  \/ (exists ts call calId db1 arow mail1 mail2,
        validationResult req = [] /\ eventStart_of (sanitize req) = Some ts
        /\ db_insert_booking db
             (Booking.booking_row (sanitize req) bookingId calId) = Some db1
        /\ Booking.event arow = "booking_created"
        /\ Booking.template mail1 = Booking.ConfirmationEmail
        /\ Booking.template mail2 = Booking.BusinessNotification
        /\ post_bookings req db
           = (Booking.BookingConfirmed bookingId calId
                "Booking confirmed successfully!",
              fst (audit_insert db1 arow),
              [Booking.EValidate []; Booking.EGenerateId bookingId;
               Booking.ECalendarInsert call;
               Booking.EDbInsertBooking
                 (Booking.booking_row (sanitize req) bookingId calId) true;
               Booking.EAuditInsert arow (negb (audit_throws arow));
               Booking.EGmailSend mail1 (negb (gmail_send_throws mail1));
               Booking.EGmailSend mail2 (negb (gmail_send_throws mail2));
               Booking.ERespond 200])).
Proof.
  unfold Booking.post_bookings.
  destruct (validationResult req) as [|e errs] eqn:V.
  - right. cbv zeta.
    destruct (eventStart_of (sanitize req)) as [ts|] eqn:E.
    + right.
      destruct (calendar_attempt _ _ _ _ _ _ _ _ _) as [call calId].
      destruct (db_insert_booking db _) as [db1|] eqn:D.
      * right. exists ts, call, calId, db1.
        exists {| Booking.request_id := requestId;
                  Booking.event := "booking_created";
                  Booking.details :=
                    Booking.BookingCreatedJson bookingId
                      (Booking.s_clientEmail (sanitize req)) |},
          {| Booking.to := Some (Booking.s_clientEmail (sanitize req));
             Booking.template := Booking.ConfirmationEmail;
             Booking.email_bookingId := bookingId |},
          {| Booking.to := BUSINESS_EMAIL;
             Booking.template := Booking.BusinessNotification;
             Booking.email_bookingId := bookingId |}.
        rewrite (audit_insert_cases audit_throws). cbn [fst].
        repeat split. exact D.
      * left. exists ts, call, calId. repeat split. exact D.
    + left. repeat split.
  - left. cbv zeta. exists e, errs.
    exists {| Booking.request_id := requestId;
              Booking.event := "validation_failed";
              Booking.details :=
                Booking.IssuesJson (map Booking.issue_of (e :: errs)) |}.
    rewrite (audit_insert_cases audit_throws). cbn [fst].
    repeat split.
Qed.

Lemma db_insert_booking_fresh (db db1 : Booking.Db) (row : Booking.BookingRow) :
  db_insert_booking db row = Some db1 ->
  ~ In (Booking.booking_id row) (map Booking.booking_id (Booking.bookings db))
  /\ exists t, Booking.event_date row = Some t.
Proof.
  unfold Booking.db_insert_booking. intros H.
  destruct (db_io_error row); [discriminate|].
  destruct (existsb _ _) eqn:X; [discriminate|].
  destruct (Booking.event_date row) as [t|]; [|discriminate].
  split; [|now exists t].
  intros Hin. apply in_map_iff in Hin as (r & Hr & Hin).
  assert (existsb (fun r => (Booking.booking_id r =? Booking.booking_id row)%string)
            (Booking.bookings db) = true).
  { apply existsb_exists. exists r. split; [assumption|].
    rewrite Hr. apply String.eqb_refl. }
  congruence.
Qed.

Lemma audit_insert_logs (db : Booking.Db) (row : Booking.AuditRow) :
  Booking.bookings (fst (audit_insert db row)) = Booking.bookings db
  /\ exists added,
       Booking.audit_logs (fst (audit_insert db row))
       = (Booking.audit_logs db ++ added)%list
       /\ (List.length added <= 1)%nat.
Proof.
  rewrite (audit_insert_cases audit_throws). cbn [fst].
  destruct (audit_throws row); cbn.
  - split; [reflexivity|]. exists [].
    split; [now rewrite app_nil_r | cbn; lia].
  - split; [reflexivity|]. exists [row]. split; [reflexivity | cbn; lia].
Qed.

(** X1. When the insert of the booking row fails, the handler answers 500
    with the generic message and stops there: the database is untouched,
    no audit record is written and no e-mail is sent, whatever the calendar
    call did before. *)
Theorem failed_insert_stops_the_pipeline (req : Booking.Body)
    (db : Booking.Db) (ts : Z) :
  validationResult req = [] ->
  eventStart_of (sanitize req) = Some ts ->
  (forall calId,
      db_insert_booking db (Booking.booking_row (sanitize req) bookingId calId)
      = None) ->
  exists call row,
    post_bookings req db
    = (Booking.ServerError "Failed to create booking", db,
       [Booking.EValidate []; Booking.EGenerateId bookingId;
        Booking.ECalendarInsert call; Booking.EDbInsertBooking row false;
        Booking.ERespond 500]).
Proof.
  intros V E Hfail.
  destruct (post_bookings_cases req db)
    as [(e & errs & arow & V' & _)
       |[(_ & E' & _)
        |[(ts' & call & calId & _ & _ & _ & R)
         |(ts' & call & calId & db1 & arow & m1 & m2 & _ & _ & D & _)]]].
  - congruence.
  - congruence.
  - now exists call, (Booking.booking_row (sanitize req) bookingId calId).
  - rewrite Hfail in D. discriminate.
Qed.

(** X2. Whether the two Gmail sends succeed or throw changes neither the
    response nor the database nor the sequence of stages: with any other
    behaviour of the mail collaborator the handler ends the same way. *)
Theorem notification_outcome_is_invisible (other_gmail : Booking.Email -> bool)
    (req : Booking.Body) (db : Booking.Db) :
  fst (post_bookings_with other_gmail req db) = fst (post_bookings req db)
  /\ map Booking.stage_of (snd (post_bookings_with other_gmail req db))
     = map Booking.stage_of (snd (post_bookings req db)).
Proof.
  unfold Booking.post_bookings.
  destruct (validationResult req) as [|e errs]; cbv zeta.
  - destruct (eventStart_of (sanitize req)) as [ts|]; [|split; reflexivity].
    destruct (calendar_attempt _ _ _ _ _ _ _ _ _) as [call calId].
    destruct (db_insert_booking db _) as [db1|]; [|split; reflexivity].
    destruct (audit_insert db1 _) as [db2 logged]. split; reflexivity.
  - destruct (audit_insert db _) as [db1 logged]. split; reflexivity.
Qed.

(** What a request whose generated identifier is already stored comes
    to: no success and no change of the table. *)
Lemma collision_is_refused (req : Booking.Body) (db : Booking.Db) :
  In bookingId (map Booking.booking_id (Booking.bookings db)) ->
  Booking.success (fst (fst (post_bookings req db))) = false
  /\ Booking.bookings (snd (fst (post_bookings req db))) = Booking.bookings db
  /\ (validationResult req = [] ->
      (exists ts, eventStart_of (sanitize req) = Some ts) ->
      fst (fst (post_bookings req db))
      = Booking.ServerError "Failed to create booking").
Proof.
  intros Hin.
  destruct (post_bookings_cases req db)
    as [(e & errs & arow & V & _ & R)
       |[(V & E & R)
        |[(ts' & call & calId & _ & _ & _ & R)
         |(ts' & call & calId & db1 & arow & m1 & m2 & _ & _ & D & _)]]];
    try (rewrite R; cbn [fst snd Booking.success]).
  - split; [reflexivity|].
    split; [exact (proj1 (audit_insert_logs db arow))|].
    intros V'. congruence.
  - split; [reflexivity|]. split; [reflexivity|].
    intros _ (ts & E'). congruence.
  - repeat split.
  - destruct (db_insert_booking_fresh _ _ _ D) as [F _].
    now contradiction F.
Qed.

(** X3. [booking_id] is UNIQUE in the schema and the handler does not try
    again with a fresh identifier: a request whose generated identifier is
    already stored gets [success: false] (500 once it passed validation and
    its date parsed) and stores nothing. So after a confirmed booking any
    request served with the same clock reading and the same random digits
    is refused, and the stored identifiers stay pairwise distinct. *)
Theorem booking_ids_stay_unique (req : Booking.Body) (db db' : Booking.Db)
    (resp : Booking.Response) (trace : list Booking.Effect) :
  post_bookings req db = (resp, db', trace) ->
  NoDup (map Booking.booking_id (Booking.bookings db)) ->
  NoDup (map Booking.booking_id (Booking.bookings db'))
  /\ (In bookingId (map Booking.booking_id (Booking.bookings db)) ->
      Booking.success resp = false
      /\ Booking.bookings db' = Booking.bookings db
      /\ (validationResult req = [] ->
          (exists ts, eventStart_of (sanitize req) = Some ts) ->
          resp = Booking.ServerError "Failed to create booking"))
  /\ (Booking.success resp = true ->
      forall req2,
        Booking.success (fst (fst (post_bookings req2 db'))) = false
        /\ Booking.bookings (snd (fst (post_bookings req2 db')))
           = Booking.bookings db').
Proof.
  intros H ND. split; [|split].
  - destruct (post_bookings_cases req db)
      as [(e & errs & arow & _ & _ & R)
         |[(_ & _ & R)
          |[(ts' & call & calId & _ & _ & _ & R)
           |(ts' & call & calId & db1 & arow & m1 & m2 & _ & _ & D & _ & _ & _ & R)]]];
      rewrite R in H; injection H as <- <- <-.
    + now rewrite (proj1 (audit_insert_logs db arow)).
    + assumption.
    + assumption.
    + rewrite (proj1 (audit_insert_logs db1 arow)).
      destruct (db_insert_booking_appends _ _ _ _ D) as [B _].
      destruct (db_insert_booking_fresh _ _ _ D) as [F _].
      rewrite B, map_app. cbn [map].
      apply NoDup_app; [assumption | repeat constructor; intros [] |].
      intros x Hx [<-|[]]. contradiction.
  - intros Hin. pose proof (collision_is_refused req db Hin) as C.
    rewrite H in C. exact C.
  - intros Hs req2.
    assert (Hin : In bookingId (map Booking.booking_id (Booking.bookings db'))).
    { destruct (post_bookings_cases req db)
        as [(e & errs & arow & _ & _ & R)
           |[(_ & _ & R)
            |[(ts' & call & calId & _ & _ & _ & R)
             |(ts' & call & calId & db1 & arow & m1 & m2 & _ & _ & D & _ & _ & _ & R)]]];
        rewrite R in H; injection H as <- <- <-; try discriminate Hs.
      rewrite (proj1 (audit_insert_logs db1 arow)).
      destruct (db_insert_booking_appends _ _ _ _ D) as [B _].
      rewrite B, map_app. apply in_or_app. right. now left. }
    destruct (collision_is_refused req2 db' Hin) as (C1 & C2 & _).
    now split.
Qed.

(** X4. The response tells what was stored: [success: true] exactly when
    one row was appended to [bookings], a row that carries the identifier
    and the [calendar_event_id] of the response; on every other answer the
    table is unchanged. The audit log only grows, by at most one record. *)
Theorem row_stored_iff_confirmed (req : Booking.Body) (db db' : Booking.Db)
    (resp : Booking.Response) (trace : list Booking.Effect) :
  post_bookings req db = (resp, db', trace) ->
  (Booking.success resp = true ->
   exists calId,
     resp = Booking.BookingConfirmed bookingId calId
              "Booking confirmed successfully!"
     /\ Booking.bookings db'
        = (Booking.bookings db
           ++ [Booking.booking_row (sanitize req) bookingId calId])%list)
  /\ (Booking.success resp = false ->
      Booking.bookings db' = Booking.bookings db)
  /\ exists added,
       Booking.audit_logs db' = (Booking.audit_logs db ++ added)%list
       /\ (List.length added <= 1)%nat.
Proof.
  intros H.
  destruct (post_bookings_cases req db)
    as [(e & errs & arow & _ & _ & R)
       |[(_ & _ & R)
        |[(ts' & call & calId & _ & _ & _ & R)
         |(ts' & call & calId & db1 & arow & m1 & m2 & _ & _ & D & _ & _ & _ & R)]]];
    rewrite R in H; injection H as <- <- <-; cbn [Booking.success].
  - destruct (audit_insert_logs db arow) as [B L].
    split; [discriminate|]. split; [intros _; exact B | exact L].
  - split; [discriminate|]. split; [reflexivity|].
    exists []. split; [now rewrite app_nil_r | cbn; lia].
  - split; [discriminate|]. split; [reflexivity|].
    exists []. split; [now rewrite app_nil_r | cbn; lia].
  - destruct (audit_insert_logs db1 arow) as [B (added & L & Hlen)].
    destruct (db_insert_booking_appends _ _ _ _ D) as [B1 L1].
    split; [|split; [discriminate|]].
    + intros _. exists calId. split; [reflexivity|]. now rewrite B, B1.
    + exists added. now rewrite L, L1.
Qed.

Lemma check_nil (field : string) (ok : bool) :
  Booking.check field ok = [] -> ok = true.
Proof. destruct ok; [reflexivity | discriminate]. Qed.

Lemma validation_passed (req : Booking.Body) :
  validationResult req = [] ->
  Booking.matches_time (Booking.str (Booking.eventTime req)) = true
  /\ Booking.isIn Booking.eventType_options
       (Booking.str (Booking.eventType req)) = true
  /\ match Booking.duration req with
     | Some d => Booking.isInt 30 720 d = true
     | None => True
     end.
Proof.
  unfold Booking.validationResult. intros H.
  repeat (apply app_eq_nil in H as [?C H]).
  split; [now apply check_nil in C3|].
  split; [now apply check_nil in C4|].
  destruct (Booking.duration req); [now apply check_nil in H | exact I].
Qed.

(** X5. What reaches table [bookings] has been validated: a row added by
    the handler has status [confirmed], an event type among the four
    allowed ones, a time that matches the time pattern, a non-null date and
    a numeric duration between 30 and 720 minutes (120 when the request
    gave none). *)
Theorem stored_row_is_validated (req : Booking.Body) (db db' : Booking.Db)
    (resp : Booking.Response) (trace : list Booking.Effect)
    (row : Booking.BookingRow) :
  post_bookings req db = (resp, db', trace) ->
  In row (Booking.bookings db') ->
  ~ In row (Booking.bookings db) ->
  Booking.booking_id row = bookingId
  /\ Booking.status row = "confirmed"
  /\ Booking.isIn Booking.eventType_options (Booking.event_type row) = true
  /\ Booking.matches_time (Booking.event_time row) = true
  /\ (exists t, Booking.event_date row = Some t)
  /\ (exists v, Booking.row_duration row = Some v /\ 30 <= v <= 720
                /\ (Booking.duration req = None -> v = 120)).
Proof.
  intros H Hin Hnew.
  destruct (post_bookings_cases req db)
    as [(e & errs & arow & _ & _ & R)
       |[(_ & _ & R)
        |[(ts' & call & calId & _ & _ & _ & R)
         |(ts' & call & calId & db1 & arow & m1 & m2 & V & _ & D & _ & _ & _ & R)]]];
    rewrite R in H; injection H as <- <- <-.
  - rewrite (proj1 (audit_insert_logs db arow)) in Hin. contradiction.
  - contradiction.
  - contradiction.
  - rewrite (proj1 (audit_insert_logs db1 arow)) in Hin.
    destruct (db_insert_booking_appends _ _ _ _ D) as [B _].
    destruct (db_insert_booking_fresh _ _ _ D) as [_ Hdate].
    rewrite B in Hin. apply in_app_or in Hin as [Hin|[<-|[]]];
      [contradiction|].
    destruct (validation_passed req V) as (Ht & Hty & Hd).
    cbn [Booking.booking_row Booking.booking_id Booking.status
         Booking.event_type Booking.event_time Booking.event_date
         Booking.row_duration Booking.sanitize Booking.s_eventType
         Booking.s_eventTime Booking.s_eventDate Booking.s_duration] in *.
    repeat split; try assumption.
    destruct (Booking.duration req) as [d|].
    + unfold Booking.isInt, Booking.ToNumber in *.
      destruct (Booking.int_literal d) as [v|]; [|discriminate].
      apply andb_true_iff in Hd as [H1 H2].
      apply Z.leb_le in H1, H2. exists v. repeat split; try lia. discriminate.
    + exists 120. repeat split; lia.
Qed.

End BookingOutcomes.

(** X6. The validator's list of event types and the [eventTypes] literal
    have the same keys: a type passes [isIn] exactly when
    [eventTypes[eventType]] is an own entry of the literal. The lookup also
    answers to the names inherited from [Object.prototype], none of which
    is an allowed type; after validation [eventConfig] is always an own
    entry, never an inherited member and never undefined. *)
Theorem eventTypes_cover_valid_types :
  (forall eventType,
      Booking.isIn Booking.eventType_options eventType = true
      <-> exists title description,
            Booking.eventConfig_of eventType
            = Booking.OwnEntry title description)
  /\ (forall eventType,
        JS.Object_prototype_has eventType = true ->
        Booking.isIn Booking.eventType_options eventType = false
        /\ Booking.eventConfig_of eventType = Booking.InheritedMember)
  /\ (forall (isLength : nat -> string -> bool)
        (isEmail isISO8601 : string -> bool) (trim : string -> string)
        (req : Booking.Body),
        Booking.validationResult isLength isEmail isISO8601 trim req = [] ->
        exists title description,
          Booking.eventConfig_of (Booking.str (Booking.eventType req))
          = Booking.OwnEntry title description).
Proof.
  assert (K : forall eventType,
             Booking.isIn Booking.eventType_options eventType = true
             <-> exists title description,
                   Booking.eventConfig_of eventType
                   = Booking.OwnEntry title description).
  { intros eventType.
    unfold Booking.isIn, Booking.eventConfig_of, Booking.eventTypes,
      Booking.eventType_options.
    cbn [existsb].
    destruct (eventType =? "consultation")%string;
      [split; [now eexists; eexists | reflexivity]|].
    destruct (eventType =? "engagement")%string;
      [split; [now eexists; eexists | reflexivity]|].
    destruct (eventType =? "wedding")%string;
      [split; [now eexists; eexists | reflexivity]|].
    destruct (eventType =? "followup")%string;
      [split; [now eexists; eexists | reflexivity]|].
    split; [discriminate|].
    intros (t & d & H).
    destruct (JS.Object_prototype_has eventType); discriminate H. }
  split; [exact K|]. split.
  - intros eventType H. unfold JS.Object_prototype_has in H.
    cbn [existsb] in H.
    repeat (apply orb_true_iff in H as [H|H];
            [apply String.eqb_eq in H; subst eventType; split; reflexivity|]).
    discriminate H.
  - intros isLength isEmail isISO8601 trim req V.
    apply K. exact (proj1 (proj2 (validation_passed _ _ _ _ req V))).
Qed.

Lemma failed_insert_stops_the_pipeline_witness :
  (Booking.validationResult Sample.isLength Sample.isEmail Sample.isISO8601
     Sample.trim Sample.request = []
   /\ Booking.eventStart_of (Sample.Date_parse Sample.tz)
        Sample.Date_toISOString
        (Booking.sanitize (Sample.Date_parse Sample.tz) Sample.trim
           Sample.escape Sample.normalizeEmail Sample.request)
      = Some 1755684000000
   /\ forall calId,
        Booking.db_insert_booking (fun _ => true) Sample.empty_db
          (Booking.booking_row
             (Booking.sanitize (Sample.Date_parse Sample.tz) Sample.trim
                Sample.escape Sample.normalizeEmail Sample.request)
             (IdGenerator.generateBookingId 1755648000000
                [18; 35; 0; 7; 22]%N) calId) = None)
  /\ exists call row,
       Sample.post_bookings Sample.isISO8601 Sample.calendar_ok
         (fun _ => true) Sample.request Sample.empty_db
       = (Booking.ServerError "Failed to create booking", Sample.empty_db,
          [Booking.EValidate []; Booking.EGenerateId "4EV-MEJ7HMO0-IZ07";
           Booking.ECalendarInsert call; Booking.EDbInsertBooking row false;
           Booking.ERespond 500]).
Proof.
  assert (H1 : Booking.validationResult Sample.isLength Sample.isEmail
                 Sample.isISO8601 Sample.trim Sample.request = [])
    by (vm_compute; reflexivity).
  assert (H2 : Booking.eventStart_of (Sample.Date_parse Sample.tz)
                 Sample.Date_toISOString
                 (Booking.sanitize (Sample.Date_parse Sample.tz) Sample.trim
                    Sample.escape Sample.normalizeEmail Sample.request)
               = Some 1755684000000) by (vm_compute; reflexivity).
  assert (H3 : forall calId,
             Booking.db_insert_booking (fun _ => true) Sample.empty_db
               (Booking.booking_row
                  (Booking.sanitize (Sample.Date_parse Sample.tz) Sample.trim
                     Sample.escape Sample.normalizeEmail Sample.request)
                  (IdGenerator.generateBookingId 1755648000000
                     [18; 35; 0; 7; 22]%N) calId) = None)
    by (intros calId; reflexivity).
  split; [exact (conj H1 (conj H2 H3))|].
  exact (failed_insert_stops_the_pipeline (Sample.Date_parse Sample.tz)
           Sample.Date_toISOString Sample.isLength Sample.isEmail
           Sample.isISO8601 Sample.trim Sample.escape Sample.normalizeEmail
           (Some "req-1") 1755648000000%N [18; 35; 0; 7; 22]%N
           (Some "hello@4everevents.example") Sample.calendar_ok
           (fun _ => true) (fun _ => false) (fun _ => false)
           Sample.request Sample.empty_db 1755684000000 H1 H2 H3).
Defined.

(** The same request served twice with the same clock reading and random
    digits: the second is refused and the table keeps its one row. *)
Lemma booking_ids_stay_unique_witness :
  let post := Sample.post_bookings Sample.isISO8601 Sample.calendar_ok
                (fun _ => false) Sample.request in
  let db1 := snd (fst (post Sample.empty_db)) in
  let run2 := post db1 in
  (run2 = (fst (fst run2), snd (fst run2), snd run2)
   /\ NoDup (map Booking.booking_id (Booking.bookings db1)))
  /\ map Booking.booking_id (Booking.bookings db1) = ["4EV-MEJ7HMO0-IZ07"]
  /\ fst (fst run2) = Booking.ServerError "Failed to create booking"
  /\ Booking.bookings (snd (fst run2)) = Booking.bookings db1.
Proof.
  intros post db1 run2.
  assert (H1 : run2 = (fst (fst run2), snd (fst run2), snd run2))
    by (vm_compute; reflexivity).
  assert (H0 : map Booking.booking_id (Booking.bookings db1)
               = ["4EV-MEJ7HMO0-IZ07"]) by (vm_compute; reflexivity).
  assert (H2 : NoDup (map Booking.booking_id (Booking.bookings db1))).
  { rewrite H0. constructor; [intros [] | constructor]. }
  split; [exact (conj H1 H2)|]. split; [exact H0|].
  destruct (booking_ids_stay_unique (Sample.Date_parse Sample.tz)
              Sample.Date_toISOString Sample.isLength Sample.isEmail
              Sample.isISO8601 Sample.trim Sample.escape Sample.normalizeEmail
              (Some "req-1") 1755648000000%N [18; 35; 0; 7; 22]%N
              (Some "hello@4everevents.example") Sample.calendar_ok
              (fun _ => false) (fun _ => false) (fun _ => false)
              Sample.request db1 _ _ _ H1 H2) as (_ & Hcol & _).
  destruct Hcol as (_ & Hsame & Hresp).
  - rewrite H0. now left.
  - split; [|exact Hsame].
    apply Hresp; [vm_compute; reflexivity|].
    exists 1755684000000. vm_compute. reflexivity.
Defined.

(** A confirmed run, whose row is the one appended, and a run whose
    insert fails, which leaves the table as it was. *)
Lemma row_stored_iff_confirmed_witness :
  let run := Sample.post_bookings Sample.isISO8601 Sample.calendar_ok
               (fun _ => false) Sample.request Sample.empty_db in
  let failed := Sample.post_bookings Sample.isISO8601 Sample.calendar_ok
                  (fun _ => true) Sample.request Sample.empty_db in
  (run = (fst (fst run), snd (fst run), snd run)
   /\ failed = (fst (fst failed), snd (fst failed), snd failed))
  /\ (exists calId,
        fst (fst run)
        = Booking.BookingConfirmed "4EV-MEJ7HMO0-IZ07" calId
            "Booking confirmed successfully!"
        /\ Booking.bookings (snd (fst run))
           = [Booking.booking_row
                (Booking.sanitize (Sample.Date_parse Sample.tz) Sample.trim
                   Sample.escape Sample.normalizeEmail Sample.request)
                "4EV-MEJ7HMO0-IZ07" calId])
  /\ Booking.success (fst (fst failed)) = false
  /\ Booking.bookings (snd (fst failed)) = [].
Proof.
  intros run failed.
  assert (H1 : run = (fst (fst run), snd (fst run), snd run))
    by (vm_compute; reflexivity).
  assert (H2 : failed = (fst (fst failed), snd (fst failed), snd failed))
    by (vm_compute; reflexivity).
  assert (S1 : Booking.success (fst (fst run)) = true)
    by (vm_compute; reflexivity).
  assert (S2 : Booking.success (fst (fst failed)) = false)
    by (vm_compute; reflexivity).
  split; [exact (conj H1 H2)|].
  split; [|split; [exact S2|]].
  - exact (proj1
             (row_stored_iff_confirmed (Sample.Date_parse Sample.tz)
                Sample.Date_toISOString Sample.isLength Sample.isEmail
                Sample.isISO8601 Sample.trim Sample.escape
                Sample.normalizeEmail
                (Some "req-1") 1755648000000%N [18; 35; 0; 7; 22]%N
                (Some "hello@4everevents.example") Sample.calendar_ok
                (fun _ => false) (fun _ => false) (fun _ => false)
                Sample.request Sample.empty_db _ _ _ H1) S1).
  - exact (proj1 (proj2
             (row_stored_iff_confirmed (Sample.Date_parse Sample.tz)
                Sample.Date_toISOString Sample.isLength Sample.isEmail
                Sample.isISO8601 Sample.trim Sample.escape
                Sample.normalizeEmail
                (Some "req-1") 1755648000000%N [18; 35; 0; 7; 22]%N
                (Some "hello@4everevents.example") Sample.calendar_ok
                (fun _ => true) (fun _ => false) (fun _ => false)
                Sample.request Sample.empty_db _ _ _ H2)) S2).
Defined.

Lemma stored_row_is_validated_witness :
  let run := Sample.post_bookings Sample.isISO8601 Sample.calendar_ok
               (fun _ => false) Sample.request Sample.empty_db in
  let row := Booking.booking_row
               (Booking.sanitize (Sample.Date_parse Sample.tz) Sample.trim
                  Sample.escape Sample.normalizeEmail Sample.request)
               "4EV-MEJ7HMO0-IZ07" (Some "evt1") in
  (run = (fst (fst run), snd (fst run), snd run)
   /\ In row (Booking.bookings (snd (fst run)))
   /\ ~ In row (Booking.bookings Sample.empty_db))
  /\ Booking.row_duration row = Some 120.
Proof.
  intros run row.
  assert (H1 : run = (fst (fst run), snd (fst run), snd run))
    by (vm_compute; reflexivity).
  assert (H2 : In row (Booking.bookings (snd (fst run))))
    by (vm_compute; left; reflexivity).
  assert (H3 : ~ In row (Booking.bookings Sample.empty_db))
    by (intros []).
  split; [exact (conj H1 (conj H2 H3))|].
  destruct (stored_row_is_validated (Sample.Date_parse Sample.tz)
              Sample.Date_toISOString Sample.isLength Sample.isEmail
              Sample.isISO8601 Sample.trim Sample.escape Sample.normalizeEmail
              (Some "req-1") 1755648000000%N [18; 35; 0; 7; 22]%N
              (Some "hello@4everevents.example") Sample.calendar_ok
              (fun _ => false) (fun _ => false) (fun _ => false)
              Sample.request Sample.empty_db _ _ _ row H1 H2 H3)
    as (_ & _ & _ & _ & _ & v & Hv & _ & Hdef).
  rewrite Hv. f_equal. apply Hdef. reflexivity.
Defined.

(** * The time pattern of the validator *)

Lemma is_digit_cases (c : ascii) :
  JS.is_digit c = true ->
  c = JS.digit_char (JS.digit_value c) /\ 0 <= JS.digit_value c <= 9.
Proof.
  destruct c as [[] [] [] [] [] [] [] []]; intros H;
    try discriminate H; cbv; repeat split; discriminate.
Qed.

Lemma Z_below_in (n : nat) (h : Z) :
  0 <= h < Z.of_nat n -> In h (map Z.of_nat (seq 0 n)).
Proof.
  intros H. apply in_map_iff. exists (Z.to_nat h). split; [lia|].
  apply in_seq. lia.
Qed.

Lemma Z_digit_cases (d : Z) (P : Z -> Prop) :
  0 <= d <= 9 ->
  P 0 -> P 1 -> P 2 -> P 3 -> P 4 -> P 5 -> P 6 -> P 7 -> P 8 -> P 9 -> P d.
Proof.
  intros H. intros.
  assert (C : d = 0 \/ d = 1 \/ d = 2 \/ d = 3 \/ d = 4 \/ d = 5 \/ d = 6
              \/ d = 7 \/ d = 8 \/ d = 9) by lia.
  repeat (destruct C as [->|C]; [assumption|]). now subst.
Qed.

Lemma minutes_ok_spec (m1 m2 : ascii) :
  Booking.minutes_ok m1 m2 = true ->
  exists m, 0 <= m <= 59 /\ String m1 (String m2 EmptyString) = JS.pad2 m.
Proof.
  unfold Booking.minutes_ok. intros H.
  apply andb_true_iff in H as [H H2]. apply andb_true_iff in H as [H1 H].
  destruct (is_digit_cases _ H1) as [E1 R1].
  destruct (is_digit_cases _ H2) as [E2 R2].
  rewrite E1 in H |- *. rewrite E2.
  exists (10 * JS.digit_value m1 + JS.digit_value m2).
  revert H. generalize dependent (JS.digit_value m2).
  generalize dependent (JS.digit_value m1). intros d1 _ R1 d2 _ R2.
  pattern d1. apply Z_digit_cases; [assumption|..];
    pattern d2; apply Z_digit_cases; try assumption;
    intros H; try discriminate H; cbv; repeat split; discriminate.
Qed.

Lemma hour2_ok_spec (h1 h2 : ascii) :
  ((Ascii.eqb h1 "0" || Ascii.eqb h1 "1") && JS.is_digit h2)
  || (Ascii.eqb h1 "2" && JS.is_digit h2 && (nat_of_ascii h2 <=? 51)%nat)
  = true ->
  exists h, 0 <= h <= 23 /\ String h1 (String h2 EmptyString) = JS.pad2 h.
Proof.
  intros H.
  assert (D1 : JS.is_digit h1 = true).
  { destruct (Ascii.eqb_spec h1 "0") as [->|]; [reflexivity|].
    destruct (Ascii.eqb_spec h1 "1") as [->|]; [reflexivity|].
    destruct (Ascii.eqb_spec h1 "2") as [->|]; [reflexivity|].
    discriminate H. }
  assert (D2 : JS.is_digit h2 = true).
  { destruct (JS.is_digit h2); [reflexivity|].
    rewrite !andb_false_r in H. discriminate H. }
  destruct (is_digit_cases _ D1) as [E1 R1].
  destruct (is_digit_cases _ D2) as [E2 R2].
  rewrite E1, E2 in H |- *. clear D1 D2.
  exists (10 * JS.digit_value h1 + JS.digit_value h2).
  revert H. generalize dependent (JS.digit_value h2).
  generalize dependent (JS.digit_value h1). intros d1 _ R1 d2 _ R2.
  pattern d1. apply Z_digit_cases; [assumption|..];
    pattern d2; apply Z_digit_cases; try assumption;
    intros H; try discriminate H; cbv; repeat split; discriminate.
Qed.

Lemma valid_times_match :
  forallb (fun h =>
    forallb (fun m =>
        Booking.matches_time (JS.pad2 h ++ ":" ++ JS.pad2 m)
        && ((9 <? h)
            || Booking.matches_time
                 (String (JS.digit_char h) (":" ++ JS.pad2 m))))
      (map Z.of_nat (seq 0 60)))
    (map Z.of_nat (seq 0 24)) = true.
Proof. vm_compute. reflexivity. Qed.

(** X7. The pattern for [eventTime] accepts exactly the 24-hour clock
    times [HH:MM], from 00:00 to 23:59, where hours below ten may also be
    written with one digit. *)
Theorem matches_time_24h (s : string) :
  Booking.matches_time s = true <->
  exists h m,
    0 <= h <= 23 /\ 0 <= m <= 59
    /\ (s = JS.pad2 h ++ ":" ++ JS.pad2 m
        \/ (h <= 9 /\ s = String (JS.digit_char h) (":" ++ JS.pad2 m))).
Proof.
  split.
  - unfold Booking.matches_time. intros H.
    repeat match type of H with
    | context [match ?x with EmptyString => _ | String _ _ => _ end] =>
        is_var x; destruct x; cbn beta iota in H; try discriminate H
    | context [match ?x with Ascii _ _ _ _ _ _ _ _ => _ end] =>
        is_var x; destruct x; cbn beta iota in H
    | context [match ?x with true => _ | false => _ end] =>
        is_var x; destruct x; cbn beta iota in H; try discriminate H
    end;
    match type of H with
    | (JS.is_digit ?h1 && Booking.minutes_ok ?m1 ?m2)%bool = true =>
        apply andb_true_iff in H as [Hh Hm];
        destruct (is_digit_cases _ Hh) as [Eh Rh];
        destruct (minutes_ok_spec _ _ Hm) as (m & Rm & Em);
        exists (JS.digit_value h1), m;
        split; [lia|]; split; [lia|]; right; split; [lia|];
        rewrite <- Eh, <- Em; reflexivity
    | (_ && Booking.minutes_ok ?m1 ?m2)%bool = true =>
        apply andb_true_iff in H as [Hh Hm];
        destruct (hour2_ok_spec _ _ Hh) as (h & Rh & Eh);
        destruct (minutes_ok_spec _ _ Hm) as (m & Rm & Em);
        exists h, m; split; [lia|]; split; [lia|]; left;
        rewrite <- Eh, <- Em; reflexivity
    end.
  - intros (h & m & Hh & Hm & Hs).
    pose proof valid_times_match as V.
    rewrite forallb_forall in V.
    specialize (V h (Z_below_in 24 h ltac:(lia))).
    rewrite forallb_forall in V.
    specialize (V m (Z_below_in 60 m ltac:(lia))).
    apply andb_true_iff in V as [V1 V2].
    destruct Hs as [->|[H9 ->]]; [exact V1|].
    apply orb_true_iff in V2 as [V2|V2]; [|exact V2].
    apply Z.ltb_lt in V2. lia.
Qed.

(** * Further properties of the availability computation *)

Lemma NoDup_map_filter {A B : Type} (f : A -> B) (keep : A -> bool)
    (l : list A) :
  NoDup (map f l) -> NoDup (map f (filter keep l)).
Proof.
  induction l as [|x l IH]; simpl; intros ND; [constructor|].
  inversion ND as [|? ? Hx ND']; subst.
  destruct (keep x); simpl; [|now apply IH].
  constructor; [|now apply IH].
  intros Hin. apply Hx. apply in_map_iff in Hin as (y & E & Hy).
  apply in_map_iff. exists y. split; [assumption|].
  now apply filter_In in Hy.
Qed.

Lemma filter_length_bound {A : Type} (keep : A -> bool) (l : list A) :
  (List.length (filter keep l) <= List.length l)%nat.
Proof.
  induction l as [|x l IH]; simpl; [lia|]. destruct (keep x); simpl; lia.
Qed.

Lemma fold_left_pointwise {A B : Type} (f g : A -> B -> A) (l : list B) :
  (forall a x, f a x = g a x) ->
  forall a, fold_left f l a = fold_left g l a.
Proof.
  intros H. induction l as [|x l IH]; intros a; simpl; [reflexivity|].
  now rewrite H, IH.
Qed.

Lemma TimeClip_idempotent (t s : Z) :
  JS.TimeClip t = Some s -> JS.TimeClip s = Some s.
Proof. intros H. pose proof (TimeClip_Some _ _ H). now subst. Qed.

(** ** Items without [start] or [end] *)


Section ItemsFacts.

Variable tz : Z.
Variable Date_parse : string -> option Z.
Variable Date_toISOString : Z -> string.

Local Abbreviation overlaps := (Availability.Items.overlaps Date_parse).
Local Abbreviation items_hasConflict :=
  (Availability.Items.hasConflict Date_parse).
Local Abbreviation items_slot_step :=
  (Availability.Items.slot_step tz Date_parse Date_toISOString).
Local Abbreviation items_slot_loop :=
  (Availability.Items.slot_loop tz Date_parse Date_toISOString).

(** On items that all have both ends, the handler on items is the handler
    on events. *)
Lemma items_hasConflict_events (events : list Cal.Event)
    (slotStart slotEnd : Date) :
  items_hasConflict (map Cal.item_of_event events) slotStart slotEnd
  = Some (Availability.hasConflict Date_parse events slotStart slotEnd).
Proof.
  unfold Availability.Items.hasConflict, Availability.hasConflict.
  induction events as [|ev events IH];
    cbn [map Availability.Items.some existsb]; [reflexivity|].
  unfold Availability.Items.overlaps at 1.
  cbn [Cal.item_of_event Cal.item_start Cal.item_end].
  destruct (JS.lt slotStart _ && JS.gt slotEnd _); [reflexivity | exact IH].
Qed.

Lemma items_slot_loop_events (date duration : string)
    (events : list Cal.Event) :
  items_slot_loop date duration (map Cal.item_of_event events)
  = Availability.slot_loop tz Date_parse Date_toISOString date duration events.
Proof.
  unfold Availability.Items.slot_loop, Availability.slot_loop,
    Availability.Items.minute_loop, Availability.minute_loop.
  apply fold_left_pointwise. intros acc hour.
  apply fold_left_pointwise. intros [a|] minute; [|reflexivity].
  unfold Availability.Items.slot_step, Availability.slot_step,
    Availability.retained.
  now rewrite items_hasConflict_events.
Qed.







Variable calendar_events_list : string -> string -> Cal.ItemsResult.

Local Abbreviation fetch_existingEvents :=
  (Availability.Items.fetch_existingEvents tz Date_parse Date_toISOString
     calendar_events_list).
Local Abbreviation get_availability :=
  (Availability.Items.get_availability tz Date_parse Date_toISOString
     calendar_events_list).


(** The handler on items, given a calendar whose items all have both
    ends, is the handler on events. *)
Lemma items_handler_agrees
    (calendar : string -> string -> Cal.ListResult)
    (date : string) (duration : option string) :
  Availability.Items.get_availability tz Date_parse Date_toISOString
    (fun timeMin timeMax => Cal.items_result_of (calendar timeMin timeMax))
    date duration
  = Availability.get_availability tz Date_parse Date_toISOString calendar
      date duration.
Proof.
  unfold Availability.Items.get_availability, Availability.get_availability.
  assert (E : Availability.Items.fetch_existingEvents tz Date_parse
                Date_toISOString
                (fun timeMin timeMax =>
                   Cal.items_result_of (calendar timeMin timeMax)) date
              = map Cal.item_of_event
                  (Availability.fetch_existingEvents tz Date_parse
                     Date_toISOString calendar date)).
  { unfold Availability.Items.fetch_existingEvents,
      Availability.fetch_existingEvents.
    destruct (toISOString _ _) as [timeMin|]; [|reflexivity].
    destruct (toISOString _ _) as [timeMax|]; [|reflexivity].
    now destruct (calendar timeMin timeMax) as [|[items|]]. }
  now rewrite E, items_slot_loop_events.
Qed.

End ItemsFacts.


Section AvailabilityMore.

Variable tz : Z.
Variable Date_parse : string -> option Z.
Variable Date_toISOString : Z -> string.
Variable calendar_events_list : string -> string -> Cal.ListResult.

Local Abbreviation slotStart_of := (Availability.slotStart_of tz Date_parse).
Local Abbreviation hasConflict := (Availability.hasConflict Date_parse).
Local Abbreviation slot_loop :=
  (Availability.slot_loop tz Date_parse Date_toISOString).
Local Abbreviation pushed := (Slots.pushed tz Date_parse Date_toISOString).
Local Abbreviation slot_at := (Slots.slot_at tz Date_toISOString).
Local Abbreviation fetch_existingEvents :=
  (Availability.fetch_existingEvents tz Date_parse Date_toISOString
     calendar_events_list).
Local Abbreviation get_availability :=
  (Availability.get_availability tz Date_parse Date_toISOString
     calendar_events_list).

(** X9. The returned slots follow the half-hour grid of the loop: their
    labels are a selection, in order, of 09:00, 09:30, ... 17:30, so there
    are at most 18 of them, no label occurs twice, and every one has
    [available: true]. *)
Theorem slots_follow_the_grid (date : string) (duration : option string) :
  let slots := Availability.slots_of (get_availability date duration) in
  (exists keep,
      map Availability.time slots
      = map (fun hm => JS.pad2 (fst hm) ++ ":" ++ JS.pad2 (snd hm))
          (filter keep Slots.candidate_times))
  /\ NoDup (map Availability.time slots)
  /\ (List.length slots <= 18)%nat
  /\ Forall (fun slot => Availability.available slot = true) slots.
Proof.
  intros slots.
  set (d := match duration with Some d => d | None => "120" end).
  set (events := fetch_existingEvents date).
  set (keep := fun hm : Z * Z =>
         match pushed date d events hm with [] => false | _ => true end).
  set (g := fun hm : Z * Z =>
         slot_at (match slotStart_of date (fst hm) (snd hm) with
                  | Some s => s
                  | None => 0
                  end)).
  assert (Hslots : slots = map g (filter keep Slots.candidate_times)).
  { unfold slots.
    rewrite (get_availability_pushed tz Date_parse Date_toISOString
               calendar_events_list date duration).
    cbn [Availability.slots_of]. fold d events.
    rewrite <- flat_map_filter. apply flat_map_ext. intros hm.
    unfold keep, g, Slots.pushed.
    destruct (Availability.retained _ _ _ _ _) eqn:R; [|reflexivity].
    destruct (retained_valid_start tz Date_parse _ _ _ R) as [s Hs].
    now rewrite Hs. }
  assert (Htime : map Availability.time slots
                  = map (fun hm => JS.pad2 (fst hm) ++ ":" ++ JS.pad2 (snd hm))
                      (filter keep Slots.candidate_times)).
  { rewrite Hslots, map_map. apply map_ext_in. intros hm Hin.
    apply filter_In in Hin as [Hc Hk].
    pose proof Hc as Hr. apply candidate_times_range in Hr as [Hh Hm];
      try assumption.
    unfold g, keep in *.
    destruct (slotStart_of date (fst hm) (snd hm)) as [s|] eqn:Hs.
    - apply (slot_at_time tz Date_parse Date_toISOString date); [exact Hs|lia|lia].
    - unfold Slots.pushed in Hk. rewrite Hs in Hk.
      destruct (Availability.retained _ _ _ _ _); discriminate Hk. }
  split; [now exists keep|]. split; [|split].
  - rewrite Htime.
    exact (NoDup_map_filter _ keep _
             (candidate_labels_NoDup tz Date_parse Date_toISOString
                calendar_events_list)).
  - rewrite Hslots, length_map.
    apply (Nat.le_trans _ _ _ (filter_length_bound _ _)). reflexivity.
  - rewrite Hslots. apply Forall_forall. intros slot Hin.
    apply in_map_iff in Hin as (hm & <- & _). reflexivity.
Qed.

(** X10. Calendar events only remove slots: every slot computed against a
    list of events extended with further events is also computed against
    the shorter list. *)
Theorem more_events_fewer_slots (date duration : string)
    (events extra : list Cal.Event) :
  exists fewer more,
    slot_loop date duration (events ++ extra) = Some fewer
    /\ slot_loop date duration events = Some more
    /\ incl fewer more.
Proof.
  do 2 eexists.
  split; [apply slot_loop_pushed|]. split; [apply slot_loop_pushed|].
  intros slot Hin. apply in_flat_map in Hin as (hm & Hc & Hp).
  apply pushed_In in Hp as (s & Hs & -> & C & E).
  apply in_flat_map. exists hm. split; [assumption|].
  rewrite (pushed_cases tz Date_parse Date_toISOString _ _ _ _ _ Hs), E.
  unfold Availability.hasConflict in C |- *.
  rewrite existsb_app in C. apply orb_false_iff in C as [C _].
  rewrite C. now left.
Qed.

Lemma client_slot_step_agrees (date duration : string)
    (events : list Cal.Event) (slots : list Availability.Slot)
    (hour minute : Z) :
  Client.slot_step tz Date_parse Date_toISOString (new_Date Date_parse date)
    (JS.parseInt duration) events slots hour minute
  = Availability.slot_step tz Date_parse Date_toISOString date duration
      events slots hour minute.
Proof.
  unfold Client.slot_step, Availability.slot_step, Availability.retained,
    Availability.hasConflict, Availability.slotEnd_of,
    Availability.slotStart_of, getTime.
  assert (E : new_Date_of_number (new_Date Date_parse date)
              = new_Date Date_parse date).
  { unfold new_Date. destruct (Date_parse date) as [t|]; [|reflexivity].
    cbn. destruct (JS.TimeClip t) as [s|] eqn:T; [|reflexivity].
    cbn. now apply TimeClip_idempotent in T. }
  rewrite E. reflexivity.
Qed.

(** The client-side loop is the server's loop, for a duration that the
    server reads from a text. *)
Lemma client_loop_agrees (date duration : string) (events : list Cal.Event) :
  Client.calculateAvailableSlots tz Date_parse Date_toISOString events date
    (JS.parseInt duration)
  = slot_loop date duration events.
Proof.
  unfold Client.calculateAvailableSlots, Availability.slot_loop,
    Availability.minute_loop.
  apply fold_left_pointwise. intros acc hour.
  apply fold_left_pointwise. intros [a|] minute; [|reflexivity].
  apply client_slot_step_agrees.
Qed.

End AvailabilityMore.

(** ** The duration as the client sends it

    The client puts its number into the query text; the server reads the
    text back with [parseInt]. *)

Lemma digit_char_digit (d : Z) :
  0 <= d <= 9 ->
  JS.is_digit (JS.digit_char d) = true /\ JS.digit_value (JS.digit_char d) = d.
Proof.
  intros H.
  apply (Z_digit_cases d
           (fun d => JS.is_digit (JS.digit_char d) = true
                     /\ JS.digit_value (JS.digit_char d) = d) H);
    split; reflexivity.
Qed.

Lemma dec_prefix_digits_app (acc : option Z) (s1 s2 : string) :
  IdGenerator.all_chars JS.is_digit s1 = true ->
  JS.dec_prefix acc (s1 ++ s2) = JS.dec_prefix (JS.dec_prefix acc s1) s2.
Proof.
  revert acc. induction s1 as [|c s1 IH]; intros acc H; [reflexivity|].
  cbn [IdGenerator.all_chars] in H. apply andb_true_iff in H as [Hc H].
  cbn [append JS.dec_prefix]. rewrite Hc. now apply IH.
Qed.

Lemma decimal_aux_S (fuel : nat) (n : Z) (acc : string) :
  JS.decimal_aux (S fuel) n acc
  = if n / 10 =? 0 then String (JS.digit_char (n mod 10)) acc
    else JS.decimal_aux fuel (n / 10) (String (JS.digit_char (n mod 10)) acc).
Proof. reflexivity. Qed.

(** With enough fuel the decimal digits of [n] are put in front of [acc],
    and they read back as [n]. *)
Lemma decimal_aux_digits (fuel : nat) :
  forall n, 0 <= n < 2 ^ Z.of_nat fuel ->
  exists s,
    (forall acc, JS.decimal_aux (S fuel) n acc = s ++ acc)
    /\ s <> EmptyString
    /\ IdGenerator.all_chars JS.is_digit s = true
    /\ JS.dec_prefix None s = Some n.
Proof.
  assert (Hlast : forall n, 0 <= n -> n / 10 = 0 ->
            IdGenerator.all_chars JS.is_digit
              (String (JS.digit_char (n mod 10)) EmptyString) = true
            /\ JS.dec_prefix None (String (JS.digit_char (n mod 10)) EmptyString)
               = Some n).
  { intros n Hn Hq.
    pose proof (Z.mod_pos_bound n 10 ltac:(lia)) as Hm.
    destruct (digit_char_digit (n mod 10) ltac:(lia)) as [Hc Hv].
    cbn [IdGenerator.all_chars JS.dec_prefix]. rewrite Hc, Hv.
    split; [reflexivity|]. f_equal.
    pose proof (Z.div_mod n 10 ltac:(lia)). lia. }
  induction fuel as [|fuel IH]; intros n Hn.
  - assert (n = 0) by (cbn in Hn; lia). subst n.
    exists "0". repeat split; discriminate.
  - destruct (n / 10 =? 0) eqn:Q.
    + pose proof (proj1 (Z.eqb_eq _ _) Q) as Q'.
      destruct (Hlast n ltac:(lia) Q') as [Hc Hv].
      exists (String (JS.digit_char (n mod 10)) EmptyString).
      split; [|split; [discriminate | split; assumption]].
      intros acc. rewrite (decimal_aux_S (S fuel) n acc), Q. reflexivity.
    + assert (Hq : 0 <= n / 10 < 2 ^ Z.of_nat fuel).
      { split; [apply Z.div_pos; lia|].
        apply Z.div_lt_upper_bound; [lia|].
        rewrite Nat2Z.inj_succ, Z.pow_succ_r in Hn by lia.
        assert (0 < 2 ^ Z.of_nat fuel) by (apply Z.pow_pos_nonneg; lia).
        lia. }
      destruct (IH _ Hq) as (s' & Hs' & _ & Hc' & Hv').
      exists (s' ++ String (JS.digit_char (n mod 10)) EmptyString).
      pose proof (Z.mod_pos_bound n 10 ltac:(lia)) as Hm.
      destruct (digit_char_digit (n mod 10) ltac:(lia)) as [Hc Hv].
      split; [|split; [|split]].
      * intros acc.
        rewrite (decimal_aux_S (S fuel) n acc), Q, Hs', append_assoc.
        reflexivity.
      * apply append_not_empty.
      * rewrite all_chars_app, Hc'. cbn [IdGenerator.all_chars].
        now rewrite Hc.
      * rewrite (dec_prefix_digits_app _ _ _ Hc'), Hv'.
        cbn [JS.dec_prefix]. rewrite Hc, Hv. f_equal.
        pose proof (Z.div_mod n 10 ltac:(lia)). lia.
Qed.

Lemma decimal_digits (n : Z) :
  0 <= n ->
  JS.decimal n <> EmptyString
  /\ IdGenerator.all_chars JS.is_digit (JS.decimal n) = true
  /\ JS.dec_prefix None (JS.decimal n) = Some n.
Proof.
  intros Hn.
  assert (B : 0 <= n < 2 ^ Z.of_nat (S (Z.to_nat (Z.log2 n)))).
  { split; [exact Hn|].
    rewrite Nat2Z.inj_succ, Z2Nat.id by apply Z.log2_nonneg.
    destruct (Z.eq_dec n 0) as [->|]; [reflexivity|].
    apply Z.log2_spec. lia. }
  destruct (decimal_aux_digits _ n B) as (s & Hs & Hne & Hc & Hv).
  unfold JS.decimal. rewrite Hs, append_nil_r. auto.
Qed.

(** A character of plain ASCII that is no white space ends the search of
    [skip_space]. *)
Lemma skip_space_keep (c : ascii) (r : string) :
  (N_of_ascii c < 128)%N -> JS.is_space c = false ->
  JS.skip_space (String c r) = String c r.
Proof.
  intros Hc Hs.
  assert (B : forall k, (128 <= k)%N -> JS.byte_is c k = false).
  { intros k Hk. unfold JS.byte_is. apply N.eqb_neq. lia. }
  cbn [JS.skip_space]. rewrite Hs.
  destruct r as [|c1 [|c2 r]]; try reflexivity.
  - unfold JS.is_space2. now rewrite B by lia.
  - unfold JS.is_space2, JS.is_space3. now rewrite !B by lia.
Qed.

Lemma digit_is_plain (c : ascii) :
  JS.is_digit c = true -> (N_of_ascii c < 128)%N /\ JS.is_space c = false.
Proof.
  destruct c as [[] [] [] [] [] [] [] []]; intros H;
    try discriminate H; split; reflexivity.
Qed.

Lemma parse_unsigned_digits (s : string) :
  IdGenerator.all_chars JS.is_digit s = true ->
  JS.parse_unsigned s = JS.dec_prefix None s.
Proof.
  destruct s as [|c [|c1 r]]; intros H.
  - reflexivity.
  - cbn [IdGenerator.all_chars] in H. apply andb_true_iff in H as [Hc _].
    destruct (is_digit_cases c Hc) as [Ec Rc].
    remember (JS.digit_value c) as v eqn:Hv. clear Hv. subst c.
    apply (Z_digit_cases v
             (fun v => JS.parse_unsigned (String (JS.digit_char v) EmptyString)
                       = JS.dec_prefix None
                           (String (JS.digit_char v) EmptyString)) Rc);
      reflexivity.
  - cbn [IdGenerator.all_chars] in H. apply andb_true_iff in H as [Hc H].
    apply andb_true_iff in H as [Hc1 _].
    destruct (is_digit_cases c Hc) as [Ec Rc].
    destruct (is_digit_cases c1 Hc1) as [Ec1 Rc1].
    remember (JS.digit_value c) as v eqn:Hv. clear Hv. subst c.
    remember (JS.digit_value c1) as v1 eqn:Hv1. clear Hv1. subst c1.
    apply (Z_digit_cases v1
             (fun v1 =>
                JS.parse_unsigned
                  (String (JS.digit_char v) (String (JS.digit_char v1) r))
                = JS.dec_prefix None
                    (String (JS.digit_char v) (String (JS.digit_char v1) r)))
             Rc1);
      apply (Z_digit_cases v
               (fun v =>
                  JS.parse_unsigned (String (JS.digit_char v) (String _ r))
                  = JS.dec_prefix None
                      (String (JS.digit_char v) (String _ r))) Rc);
      reflexivity.
Qed.

Lemma round_to_double_safe (n : Z) :
  Z.abs n < 2 ^ 53 -> JS.round_to_double n = Some n.
Proof.
  intros H. unfold JS.round_to_double.
  assert (L : Z.log2 (Z.abs n) - 52 <= 0).
  { destruct (Z.eq_dec (Z.abs n) 0) as [->|Hz]; [cbn; lia|].
    assert (Z.log2 (Z.abs n) < 53) by (apply Z.log2_lt_pow2; lia). lia. }
  destruct (Z.leb_spec (Z.log2 (Z.abs n) - 52) 0); [reflexivity | lia].
Qed.

(** The text that the client sends for a whole number of minutes reads
    back as that number. *)
Lemma parseInt_Number_toString (n : Z) :
  Z.abs n < 2 ^ 53 -> JS.parseInt (JS.Number_toString n) = Some n.
Proof.
  intros H. unfold JS.Number_toString, JS.parseInt.
  destruct (Z.ltb_spec n 0) as [Hneg|Hpos].
  - destruct (decimal_digits (- n) ltac:(lia)) as (_ & Hc & Hv).
    rewrite skip_space_keep by reflexivity.
    rewrite (parse_unsigned_digits _ Hc), Hv. cbn [option_map JS.to_double].
    rewrite Z.opp_involutive. now apply round_to_double_safe.
  - destruct (decimal_digits n Hpos) as (Hne & Hc & Hv).
    destruct (JS.decimal n) as [|c r] eqn:E; [contradiction|].
    pose proof Hc as Hc0. cbn [IdGenerator.all_chars] in Hc0.
    apply andb_true_iff in Hc0 as [Hc0 _].
    destruct (digit_is_plain c Hc0) as [Hp Hs].
    rewrite (skip_space_keep c r Hp Hs).
    assert (M : match String c r with
                | String "-" r0 => option_map Z.opp (JS.parse_unsigned r0)
                | String "+" r0 => JS.parse_unsigned r0
                | r0 => JS.parse_unsigned r0
                end = JS.parse_unsigned (String c r)).
    { destruct (is_digit_cases c Hc0) as [Ec Rc].
      remember (JS.digit_value c) as v eqn:Hv'. clear Hv'. subst c.
      apply (Z_digit_cases v
               (fun v =>
                  match String (JS.digit_char v) r with
                  | String "-" r0 => option_map Z.opp (JS.parse_unsigned r0)
                  | String "+" r0 => JS.parse_unsigned r0
                  | r0 => JS.parse_unsigned r0
                  end = JS.parse_unsigned (String (JS.digit_char v) r)) Rc);
        reflexivity. }
    rewrite M, (parse_unsigned_digits _ Hc), Hv. cbn [JS.to_double].
    now apply round_to_double_safe.
Qed.

Lemma map_time_slot_of (tz : Z) (Date_toISOString : Z -> string) (t : Z)
    (l : list (Z * Z * string)) :
  map Availability.time (map (Expected.slot_of tz Date_toISOString t) l)
  = map snd l.
Proof.
  rewrite map_map. apply map_ext. now intros [[h m] label].
Qed.

(** Away from the ends of the range of Date the instants of the day are
    valid in every zone, and a slot is offered by the clock alone. *)
Lemma offered_by_the_clock (tz t M : Z) (e : Z * Z * string) :
  In e Expected.grid ->
  -1440 < tz < 1440 ->
  Z.abs t + Z.abs M * 60000 <= 8640000000000000 - 2 * 86400000 ->
  Expected.offered tz t M e
  = (Expected.end_hour (fst (fst e)) (snd (fst e)) M <=? 18).
Proof.
  destruct e as [[h m] label]. intros Hin Htz Hr.
  apply grid_entry in Hin as (Hh & Hm & _). cbn [fst snd].
  assert (Hi : t - 86400000 < Expected.instant tz t h m < t + 86400000).
  { unfold Expected.instant.
    pose proof (Z.div_mod (t + tz * 60000) 86400000 ltac:(lia)).
    pose proof (Z.mod_pos_bound (t + tz * 60000) 86400000 ltac:(lia)).
    lia. }
  unfold Expected.offered, Expected.in_range.
  assert (R1 : (-8640000000000000 <=? Expected.instant tz t h m) = true)
    by (apply Z.leb_le; lia).
  assert (R2 : (Expected.instant tz t h m <=? 8640000000000000) = true)
    by (apply Z.leb_le; lia).
  assert (R3 : (-8640000000000000 <=? Expected.instant tz t h m + M * 60000)
               = true) by (apply Z.leb_le; lia).
  assert (R4 : (Expected.instant tz t h m + M * 60000 <=? 8640000000000000)
               = true) by (apply Z.leb_le; lia).
  now rewrite R1, R2, R3, R4.
Qed.

(** X11. The client-side [calculateAvailableSlots], run without events
    as the booking form does when the API call fails, and the server's
    handler, asked for the same date with the client's number of minutes
    in the query text and finding no event, both yield the unfiltered day
    of their own time zone. In one zone the two lists are equal; in two
    zones the time labels still agree (the [datetime] values need not),
    away from the ends of the range of Date. *)
Theorem client_slots_agree_with_server
    (tz_client tz_server : Z)
    (parse_client parse_server : string -> option Z)
    (Date_toISOString : Z -> string)
    (calendar_events_list : string -> string -> Cal.ListResult)
    (date : string) (duration : Z) :
  Z.abs duration < 2 ^ 53 ->
  parse_client date = parse_server date ->
  Availability.fetch_existingEvents tz_server parse_server Date_toISOString
    calendar_events_list date = [] ->
  let client :=
    Client.calculateAvailableSlots tz_client parse_client Date_toISOString
      [] date (Some duration) in
  let server :=
    Availability.get_availability tz_server parse_server Date_toISOString
      calendar_events_list date (Some (JS.Number_toString duration)) in
  client
  = Some (Expected.unfiltered tz_client Date_toISOString (parse_client date)
            (Some duration))
  /\ server
     = Availability.Json200 date
         (Expected.unfiltered tz_server Date_toISOString (parse_server date)
            (Some duration))
         (Some duration)
  /\ (tz_client = tz_server -> client = Some (Availability.slots_of server))
  /\ (forall t,
        parse_server date = Some t ->
        -1440 < tz_client < 1440 -> -1440 < tz_server < 1440 ->
        Z.abs t + Z.abs duration * 60000
        <= 8640000000000000 - 2 * 86400000 ->
        option_map (map Availability.time) client
        = Some (map Availability.time (Availability.slots_of server))).
Proof.
  intros Hd Hparse Hevents client server.
  pose proof (parseInt_Number_toString duration Hd) as P.
  assert (C : client
              = Some (Expected.unfiltered tz_client Date_toISOString
                        (parse_client date) (Some duration))).
  { unfold client. rewrite <- P at 1.
    rewrite client_loop_agrees, slot_loop_pushed, slots_without_events.
    now rewrite P. }
  assert (S : server
              = Availability.Json200 date
                  (Expected.unfiltered tz_server Date_toISOString
                     (parse_server date) (Some duration))
                  (Some duration)).
  { unfold server. rewrite get_availability_pushed, Hevents. cbv zeta.
    now rewrite slots_without_events, P. }
  split; [exact C|]. split; [exact S|]. rewrite C, S.
  cbn [Availability.slots_of option_map]. split.
  - intros ->. now rewrite Hparse.
  - intros t Ht Hc Hs Hr. rewrite Hparse, Ht. f_equal.
    unfold Expected.unfiltered.
    destruct (Expected.in_range t); [|reflexivity].
    rewrite !map_time_slot_of. f_equal.
    apply filter_ext_in. intros e Hin.
    now rewrite !offered_by_the_clock.
Qed.

(** A browser two hours ahead of UTC and a server seven hours behind: the
    same eighteen labels for 60 minutes on 2025-08-20. *)
Lemma client_slots_agree_with_server_witness :
  (Z.abs 60 < 2 ^ 53
   /\ Sample.Date_parse 120 "2025-08-20" = Sample.Date_parse (-420) "2025-08-20"
   /\ Availability.fetch_existingEvents (-420) (Sample.Date_parse (-420))
        Sample.Date_toISOString Sample.no_events "2025-08-20" = [])
  /\ option_map (map Availability.time)
       (Client.calculateAvailableSlots 120 (Sample.Date_parse 120)
          Sample.Date_toISOString [] "2025-08-20" (Some 60))
     = Some (map Availability.time
               (Availability.slots_of
                  (Availability.get_availability (-420)
                     (Sample.Date_parse (-420)) Sample.Date_toISOString
                     Sample.no_events "2025-08-20" (Some "60")))).
Proof.
  assert (H1 : Z.abs 60 < 2 ^ 53) by (vm_compute; reflexivity).
  assert (H2 : Sample.Date_parse 120 "2025-08-20"
               = Sample.Date_parse (-420) "2025-08-20") by reflexivity.
  assert (H3 : Availability.fetch_existingEvents (-420)
                 (Sample.Date_parse (-420)) Sample.Date_toISOString
                 Sample.no_events "2025-08-20" = [])
    by (vm_compute; reflexivity).
  split; [exact (conj H1 (conj H2 H3))|].
  refine (proj2 (proj2 (proj2
            (client_slots_agree_with_server 120 (-420)
               (Sample.Date_parse 120) (Sample.Date_parse (-420))
               Sample.Date_toISOString Sample.no_events "2025-08-20" 60
               H1 H2 H3))) 1755648000000 _ _ _ _);
    [vm_compute; reflexivity | lia | lia | vm_compute; discriminate].
Defined.

(** * The row limit of the audit log endpoint *)

(** X12. The limit handed to the audit-log query is never above 200 and
    never 0; it is 100 when the parameter is absent, empty, not a number or
    zero. It is below 1 only when the parameter is a negative number, which
    is then passed on as it is. *)
Theorem audit_limit_bounds (limit : option string) :
  AuditLogs.limit_of limit <= 200
  /\ AuditLogs.limit_of limit <> 0
  /\ (limit = None \/ limit = Some "" -> AuditLogs.limit_of limit = 100)
  /\ (forall s, limit = Some s ->
        AuditLogs.parseInt10 s = None \/ AuditLogs.parseInt10 s = Some 0 ->
        AuditLogs.limit_of limit = 100)
  /\ (AuditLogs.limit_of limit < 1 ->
      exists s n, limit = Some s /\ AuditLogs.parseInt10 s = Some n
                  /\ n < 0 /\ AuditLogs.limit_of limit = n).
Proof.
  assert (P100 : AuditLogs.parseInt10 "100" = Some 100) by reflexivity.
  unfold AuditLogs.limit_of.
  destruct limit as [s|]; cbv zeta.
  - destruct (String.eqb_spec s "") as [->|Hs].
    + rewrite P100. repeat split; try lia; try reflexivity.
    + destruct (AuditLogs.parseInt10 s) as [[|p|p]|] eqn:E.
      * repeat split; try lia; try reflexivity.
      * repeat split; try lia.
        -- intros [H|H]; [discriminate | congruence].
        -- intros t [= <-] [H|H]; congruence.
      * repeat split; try lia.
        -- intros [H|H]; [discriminate | congruence].
        -- intros t [= <-] [H|H]; congruence.
        -- intros _. exists s, (Z.neg p). repeat split; try assumption; lia.
      * repeat split; try lia; try reflexivity.
  - rewrite P100. repeat split; try lia; try reflexivity.
Qed.

(** * Identifiers: how they split and when they collide *)

Lemma all_chars_weaken (p q : ascii -> bool) (s : string) :
  (forall c, p c = true -> q c = true) ->
  IdGenerator.all_chars p s = true -> IdGenerator.all_chars q s = true.
Proof.
  intros H. induction s as [|c s IH]; simpl; [reflexivity|].
  intros E. apply andb_true_iff in E as [E1 E2].
  now rewrite (H _ E1), IH.
Qed.

Lemma base36_upper_not_dash (c : ascii) :
  IdGenerator.is_base36_upper c = true -> negb (Ascii.eqb c "-") = true.
Proof.
  destruct (Ascii.eqb_spec c "-") as [->|]; [discriminate | reflexivity].
Qed.

Lemma split_aux_plain (a cur : string) :
  IdGenerator.all_chars (fun c => negb (Ascii.eqb c "-")) a = true ->
  Client.split_aux "-" cur a = [cur ++ a].
Proof.
  revert cur. induction a as [|c a IH]; intros cur H; simpl.
  - f_equal. clear. induction cur as [|x cur IH]; simpl; [reflexivity|].
    now f_equal.
  - simpl in H. apply andb_true_iff in H as [H1 H2].
    apply negb_true_iff in H1. rewrite H1, IH, append_assoc by assumption.
    reflexivity.
Qed.

Lemma split_aux_sep (a cur rest : string) :
  IdGenerator.all_chars (fun c => negb (Ascii.eqb c "-")) a = true ->
  Client.split_aux "-" cur (a ++ String "-" rest)
  = (cur ++ a) :: Client.split_aux "-" EmptyString rest.
Proof.
  revert cur. induction a as [|c a IH]; intros cur H; simpl.
  - f_equal. clear. induction cur as [|x cur IH]; simpl; [reflexivity|].
    now f_equal.
  - simpl in H. apply andb_true_iff in H as [H1 H2].
    apply negb_true_iff in H1. rewrite H1, IH, append_assoc by assumption.
    reflexivity.
Qed.

Lemma append_sep_injective (a a' r r' : string) :
  IdGenerator.all_chars (fun c => negb (Ascii.eqb c "-")) a = true ->
  IdGenerator.all_chars (fun c => negb (Ascii.eqb c "-")) a' = true ->
  a ++ String "-" r = a' ++ String "-" r' -> a = a' /\ r = r'.
Proof.
  revert a'. induction a as [|c a IH]; intros [|c' a'] H H' E; simpl in *.
  - injection E as ->. now split.
  - injection E as <- _. discriminate H'.
  - injection E as -> _. discriminate H.
  - injection E as -> E.
    apply andb_true_iff in H as [_ H]. apply andb_true_iff in H' as [_ H'].
    destruct (IH _ H H' E) as [-> ->]. now split.
Qed.

Lemma generateBookingId_parts (now : N) (frac : list N) :
  IdGenerator.generateBookingId now frac
  = "4EV" ++ String "-"
      (JS.toUpperCase (JS.toString36 now)
       ++ String "-" (JS.toUpperCase (IdGenerator.digits36 (firstn 4 frac)))).
Proof.
  unfold IdGenerator.generateBookingId. cbn [append]. do 5 f_equal.
  unfold JS.substring, IdGenerator.Math_random_toString36.
  destruct frac as [|d frac]; [reflexivity|].
  change (String.substring 2 (6 - 2) ("0." ++ IdGenerator.digits36 (d :: frac)))
    with (String.substring 0 4 (IdGenerator.digits36 (d :: frac))).
  now rewrite substring_digits36.
Qed.

Lemma timestamp_no_dash (now : N) :
  IdGenerator.all_chars (fun c => negb (Ascii.eqb c "-"))
    (JS.toUpperCase (JS.toString36 now)) = true.
Proof.
  apply (all_chars_weaken _ _ _ base36_upper_not_dash).
  apply toString36_digits.
Qed.

Lemma suffix_no_dash (frac : list N) :
  Forall (fun d => (d < 36)%N) frac ->
  IdGenerator.all_chars (fun c => negb (Ascii.eqb c "-"))
    (JS.toUpperCase (IdGenerator.digits36 (firstn 4 frac))) = true.
Proof.
  intros H. apply (all_chars_weaken _ _ _ base36_upper_not_dash).
  apply digits36_upper.
  rewrite <- (firstn_skipn 4 frac) in H. now apply Forall_app in H.
Qed.

(** X13. The short code that the form shows after a booking is the last
    dash-separated part of the identifier. For an identifier made by
    [generateBookingId] this is the random suffix, and the whole identifier
    in the rare case where the suffix is empty. *)
Theorem display_code_of_generated_id (now : N) (frac : list N) :
  Forall (fun d => (d < 36)%N) frac ->
  Client.displayBookingCode (IdGenerator.generateBookingId now frac)
  = match frac with
    | [] => IdGenerator.generateBookingId now frac
    | _ => JS.toUpperCase (IdGenerator.digits36 (firstn 4 frac))
    end.
Proof.
  intros Hfrac.
  assert (S : Client.split "-" (IdGenerator.generateBookingId now frac)
              = ["4EV"; JS.toUpperCase (JS.toString36 now);
                 JS.toUpperCase (IdGenerator.digits36 (firstn 4 frac))]).
  { rewrite generateBookingId_parts. unfold Client.split.
    rewrite (split_aux_sep "4EV") by reflexivity.
    rewrite split_aux_sep by apply timestamp_no_dash.
    rewrite split_aux_plain by now apply suffix_no_dash.
    reflexivity. }
  unfold Client.displayBookingCode. rewrite S. cbn [List.last].
  destruct frac as [|d frac]; reflexivity.
Qed.

Lemma display_code_of_generated_id_witness :
  Forall (fun d => (d < 36)%N) [18; 35; 0; 7; 22]%N
  /\ Client.displayBookingCode "4EV-MEJ7HMO0-IZ07" = "IZ07".
Proof.
  assert (H : Forall (fun d => (d < 36)%N) [18; 35; 0; 7; 22]%N)
    by (repeat constructor).
  split; [exact H|].
  exact (display_code_of_generated_id 1755648000000 [18; 35; 0; 7; 22]%N H).
Defined.

Lemma digits36_upper_injective (l l' : list N) :
  Forall (fun d => (d < 36)%N) l -> Forall (fun d => (d < 36)%N) l' ->
  JS.toUpperCase (IdGenerator.digits36 l)
  = JS.toUpperCase (IdGenerator.digits36 l') ->
  l = l'.
Proof.
  intros H. revert l'.
  induction H as [|d l Hd _ IH]; intros l' H' E; destruct H' as [|d' l' Hd' H'];
    simpl in E; try discriminate E; [reflexivity|].
  injection E as Ec E.
  f_equal; [|now apply IH].
  rewrite <- (proj2 (digit36_upper _ Hd)), <- (proj2 (digit36_upper _ Hd')).
  now rewrite Ec.
Qed.

(** X14. Two generated identifiers are equal only if they were made in
    the same millisecond and the random numbers agree on their first four
    base-36 fraction digits. *)
Theorem equal_ids_share_time_and_digits (now now' : N) (frac frac' : list N) :
  Forall (fun d => (d < 36)%N) frac ->
  Forall (fun d => (d < 36)%N) frac' ->
  IdGenerator.generateBookingId now frac
  = IdGenerator.generateBookingId now' frac' ->
  now = now' /\ firstn 4 frac = firstn 4 frac'.
Proof.
  intros H H' E. rewrite !generateBookingId_parts in E.
  cbn [append] in E. injection E as E.
  apply append_sep_injective in E as [Et Er]; try apply timestamp_no_dash.
  split.
  - rewrite <- (proj2 (proj2 (toString36_digits now))),
      <- (proj2 (proj2 (toString36_digits now'))).
    now rewrite Et.
  - apply digits36_upper_injective; try assumption.
    + rewrite <- (firstn_skipn 4 frac) in H. now apply Forall_app in H.
    + rewrite <- (firstn_skipn 4 frac') in H'. now apply Forall_app in H'.
Qed.

Lemma equal_ids_share_time_and_digits_witness :
  (Forall (fun d => (d < 36)%N) [18; 35; 0; 7; 22]%N
   /\ Forall (fun d => (d < 36)%N) [18; 35; 0; 7; 1]%N
   /\ IdGenerator.generateBookingId 1755648000000 [18; 35; 0; 7; 22]%N
      = IdGenerator.generateBookingId 1755648000000 [18; 35; 0; 7; 1]%N)
  /\ firstn 4 [18; 35; 0; 7; 22]%N = firstn 4 [18; 35; 0; 7; 1]%N.
Proof.
  assert (H1 : Forall (fun d => (d < 36)%N) [18; 35; 0; 7; 22]%N)
    by (repeat constructor).
  assert (H2 : Forall (fun d => (d < 36)%N) [18; 35; 0; 7; 1]%N)
    by (repeat constructor).
  assert (H3 : IdGenerator.generateBookingId 1755648000000
                 [18; 35; 0; 7; 22]%N
               = IdGenerator.generateBookingId 1755648000000
                   [18; 35; 0; 7; 1]%N) by (vm_compute; reflexivity).
  split; [exact (conj H1 (conj H2 H3))|].
  exact (proj2 (equal_ids_share_time_and_digits _ _ _ _ H1 H2 H3)).
Defined.

(** * The raw Gmail message *)

Lemma below_64 (P : N -> bool) :
  forallb P (map N.of_nat (seq 0 64)) = true ->
  forall k, (k < 64)%N -> P k = true.
Proof.
  intros H k Hk. rewrite forallb_forall in H. apply H.
  apply in_map_iff. exists (N.to_nat k). split.
  - apply N2Nat.id.
  - apply in_seq. lia.
Qed.

(** After the two replacements a base64 digit is a base64url character
    and is not the padding character. *)
Lemma base64_char_url (k : N) :
  (k < 64)%N ->
  let c := Gmail.base64_char k in
  let u := if Ascii.eqb (if Ascii.eqb c "+" then "-"%char else c) "/"
           then "_"%char else (if Ascii.eqb c "+" then "-"%char else c) in
  Gmail.is_base64url u = true /\ Ascii.eqb u "=" = false.
Proof.
  intros Hk.
  pose proof (below_64
    (fun k =>
       let c := Gmail.base64_char k in
       let u := if Ascii.eqb (if Ascii.eqb c "+" then "-"%char else c) "/"
                then "_"%char else (if Ascii.eqb c "+" then "-"%char else c) in
       Gmail.is_base64url u && negb (Ascii.eqb u "="))
    eq_refl k Hk) as H.
  cbv zeta in H |- *. apply andb_true_iff in H as [H1 H2].
  apply negb_true_iff in H2. now split.
Qed.

Lemma string_ind3 (P : string -> Prop) :
  P EmptyString ->
  (forall a, P (String a EmptyString)) ->
  (forall a b, P (String a (String b EmptyString))) ->
  (forall a b c r, P r -> P (String a (String b (String c r)))) ->
  forall s, P s.
Proof.
  intros H0 H1 H2 H3.
  assert (A : forall s, P s /\ (forall a, P (String a s))
                        /\ (forall a b, P (String a (String b s)))).
  { induction s as [|c s (IH0 & IH1 & IH2)].
    - repeat split; auto.
    - repeat split; auto. }
  intros s. apply A.
Qed.

(** The url form of a base64 text: both replacements, then the padding
    removed. *)
Lemma url_cons (c : ascii) (r : string) :
  Ascii.eqb (if Ascii.eqb (if Ascii.eqb c "+" then "-"%char else c) "/"
             then "_"%char else (if Ascii.eqb c "+" then "-"%char else c))
            "=" = false ->
  Gmail.strip_padding
    (Gmail.replace_all "/" "_" (Gmail.replace_all "+" "-" (String c r)))
  = String (if Ascii.eqb (if Ascii.eqb c "+" then "-"%char else c) "/"
            then "_"%char else (if Ascii.eqb c "+" then "-"%char else c))
      (Gmail.strip_padding
         (Gmail.replace_all "/" "_" (Gmail.replace_all "+" "-" r))).
Proof.
  intros H. cbn [Gmail.replace_all Gmail.strip_padding]. rewrite H.
  now destruct (Gmail.strip_padding _).
Qed.

Lemma sextet_bounds (x y z : N) :
  (x < 256)%N -> (y < 256)%N -> (z < 256)%N ->
  (x / 4 < 64 /\ (x mod 4) * 16 < 64 /\ (x mod 4) * 16 + y / 16 < 64
   /\ (y mod 16) * 4 < 64 /\ (y mod 16) * 4 + z / 64 < 64
   /\ z mod 64 < 64)%N.
Proof.
  intros Hx Hy Hz.
  pose proof (N.mod_lt x 4 ltac:(discriminate)).
  pose proof (N.mod_lt y 16 ltac:(discriminate)).
  pose proof (N.mod_lt z 64 ltac:(discriminate)).
  assert (x / 4 < 64)%N by (apply N.Div0.div_lt_upper_bound; lia).
  assert (y / 16 < 16)%N by (apply N.Div0.div_lt_upper_bound; lia).
  assert (z / 64 < 4)%N by (apply N.Div0.div_lt_upper_bound; lia).
  lia.
Qed.

Lemma base64url_of_bytes (s : string) :
  let raw := Gmail.strip_padding
               (Gmail.replace_all "/" "_"
                  (Gmail.replace_all "+" "-" (Gmail.base64 s))) in
  IdGenerator.all_chars Gmail.is_base64url raw = true
  /\ String.length raw = ((4 * String.length s + 2) / 3)%nat.
Proof.
  induction s as [|a|a b|a b c r [IH1 IH2]] using string_ind3; cbv zeta.
  - split; reflexivity.
  - destruct (sextet_bounds _ 0 0 (N_ascii_bounded a) eq_refl eq_refl)
      as (B1 & B2 & _).
    destruct (base64_char_url _ B1) as [U1 E1].
    destruct (base64_char_url _ B2) as [U2 E2]. cbv zeta in *.
    cbn [Gmail.base64]. cbv zeta.
    rewrite (url_cons _ _ E1), (url_cons _ _ E2).
    cbn [IdGenerator.all_chars]. rewrite U1, U2. split; reflexivity.
  - destruct (sextet_bounds _ _ 0 (N_ascii_bounded a) (N_ascii_bounded b)
                eq_refl) as (B1 & _ & B2 & B3 & _).
    destruct (base64_char_url _ B1) as [U1 E1].
    destruct (base64_char_url _ B2) as [U2 E2].
    destruct (base64_char_url _ B3) as [U3 E3]. cbv zeta in *.
    cbn [Gmail.base64]. cbv zeta.
    rewrite (url_cons _ _ E1), (url_cons _ _ E2), (url_cons _ _ E3).
    cbn [IdGenerator.all_chars]. rewrite U1, U2, U3. split; reflexivity.
  - destruct (sextet_bounds _ _ _ (N_ascii_bounded a) (N_ascii_bounded b)
                (N_ascii_bounded c)) as (B1 & _ & B2 & _ & B3 & B4).
    destruct (base64_char_url _ B1) as [U1 E1].
    destruct (base64_char_url _ B2) as [U2 E2].
    destruct (base64_char_url _ B3) as [U3 E3].
    destruct (base64_char_url _ B4) as [U4 E4]. cbv zeta in *.
    cbn [Gmail.base64]. cbv zeta.
    rewrite (url_cons _ _ E1), (url_cons _ _ E2), (url_cons _ _ E3),
      (url_cons _ _ E4).
    cbn [IdGenerator.all_chars String.length]. rewrite U1, U2, U3, U4, IH1, IH2.
    split; [reflexivity|].
    replace (4 * S (S (S (String.length r))) + 2)%nat
      with (4 * String.length r + 2 + 4 * 3)%nat by lia.
    rewrite Nat.div_add by discriminate. lia.
Qed.

(** X15. The [raw] field sent to the Gmail API is unpadded base64url:
    whatever the recipient, subject and body are, it contains only letters,
    digits, [-] and [_] (no [+], [/] or [=]), and it has one character for
    every six bits of the message, rounded up. *)
Theorem encodedMessage_is_base64url (GMAIL_USER : option string)
    (to subject htmlBody fromName : string) :
  let raw := Gmail.encodedMessage GMAIL_USER to subject htmlBody fromName in
  IdGenerator.all_chars Gmail.is_base64url raw = true
  /\ String.length raw
     = ((4 * String.length
               (Gmail.message GMAIL_USER to subject htmlBody fromName) + 2)
        / 3)%nat.
Proof. apply base64url_of_bytes. Qed.

(** * The refresh token in the .env text *)

Lemma append_length (s1 s2 : string) :
  String.length (s1 ++ s2) = (String.length s1 + String.length s2)%nat.
Proof. induction s1 as [|c s1 IH]; simpl; [reflexivity | now rewrite IH]. Qed.

Lemma append_inv_head (p x y : string) : p ++ x = p ++ y -> x = y.
Proof.
  induction p as [|c p IH]; cbn [append]; intros H; [exact H|].
  injection H as H. now apply IH.
Qed.

Lemma starts_with_Some (p s r : string) :
  Env.starts_with p s = Some r -> s = p ++ r.
Proof.
  revert s. induction p as [|a p IH]; intros [|b s] H; simpl in *;
    try discriminate H.
  - now injection H as <-.
  - now injection H as <-.
  - destruct (Ascii.eqb_spec a b) as [->|]; [|discriminate H].
    f_equal. now apply IH.
Qed.

Lemma starts_with_app (p r : string) : Env.starts_with p (p ++ r) = Some r.
Proof.
  induction p as [|a p IH]; simpl; [now destruct r|].
  now rewrite Ascii.eqb_refl.
Qed.

(** Once the text is as long as the prefix, what follows does not matter. *)
Lemma starts_with_long (p w x : string) :
  (String.length p <= String.length w)%nat ->
  Env.starts_with p (w ++ x)
  = option_map (fun r => r ++ x) (Env.starts_with p w).
Proof.
  revert w. induction p as [|a p IH]; intros [|b w] H; simpl in *;
    try reflexivity; try lia.
  destruct (Ascii.eqb a b); [|reflexivity]. apply IH. lia.
Qed.

(** A prefix without the character [n] cannot reach across [n]. *)
Lemma starts_with_blocked (p s x : string) (n : ascii) :
  IdGenerator.all_chars (fun c => negb (Ascii.eqb c n)) p = true ->
  Env.starts_with p s = None ->
  Env.starts_with p (s ++ String n x) = None.
Proof.
  revert s. induction p as [|a p IH]; intros [|b s] Hp H; simpl in *;
    try discriminate H.
  - apply andb_true_iff in Hp as [Hp _]. apply negb_true_iff in Hp.
    now rewrite Hp.
  - apply andb_true_iff in Hp as [_ Hp].
    destruct (Ascii.eqb a b); [|reflexivity]. now apply IH.
Qed.

Lemma at_line_terminator_first (a : string) :
  Env.at_line_terminator a = true ->
  exists c r,
    a = String c r
    /\ (N_of_ascii c = 10 \/ N_of_ascii c = 13 \/ N_of_ascii c = 226)%N.
Proof.
  destruct a as [|c r]; [discriminate|]. intros H. exists c, r.
  split; [reflexivity|]. cbn [Env.at_line_terminator] in H.
  unfold JS.byte_is in H.
  destruct (N.eqb_spec (N_of_ascii c) 10); [now left|].
  destruct (N.eqb_spec (N_of_ascii c) 13); [now right; left|].
  destruct (N.eqb_spec (N_of_ascii c) 226); [now right; right|].
  destruct r as [|c1 [|c2 r]]; discriminate H.
Qed.

(** A line terminator cannot begin in [t] and end in what follows when
    what follows is empty or begins with a line terminator itself. *)
Lemma at_line_terminator_app (c : ascii) (t a : string) :
  Env.at_line_terminator (String c t) = false ->
  (a = EmptyString \/ Env.at_line_terminator a = true) ->
  Env.at_line_terminator (String c (t ++ a)) = false.
Proof.
  intros H [->|A]; [now rewrite append_nil_r|].
  apply at_line_terminator_first in A as (c0 & r0 & -> & A).
  assert (B1 : JS.byte_is c0 128 = false)
    by (unfold JS.byte_is; destruct (N.eqb_spec (N_of_ascii c0) 128); [lia | reflexivity]).
  assert (B2 : JS.byte_is c0 168 = false)
    by (unfold JS.byte_is; destruct (N.eqb_spec (N_of_ascii c0) 168); [lia | reflexivity]).
  assert (B3 : JS.byte_is c0 169 = false)
    by (unfold JS.byte_is; destruct (N.eqb_spec (N_of_ascii c0) 169); [lia | reflexivity]).
  destruct t as [|x [|y t]]; cbn [Env.at_line_terminator append] in H |- *.
  - rewrite orb_false_r in H. rewrite H, B1, andb_false_r.
    now destruct r0.
  - rewrite orb_false_r in H. rewrite H, B2, B3. cbn [orb].
    now rewrite andb_false_r.
  - exact H.
Qed.

Lemma at_line_terminator_prefix (c : ascii) (t a : string) :
  Env.at_line_terminator (String c (t ++ a)) = false ->
  Env.at_line_terminator (String c t) = false.
Proof.
  destruct t as [|x [|y t]]; cbn [Env.at_line_terminator append]; intros H.
  - apply orb_false_iff in H as [H _]. now rewrite H.
  - apply orb_false_iff in H as [H _]. now rewrite H.
  - exact H.
Qed.

Lemma rest_of_line_spec (s l a : string) :
  Env.rest_of_line s = (l, a) ->
  s = l ++ a /\ Env.single_line l = true
  /\ (a = EmptyString \/ Env.at_line_terminator a = true).
Proof.
  revert l a. induction s as [|c s IH]; intros l a H; cbn [Env.rest_of_line] in H.
  - injection H as <- <-. repeat split. now left.
  - destruct (Env.at_line_terminator (String c s)) eqn:T.
    + injection H as <- <-. repeat split. now right.
    + destruct (Env.rest_of_line s) as [l' a'].
      injection H as <- <-. destruct (IH _ _ eq_refl) as (E & N & A).
      split; [cbn [append]; now f_equal|]. split; [|exact A].
      cbn [Env.single_line]. rewrite N, andb_true_r.
      apply negb_true_iff. rewrite E in T.
      exact (at_line_terminator_prefix _ _ _ T).
Qed.

Lemma rest_of_line_app (t a : string) :
  Env.single_line t = true ->
  (a = EmptyString \/ Env.at_line_terminator a = true) ->
  Env.rest_of_line (t ++ a) = (t, a).
Proof.
  intros N A. induction t as [|c t IH]; cbn [append].
  - destruct A as [->|A]; [reflexivity|].
    destruct a as [|c r]; [reflexivity|].
    cbn [Env.rest_of_line]. now rewrite A.
  - cbn [Env.single_line] in N. apply andb_true_iff in N as [T N].
    apply negb_true_iff in T.
    cbn [Env.rest_of_line].
    rewrite (at_line_terminator_app _ _ _ T A), (IH N). reflexivity.
Qed.

Lemma expand_plain (matched before after repl : string) :
  IdGenerator.all_chars (fun c => negb (Ascii.eqb c "$")) repl = true ->
  Env.expand matched before after repl = repl.
Proof.
  induction repl as [|c r IH]; intros H; [reflexivity|].
  simpl in H. apply andb_true_iff in H as [Hc Hr].
  apply negb_true_iff in Hc.
  assert (E : Env.expand matched before after (String c r)
              = String c (Env.expand matched before after r)).
  { destruct (Ascii.eqb_spec c "$") as [->|Hne]; [discriminate Hc|].
    clear - Hne.
    destruct c as [[] [] [] [] [] [] [] []]; try reflexivity.
    now contradiction Hne. }
  rewrite E. f_equal. now apply IH.
Qed.

Lemma find_line_eq (b s : string) :
  Env.find_line b s
  = match (if Env.line_start b then Env.starts_with Env.key s else None) with
    | Some r =>
        let (l, after) := Env.rest_of_line r in Some (b, Env.key ++ l, after)
    | None =>
        match s with
        | EmptyString => None
        | String c r => Env.find_line (b ++ String c EmptyString) r
        end
    end.
Proof. destruct s; reflexivity. Qed.

Lemma after_line_terminator_nl (x : string) :
  Env.after_line_terminator (x ++ Env.nl) = true.
Proof.
  induction x as [|c x IH]; [reflexivity|].
  cbn [append Env.after_line_terminator]. rewrite IH. apply orb_true_r.
Qed.

(** Where [find_line] finds its match, and that the search ends at the
    same place after the matched line has been given another content. *)
Lemma find_line_found (s : string) :
  forall b0 b m a,
    Env.find_line b0 s = Some (b, m, a) ->
    exists u l,
      b = b0 ++ u /\ m = Env.key ++ l /\ s = u ++ Env.key ++ l ++ a
      /\ Env.line_start b = true /\ Env.single_line l = true
      /\ (a = EmptyString \/ Env.at_line_terminator a = true)
      /\ forall t,
           Env.single_line t = true ->
           Env.find_line b0 (u ++ Env.key ++ t ++ a)
           = Some (b, Env.key ++ t, a).
Proof.
  induction s as [|c s IH]; intros b0 b m a H; rewrite find_line_eq in H.
  - destruct (Env.line_start b0); discriminate H.
  - destruct (if Env.line_start b0
              then Env.starts_with Env.key (String c s) else None)
      as [r|] eqn:S.
    + destruct (Env.line_start b0) eqn:Lb; [|discriminate S].
      destruct (Env.rest_of_line r) as [l a'] eqn:R.
      injection H as <- <- <-.
      destruct (rest_of_line_spec _ _ _ R) as (Er & Nl & Aa).
      exists EmptyString, l. rewrite append_nil_r.
      split; [reflexivity|]. split; [reflexivity|].
      split; [rewrite (starts_with_Some _ _ _ S), Er; reflexivity|].
      split; [exact Lb|]. split; [exact Nl|]. split; [exact Aa|].
      intros t Ht. cbn [append].
      rewrite find_line_eq, Lb, starts_with_app, (rest_of_line_app _ _ Ht Aa).
      reflexivity.
    + destruct (IH _ _ _ _ H) as (u & l & Eb & Em & Es & Lb & Nl & Aa & Ht).
      exists (String c u), l.
      split; [rewrite Eb, append_assoc; reflexivity|].
      split; [exact Em|]. split; [cbn [append]; now f_equal|].
      split; [exact Lb|]. split; [exact Nl|]. split; [exact Aa|].
      intros t Nt. cbn [append]. rewrite find_line_eq.
      assert (S' : (if Env.line_start b0
                    then Env.starts_with Env.key
                           (String c (u ++ Env.key ++ t ++ a))
                    else None) = None).
      { destruct (Env.line_start b0); [|reflexivity].
        rewrite Es in S.
        change (String c (u ++ Env.key ++ l ++ a))
          with (String c u ++ (Env.key ++ l ++ a)) in S.
        change (String c (u ++ Env.key ++ t ++ a))
          with (String c u ++ (Env.key ++ t ++ a)).
        rewrite <- append_assoc in S |- *.
        rewrite starts_with_long in S |- *
          by (rewrite append_length; cbn; lia).
        destruct (Env.starts_with Env.key (String c u ++ Env.key));
          [discriminate S | reflexivity]. }
      rewrite S'. now apply Ht.
Qed.

(** The match found is the first: no line that begins earlier starts with
    the key. *)
Lemma find_line_first (s : string) :
  forall b0 u m a,
    Env.find_line b0 s = Some (b0 ++ u, m, a) ->
    forall u' w,
      s = u' ++ Env.key ++ w -> Env.line_start (b0 ++ u') = true ->
      (String.length u <= String.length u')%nat.
Proof.
  induction s as [|c s IH]; intros b0 u m a H u' w E L;
    rewrite find_line_eq in H.
  - destruct (Env.line_start b0); discriminate H.
  - destruct (if Env.line_start b0
              then Env.starts_with Env.key (String c s) else None)
      as [r|] eqn:S.
    + destruct (Env.rest_of_line r) as [l a']. injection H as Hb _ _.
      assert (Hlen : String.length b0 = String.length (b0 ++ u))
        by now rewrite <- Hb.
      rewrite append_length in Hlen. lia.
    + destruct u' as [|c' u'].
      * exfalso. rewrite append_nil_r in L. rewrite L in S.
        cbn [append] in E. rewrite E, starts_with_app in S. discriminate S.
      * cbn [append] in E. injection E as <- E.
        destruct (find_line_found _ _ _ _ _ H) as (u1 & l1 & Eb & _).
        assert (Eu : u = String c u1).
        { apply (append_inv_head b0). rewrite Eb, append_assoc. reflexivity. }
        subst u. cbn [String.length]. apply le_n_S.
        apply (IH (b0 ++ String c EmptyString) u1 m a) with (w := w).
        -- rewrite H. now rewrite append_assoc.
        -- exact E.
        -- now rewrite append_assoc.
Qed.

Lemma find_line_appended (t : string) (s : string) :
  Env.single_line t = true ->
  forall b0,
    Env.find_line b0 s = None ->
    Env.find_line b0 (s ++ Env.nl ++ Env.key ++ t ++ Env.nl)
    = Some (b0 ++ s ++ Env.nl, Env.key ++ t, Env.nl).
Proof.
  intros Nt. induction s as [|c s IH]; intros b0 H.
  - cbn [append]. rewrite find_line_eq.
    assert (S : (if Env.line_start b0
                 then Env.starts_with Env.key
                        (Env.nl ++ Env.key ++ t ++ Env.nl)
                 else None) = None)
      by (destruct (Env.line_start b0); reflexivity).
    rewrite S. cbn [append Env.nl]. fold Env.nl.
    rewrite find_line_eq.
    unfold Env.line_start. rewrite after_line_terminator_nl, orb_true_r.
    rewrite starts_with_app, (rest_of_line_app _ _ Nt); [reflexivity|].
    now right.
  - rewrite find_line_eq in H.
    destruct (if Env.line_start b0
              then Env.starts_with Env.key (String c s) else None)
      as [r|] eqn:S.
    + destruct (Env.rest_of_line r); discriminate H.
    + cbn [append]. rewrite find_line_eq.
      assert (S' : (if Env.line_start b0
                    then Env.starts_with Env.key
                           (String c (s ++ Env.nl ++ Env.key ++ t ++ Env.nl))
                    else None) = None).
      { destruct (Env.line_start b0); [|reflexivity].
        change (String c (s ++ Env.nl ++ Env.key ++ t ++ Env.nl))
          with (String c s
                ++ String (ascii_of_nat 10) (Env.key ++ t ++ Env.nl)).
        now apply starts_with_blocked. }
      rewrite S', (IH _ H), !append_assoc. reflexivity.
Qed.

(** X16. The OAuth callback stores the token in the .env text. For a
    token without [$] and without a line terminator (LF, CR, U+2028,
    U+2029): if a line starts with [GOOGLE_REFRESH_TOKEN=], the first such
    line becomes [GOOGLE_REFRESH_TOKEN=<token>] and the text before and
    after it is kept; otherwise that line is appended. Either way the first
    line with the key then holds the token, and storing the same token
    again changes nothing. *)
Theorem update_env_sets_token (envContent token : string) :
  IdGenerator.all_chars (fun c => negb (Ascii.eqb c "$")) token = true ->
  Env.single_line token = true ->
  match Env.find_line EmptyString envContent with
  | Some (before, old, after) =>
      envContent = before ++ old ++ after
      /\ Env.line_start before = true
      /\ (exists l, old = Env.key ++ l /\ Env.single_line l = true)
      /\ (after = EmptyString \/ Env.at_line_terminator after = true)
      /\ (forall u w,
            envContent = u ++ Env.key ++ w -> Env.line_start u = true ->
            (String.length before <= String.length u)%nat)
      /\ Env.update_env envContent token
         = before ++ Env.key ++ token ++ after
  | None =>
      Env.update_env envContent token
      = envContent ++ Env.nl ++ Env.key ++ token ++ Env.nl
  end
  /\ (exists before after,
        Env.find_line EmptyString (Env.update_env envContent token)
        = Some (before, Env.key ++ token, after))
  /\ Env.update_env (Env.update_env envContent token) token
     = Env.update_env envContent token.
Proof.
  intros Hd Nt.
  assert (X : forall m b a,
             Env.expand m b a (Env.key ++ token) = Env.key ++ token).
  { intros. apply expand_plain. now rewrite all_chars_app, Hd. }
  assert (U : forall text b a,
             Env.find_line EmptyString text
             = Some (b, Env.key ++ token, a) ->
             text = b ++ Env.key ++ token ++ a ->
             Env.update_env text token = text).
  { intros text b a F E. unfold Env.update_env. rewrite F, X, E.
    now rewrite !append_assoc. }
  destruct (Env.find_line EmptyString envContent) as [[[b m] a]|] eqn:F.
  - destruct (find_line_found _ _ _ _ _ F)
      as (u & l & Eb & Em & Es & Lb & Nl & Aa & Ht).
    cbn [append] in Eb. subst b m. specialize (Ht token Nt).
    assert (Hupd : Env.update_env envContent token
                   = u ++ Env.key ++ token ++ a).
    { unfold Env.update_env. rewrite F, X. now rewrite append_assoc. }
    rewrite Hupd.
    split; [|split; [now exists u, a | now apply (U _ u a)]].
    split; [now rewrite Es, append_assoc|].
    split; [exact Lb|]. split; [now exists l|]. split; [exact Aa|].
    split; [|reflexivity].
    intros u' w E L. exact (find_line_first _ EmptyString u _ _ F u' w E L).
  - pose proof (find_line_appended token envContent Nt _ F) as A.
    cbn [append] in A.
    assert (Hupd : Env.update_env envContent token
                   = envContent ++ Env.nl ++ Env.key ++ token ++ Env.nl).
    { unfold Env.update_env. now rewrite F. }
    rewrite Hupd.
    split; [reflexivity|].
    split; [now exists (envContent ++ Env.nl), Env.nl|].
    apply (U _ _ _ A). now rewrite !append_assoc.
Qed.

(** A text in which U+2028 precedes the key: the key then starts a line,
    and the line is replaced in place. *)
Lemma update_env_sets_token_witness :
  let ls := String (ascii_of_nat 226) (String (ascii_of_nat 128)
              (String (ascii_of_nat 168) EmptyString)) in
  let envContent :=
    "PORT=3001" ++ ls
    ++ "GOOGLE_REFRESH_TOKEN=your-refresh-token-here" ++ Env.nl
    ++ "GMAIL_USER=hello@4everevents.example" ++ Env.nl in
  (IdGenerator.all_chars (fun c => negb (Ascii.eqb c "$")) "1//0gAbC-xyz_12"
   = true
   /\ Env.single_line "1//0gAbC-xyz_12" = true)
  /\ Env.update_env (Env.update_env envContent "1//0gAbC-xyz_12")
       "1//0gAbC-xyz_12"
     = "PORT=3001" ++ ls
       ++ "GOOGLE_REFRESH_TOKEN=1//0gAbC-xyz_12" ++ Env.nl
       ++ "GMAIL_USER=hello@4everevents.example" ++ Env.nl.
Proof.
  intros ls envContent.
  assert (H1 : IdGenerator.all_chars (fun c => negb (Ascii.eqb c "$"))
                 "1//0gAbC-xyz_12" = true) by reflexivity.
  assert (H2 : Env.single_line "1//0gAbC-xyz_12" = true) by reflexivity.
  split; [exact (conj H1 H2)|].
  rewrite (proj2 (proj2 (update_env_sets_token envContent _ H1 H2))).
  vm_compute. reflexivity.
Defined.

Lemma find_anywhere_absent (s : string) :
  (forall u x, s <> u ++ Env.key ++ x) ->
  forall b, Env.find_anywhere b s = None.
Proof.
  induction s as [|c s IH]; intros H b.
  - reflexivity.
  - cbn [Env.find_anywhere].
    destruct (Env.starts_with Env.key (String c s)) as [r|] eqn:S.
    + exfalso. apply (H EmptyString r). exact (starts_with_Some _ _ _ S).
    + apply IH. intros u x E. apply (H (String c u) x). cbn [append].
      now f_equal.
Qed.

(** X17. When the .env text nowhere contains [GOOGLE_REFRESH_TOKEN=], the
    two setup paths differ: the command-line setup writes the text back
    unchanged, so the token is not stored, while the OAuth callback appends
    a line with the token. *)
Theorem missing_key_is_only_added_by_callback (envContent token : string) :
  (forall u x, envContent <> u ++ Env.key ++ x) ->
  Env.replace_token envContent token = envContent
  /\ Env.update_env envContent token
     = envContent ++ Env.nl ++ Env.key ++ token ++ Env.nl.
Proof.
  intros H. split.
  - unfold Env.replace_token. now rewrite find_anywhere_absent.
  - unfold Env.update_env.
    destruct (Env.find_line EmptyString envContent) as [[[b m] a]|] eqn:F;
      [|reflexivity].
    destruct (find_line_found _ _ _ _ _ F) as (u & l & _ & _ & Es & _).
    exfalso. now apply (H u (l ++ a)).
Qed.

Lemma missing_key_is_only_added_by_callback_witness :
  (forall u x, "PORT=3001" <> u ++ Env.key ++ x)
  /\ Env.replace_token "PORT=3001" "tok" = "PORT=3001"
  /\ Env.update_env "PORT=3001" "tok"
     = "PORT=3001" ++ Env.nl ++ "GOOGLE_REFRESH_TOKEN=tok" ++ Env.nl.
Proof.
  assert (H : forall u x, "PORT=3001" <> u ++ Env.key ++ x).
  { intros u x E.
    assert (L : String.length "PORT=3001"
                = String.length (u ++ Env.key ++ x)) by now rewrite <- E.
    rewrite !append_length in L. cbn in L. lia. }
  split; [exact H|].
  exact (missing_key_is_only_added_by_callback "PORT=3001" "tok" H).
Defined.

(** X18. The OAuth callback writes the .env file on one path only: when no
    error was reported, a code was given, the token exchange returned a
    non-empty refresh token, and the file could be read and written. It
    then answers 200 and the text written is the updated text; on every
    other path it answers 400 or 500 and writes nothing. *)
Theorem oauth_callback_writes_on_success_only (error code : option string)
    (getToken : string -> Env.TokenResult) (envFile : option string)
    (write_throws : bool) :
  let '(status, written) :=
    Env.oauth_callback error code getToken envFile write_throws in
  (status = 200 \/ status = 400 \/ status = 500)
  /\ (status <> 200 -> written = None)
  /\ (status = 200 ->
      exists c token envContent,
        Env.truthy error = false /\ code = Some c /\ c <> EmptyString
        /\ getToken c = Env.GetTokenReturns (Some token)
        /\ token <> EmptyString /\ envFile = Some envContent
        /\ write_throws = false
        /\ written = Some (Env.update_env envContent token)).
Proof.
  unfold Env.oauth_callback.
  destruct (Env.truthy error) eqn:Te;
    [repeat split; auto; discriminate|].
  destruct code as [c|]; cbn [Env.truthy negb];
    [|repeat split; auto; discriminate].
  destruct (String.eqb_spec c "") as [->|Hc]; cbn [negb];
    [repeat split; auto; discriminate|].
  destruct (getToken c) as [|[t|]] eqn:G; cbn [Env.truthy negb];
    try (repeat split; auto; discriminate).
  destruct (String.eqb_spec t "") as [->|Ht]; cbn [negb];
    [repeat split; auto; discriminate|].
  destruct envFile as [envContent|]; [|repeat split; auto; discriminate].
  destruct write_throws; [repeat split; auto; discriminate|].
  split; [now left|]. split; [congruence|].
  intros _. exists c, t, envContent. repeat split; auto.
Qed.

(** * The API client's base URL *)

Lemma dedupe_spec (l : list string) :
  forall seen,
    NoDup (ApiBase.dedupe seen l)
    /\ (forall x, In x (ApiBase.dedupe seen l) <-> In x l /\ ~ In x seen).
Proof.
  induction l as [|a l IH]; intros seen; cbn [ApiBase.dedupe].
  - split; [constructor|]. intros x. cbn. tauto.
  - destruct (existsb (String.eqb a) seen) eqn:X.
    + apply existsb_exists in X as (y & Hy & E).
      apply String.eqb_eq in E. subst y.
      destruct (IH seen) as [ND M]. split; [exact ND|].
      intros x. specialize (M x). cbn [In]. split.
      * intros H. apply M in H. tauto.
      * intros [[<-|H] N]; [contradiction|]. apply M. tauto.
    + assert (Na : ~ In a seen).
      { intros Hin.
        assert (existsb (String.eqb a) seen = true)
          by (apply existsb_exists; exists a; split;
              [assumption | apply String.eqb_refl]).
        congruence. }
      destruct (IH (a :: seen)) as [ND M]. split.
      * constructor; [|exact ND]. intros H. apply M in H. cbn in H. tauto.
      * intros x. specialize (M x). cbn [In] in *. split.
        -- intros [<-|H]; [tauto|]. apply M in H. tauto.
        -- intros [[<-|H] N]; [now left|].
           destruct (string_dec a x) as [->|Hne]; [now left|].
           right. apply M. tauto.
Qed.

Lemma apiBaseCandidates_invariants_aux (configuredBase : string) :
  ApiBase.apiBaseCandidates configuredBase <> []
  /\ In "http://localhost:3001/api" (ApiBase.apiBaseCandidates configuredBase).
Proof.
  unfold ApiBase.apiBaseCandidates.
  set (cands := filter ApiBase.nonempty (_ :: _)).
  destruct (dedupe_spec (map (ApiBase.strip_suffix "/") cands) []) as [_ M].
  assert (I : In "http://localhost:3001/api"
                (filter ApiBase.nonempty
                   (ApiBase.dedupe [] (map (ApiBase.strip_suffix "/") cands)))).
  { apply filter_In. split; [|reflexivity].
    apply M. split; [|intros []].
    apply in_map_iff. exists "http://localhost:3001/api".
    split; [reflexivity|].
    unfold cands. apply filter_In. split; [|reflexivity].
    cbn [In]. do 3 right. left. reflexivity. }
  split; [|exact I]. intros E. rewrite E in I. contradiction.
Qed.

(** X19. The list of candidate bases built by the constructor has no
    duplicates and no empty entry, and always contains the four built-in
    development bases, whatever [BOOKING_API_BASE] is; so it is never
    empty. *)
Theorem apiBaseCandidates_invariants (configuredBase : string) :
  NoDup (ApiBase.apiBaseCandidates configuredBase)
  /\ ~ In EmptyString (ApiBase.apiBaseCandidates configuredBase)
  /\ incl ["http://localhost:5174/api"; "http://127.0.0.1:5174/api";
           "http://localhost:3001/api"; "http://127.0.0.1:3001/api"]
          (ApiBase.apiBaseCandidates configuredBase)
  /\ ApiBase.apiBaseCandidates configuredBase <> [].
Proof.
  unfold ApiBase.apiBaseCandidates.
  set (cands := filter ApiBase.nonempty (_ :: _)).
  destruct (dedupe_spec (map (ApiBase.strip_suffix "/") cands) []) as [ND M].
  assert (I : incl ["http://localhost:5174/api"; "http://127.0.0.1:5174/api";
                    "http://localhost:3001/api"; "http://127.0.0.1:3001/api"]
                (filter ApiBase.nonempty
                   (ApiBase.dedupe [] (map (ApiBase.strip_suffix "/") cands)))).
  { intros x Hx. apply filter_In. split.
    - apply M. split; [|intros []].
      apply in_map_iff. exists x. split.
      + cbn in Hx. decompose [or] Hx; subst; try reflexivity. contradiction.
      + unfold cands. apply filter_In. split.
        * right. exact Hx.
        * cbn in Hx. decompose [or] Hx; subst; try reflexivity. contradiction.
    - cbn in Hx. decompose [or] Hx; subst; try reflexivity. contradiction. }
  split; [now apply NoDup_filter|]. split; [|split; [exact I|]].
  - intros Hin. apply filter_In in Hin as [_ H]. discriminate H.
  - intros E. rewrite E in I. apply (I "http://localhost:3001/api").
    cbn [In]. do 2 right. left. reflexivity.
Qed.

(** X20. [initialize] probes the candidates in order and keeps the first
    one whose health check succeeds; it returns false, leaving the base URL
    as the constructor set it, only when every candidate fails. In
    particular it succeeds whenever the development server on
    localhost:3001 answers its health check. *)
Theorem initialize_picks_first_healthy (health_ok : string -> bool)
    (configuredBase : string) :
  let '(ok, base) := ApiBase.initialize health_ok configuredBase in
  (ok = true ->
   exists before after,
     ApiBase.apiBaseCandidates configuredBase = (before ++ base :: after)%list
     /\ ApiBase.probe health_ok base = true
     /\ forall c, In c before -> ApiBase.probe health_ok c = false)
  /\ (ok = false ->
      base = ApiBase.apiBaseUrl configuredBase
      /\ forall c, In c (ApiBase.apiBaseCandidates configuredBase) ->
                   ApiBase.probe health_ok c = false)
  /\ (health_ok "http://localhost:3001/health" = true -> ok = true).
Proof.
  assert (F : forall (p : string -> bool) l,
             match find p l with
             | Some x =>
                 exists before after,
                   l = (before ++ x :: after)%list /\ p x = true
                   /\ forall c, In c before -> p c = false
             | None => forall c, In c l -> p c = false
             end).
  { intros p l. induction l as [|a l IH]; cbn [find]; [intros c []|].
    destruct (p a) eqn:Pa.
    - exists [], l. repeat split; [exact Pa | intros c []].
    - destruct (find p l) as [x|].
      + destruct IH as (before & after & -> & Px & Hb).
        exists (a :: before), after. repeat split; [exact Px|].
        intros c [<-|Hc]; [exact Pa | now apply Hb].
      + intros c [<-|Hc]; [exact Pa | now apply IH]. }
  destruct (apiBaseCandidates_invariants_aux configuredBase) as [Hne Hdev].
  unfold ApiBase.initialize.
  destruct (ApiBase.apiBaseCandidates configuredBase) as [|c0 l] eqn:C;
    [contradiction|].
  specialize (F (ApiBase.probe health_ok) (c0 :: l)).
  destruct (find (ApiBase.probe health_ok) (c0 :: l)) as [x|].
  - split; [intros _; exact F|]. split; [discriminate | reflexivity].
  - split; [discriminate|]. split; [intros _; split; [reflexivity | exact F]|].
    intros H. pose proof (F _ Hdev) as P.
    change (health_ok "http://localhost:3001/health" = false) in P.
    congruence.
Qed.

(** * The client-side guard of createBooking *)

Lemma missing_str (x : option string) :
  ClientBooking.missing x = true -> Booking.str x = EmptyString.
Proof.
  destruct x as [s|]; cbn; [|reflexivity].
  intros H. now apply String.eqb_eq in H.
Qed.

(** X21. The client-side guard and the server-side validation fit
    together. A body that the server's validation accepts is always posted
    by [createBooking] (given that the validators reject the empty string);
    and whatever [createBooking] posts has its five required fields
    non-empty and an event type that is one of the four configured ones or
    an inherited member name. *)
Theorem createBooking_posts_what_server_accepts
    (isLength : nat -> string -> bool) (isEmail isISO8601 : string -> bool)
    (trim : string -> string) (inherited : string -> bool)
    (bookingData : Booking.Body) :
  isLength 2%nat (trim EmptyString) = false ->
  isEmail EmptyString = false ->
  isISO8601 EmptyString = false ->
  (Booking.validationResult isLength isEmail isISO8601 trim bookingData = [] ->
   ClientBooking.createBooking inherited bookingData
   = ClientBooking.Posted bookingData)
  /\ (forall posted,
        ClientBooking.createBooking inherited bookingData
        = ClientBooking.Posted posted ->
        posted = bookingData
        /\ Booking.str (Booking.clientName bookingData) <> EmptyString
        /\ Booking.str (Booking.clientEmail bookingData) <> EmptyString
        /\ Booking.str (Booking.eventDate bookingData) <> EmptyString
        /\ Booking.str (Booking.eventTime bookingData) <> EmptyString
        /\ Booking.str (Booking.eventType bookingData) <> EmptyString
        /\ (Booking.isIn Booking.eventType_options
              (Booking.str (Booking.eventType bookingData)) = true
            \/ inherited (Booking.str (Booking.eventType bookingData))
               = true)).
Proof.
  intros Hlen Hmail Hiso. split.
  - unfold Booking.validationResult. intros V.
    repeat (apply app_eq_nil in V as [?C V]).
    apply check_nil in C, C0, C2, C3, C4.
    unfold ClientBooking.createBooking.
    assert (M : forall x, Booking.str x <> EmptyString ->
                          ClientBooking.missing x = false).
    { intros x Hx. destruct (ClientBooking.missing x) eqn:E; [|reflexivity].
      now apply missing_str in E. }
    rewrite !M.
    + cbn [orb]. unfold Booking.isIn, Booking.eventType_options in C4.
      unfold ClientBooking.bookingTypes. now rewrite C4.
    + intros E. rewrite E in C4. discriminate C4.
    + intros E. rewrite E in C3. discriminate C3.
    + intros E. rewrite E in C2. congruence.
    + intros E. rewrite E in C0. congruence.
    + intros E. rewrite E in C. congruence.
  - unfold ClientBooking.createBooking. intros posted H.
    destruct (ClientBooking.missing (Booking.clientName bookingData)) eqn:M1;
      [discriminate H|].
    destruct (ClientBooking.missing (Booking.clientEmail bookingData)) eqn:M2;
      [discriminate H|].
    destruct (ClientBooking.missing (Booking.eventDate bookingData)) eqn:M3;
      [discriminate H|].
    destruct (ClientBooking.missing (Booking.eventTime bookingData)) eqn:M4;
      [discriminate H|].
    destruct (ClientBooking.missing (Booking.eventType bookingData)) eqn:M5;
      [discriminate H|].
    cbn [orb] in H.
    destruct (existsb _ ClientBooking.bookingTypes || inherited _) eqn:T;
      [|discriminate H].
    injection H as <-.
    assert (N : forall x, ClientBooking.missing x = false ->
                          Booking.str x <> EmptyString).
    { intros [s|] Hx E; cbn in *; [|discriminate Hx].
      subst s. discriminate Hx. }
    repeat split; try (now apply N).
    apply orb_true_iff in T. exact T.
Qed.

Lemma createBooking_posts_what_server_accepts_witness :
  (Sample.isLength 2%nat (Sample.trim EmptyString) = false
   /\ Sample.isEmail EmptyString = false
   /\ Sample.isISO8601 EmptyString = false)
  /\ ClientBooking.createBooking (fun _ => false) Sample.request
     = ClientBooking.Posted Sample.request.
Proof.
  assert (H1 : Sample.isLength 2%nat (Sample.trim EmptyString) = false)
    by reflexivity.
  assert (H2 : Sample.isEmail EmptyString = false) by reflexivity.
  assert (H3 : Sample.isISO8601 EmptyString = false) by reflexivity.
  split; [exact (conj H1 (conj H2 H3))|].
  apply (proj1 (createBooking_posts_what_server_accepts Sample.isLength
                  Sample.isEmail Sample.isISO8601 Sample.trim
                  (fun _ => false) Sample.request H1 H2 H3)).
  vm_compute. reflexivity.
Defined.
